(** * AuthLogScanner: the key=value log-line parser and the failed-login count

    A shallow embedding of [src/Week6/AuthLogScanner.py]:
    [parse_log_line] (lines 21-104), [_as_list] (108-111) and
    [count_failed_logins] (113-155), with the two module-level regular
    expressions [TIMESTAMP_RE] and [TOKEN_RE] (lines 5-19).

    Text.  A Python [str] is modelled by [string]; a character is a code
    point in U+0000..U+00FF, and every character class below is CPython's
    on that range.

    Records.  The dict a line parses to is a [gmap] from keys to values; a
    value is [None], a text, or a list, as the code builds them at run
    time.  A [collections.Counter] is a [gmap] from texts to counts.

    Effects.  The parser emits warnings and guards itself with a
    [try]/[except Exception]; the counting pass has no handler.  Both run
    in the monad [M]: an outcome (a returned value, a raised [Exception],
    or a loop that used up its budget of rounds) paired with the warnings
    emitted on the way.  [warnings.warn] records the message and returns,
    unless the warnings filter in force gives the message the action
    [error]: then it raises [UserWarning] instead.  The filter is the
    first argument of every function that can warn; [recording] is the
    filter under which no warning is an error, as in an interpreter
    started without [-W error].  An object that is neither [None] nor a
    [str] is given by what its [__str__] does: it returns a text or
    raises an [Exception].  Indexing a text, reading a dict entry,
    [append] and [upper] raise as they do in Python when their argument is
    out of range or of the wrong type; that this never happens is proved,
    not assumed. *)

From stdpp Require Import gmap strings list fin_maps.
From Stdlib Require Import Ascii.

(** ** Characters and strings *)

Module Text.

Definition code (c : ascii) : nat := nat_of_ascii c.

(** [str.isspace], the regex class [\s] and the characters removed by
    [str.strip()] are one set in CPython; below U+0100 it is
    TAB..CR, FS..US, SPACE, NEL and NBSP. *)
Definition isspace (c : ascii) : bool :=
  let n := code c in
  ((9 <=? n) && (n <=? 13)) || ((28 <=? n) && (n <=? 32))
  || (n =? 133) || (n =? 160).

(** The regex class [\d]: below U+0100 the decimal digits are 0-9. *)
Definition isdigit (c : ascii) : bool :=
  let n := code c in (48 <=? n) && (n <=? 57).

Definition is_upper_az (c : ascii) : bool :=
  let n := code c in (65 <=? n) && (n <=? 90).

Definition is_lower_az (c : ascii) : bool :=
  let n := code c in (97 <=? n) && (n <=? 122).

(** [len(s)] *)
Definition len (s : string) : nat := String.length s.

(** [s[:n]] *)
Fixpoint take (n : nat) (s : string) : string :=
  match n, s with
  | S n', String c t => String c (take n' t)
  | _, _ => EmptyString
  end.

(** [s[n:]] *)
Fixpoint drop (n : nat) (s : string) : string :=
  match n, s with
  | S n', String _ t => drop n' t
  | _, _ => s
  end.

(** [s[a:b]] for indices [0 <= a], [0 <= b] *)
Definition slice (a b : nat) (s : string) : string := take (b - a) (drop a s).

(** [s[i]]; [None] stands for the [IndexError] of an index past the end. *)
Definition index (s : string) (i : nat) : option ascii := String.get i s.

(** [s.lstrip()] *)
Fixpoint lstrip (s : string) : string :=
  match s with
  | String c t => if isspace c then lstrip t else s
  | EmptyString => EmptyString
  end.

(** [s.rstrip(chars)], the characters to remove given as a predicate. *)
Fixpoint rstrip_of (p : ascii -> bool) (s : string) : string :=
  match s with
  | EmptyString => EmptyString
  | String c t =>
      match rstrip_of p t with
      | EmptyString => if p c then EmptyString else String c EmptyString
      | t' => String c t'
      end
  end.

(** [s.rstrip("\n")] *)
Definition rstrip_newline (s : string) : string :=
  rstrip_of (fun c => Ascii.eqb c "010"%char) s.

(** [s.strip()] *)
Definition strip (s : string) : string := lstrip (rstrip_of isspace s).

(** [s.find(c, start)] for a one-character needle; [None] stands for the
    result [-1]. *)
Fixpoint find_from (c : ascii) (s : string) (start : nat) : option nat :=
  match start, s with
  | 0, EmptyString => None
  | 0, String d t =>
      if Ascii.eqb d c then Some 0 else S <$> find_from c t 0
  | S _, EmptyString => None
  | S n, String _ t => S <$> find_from c t n
  end.

(** [s.replace(old, new)] for a two-character [old = a b] and a
    one-character [new]: occurrences are replaced left to right and do
    not overlap. *)
Fixpoint replace2 (a b new : ascii) (s : string) : string :=
  match s with
  | String c1 (String c2 t as s') =>
      if Ascii.eqb c1 a && Ascii.eqb c2 b
      then String new (replace2 a b new t)
      else String c1 (replace2 a b new s')
  | _ => s
  end.

(** [str.lower] and [str.upper], character by character.  Below U+0100
    the letters with a lower-case partner are A-Z and U+00C0..U+00DE
    without the multiplication sign; the sharp s upper-cases to "SS".
    The upper-case forms of U+00B5 and U+00FF lie above U+00FF; the two
    are left as they are, which like their true images is no ASCII
    letter. *)
Definition lower_char (c : ascii) : ascii :=
  let n := code c in
  if is_upper_az c || ((192 <=? n) && (n <=? 222) && negb (n =? 215))
  then ascii_of_nat (n + 32) else c.

Definition upper_char (c : ascii) : string :=
  let n := code c in
  if n =? 223 then "SS"
  else if is_lower_az c || ((224 <=? n) && (n <=? 254) && negb (n =? 247))
  then String (ascii_of_nat (n - 32)) EmptyString
  else String c EmptyString.

Fixpoint lower (s : string) : string :=
  match s with
  | EmptyString => EmptyString
  | String c t => String (lower_char c) (lower t)
  end.

Fixpoint upper (s : string) : string :=
  match s with
  | EmptyString => EmptyString
  | String c t => upper_char c +:+ upper t
  end.

End Text.

(** ** The two regular expressions *)

Module Re.

Import Text.

(** A pattern that is a fixed sequence of one-character classes, matched
    from the start of the text; the unmatched remainder is returned. *)
Fixpoint match_classes (cls : list (ascii -> bool)) (s : string) : option string :=
  match cls, s with
  | [], _ => Some s
  | p :: cls', String c t => if p c then match_classes cls' t else None
  | _ :: _, EmptyString => None
  end.

Definition lit (a : ascii) : ascii -> bool := fun c => Ascii.eqb c a.

(** [^\d{4}-\d{2}-\d{2} \d{2}:\d{2}:\d{2}$], line 5 *)
Definition TIMESTAMP_classes : list (ascii -> bool) :=
  [isdigit; isdigit; isdigit; isdigit; lit "-";
   isdigit; isdigit; lit "-"; isdigit; isdigit; lit " ";
   isdigit; isdigit; lit ":"; isdigit; isdigit; lit ":";
   isdigit; isdigit]%char.

(** [TIMESTAMP_RE.match(s)] as a truth value.  Without [re.MULTILINE],
    [$] holds at the end of the text and before a newline that ends it. *)
Definition TIMESTAMP_RE_match (s : string) : bool :=
  match match_classes TIMESTAMP_classes s with
  | Some EmptyString => true
  | Some (String c EmptyString) => Ascii.eqb c "010"%char
  | _ => false
  end.

(** [[A-Za-z_]] and [[A-Za-z0-9_\-]], line 8 *)
Definition is_key_start (c : ascii) : bool :=
  is_upper_az c || is_lower_az c || Ascii.eqb c "_"%char.

Definition is_key_char (c : ascii) : bool :=
  is_key_start c || isdigit c || Ascii.eqb c "-"%char.

(** The longest prefix of characters in a class, and what follows it. *)
Fixpoint span (p : ascii -> bool) (s : string) : string * string :=
  match s with
  | String c t =>
      if p c then let '(run, r) := span p t in (String c run, r) else (EmptyString, s)
  | EmptyString => (EmptyString, EmptyString)
  end.

(** [(?:\\.|[^q])*q] for a quote character [q], lines 11 and 13, entered
    after the opening quote.  The engine backtracks: at each character
    it tries one more round of the starred group, first the escape pair
    (a backslash and any character but a newline), then a single
    character other than the quote; only when both lead nowhere does it
    leave the star and ask for the closing quote.  The captured text and
    the text after the closing quote are returned. *)
Fixpoint quoted_tail (q : ascii) (s : string) : option (string * string) :=
  match s with
  | EmptyString => None
  | String c t =>
      let escape_pair :=
        if Ascii.eqb c "\"%char then
          match t with
          | String d t' =>
              if Ascii.eqb d "010"%char then None
              else '(v, r) ← quoted_tail q t'; Some (String c (String d v), r)
          | EmptyString => None
          end
        else None in
      let single :=
        if Ascii.eqb c q then None
        else '(v, r) ← quoted_tail q t; Some (String c v, r) in
      let close :=
        if Ascii.eqb c q then Some (EmptyString, t) else None in
      match escape_pair with
      | Some res => Some res
      | None => match single with Some res => Some res | None => close end
      end
  end.

(** The three named groups of the value alternative; exactly one of
    them takes part in a match, the others are [None] in Python. *)
Inductive value_group :=
| Dq (text : string)
| Sq (text : string)
| Bare (text : string).

(** The alternation of lines 10-16, tried in order at one position. *)
Definition match_value (s : string) : option (value_group * string) :=
  let dq :=
    match s with
    | String c t => if Ascii.eqb c "034"%char then quoted_tail "034"%char t else None
    | EmptyString => None
    end in
  let sq :=
    match s with
    | String c t => if Ascii.eqb c "'"%char then quoted_tail "'"%char t else None
    | EmptyString => None
    end in
  match dq with
  | Some (v, r) => Some (Dq v, r)
  | None =>
      match sq with
      | Some (v, r) => Some (Sq v, r)
      | None =>
          match span (fun c => negb (isspace c)) s with
          | (EmptyString, _) => None
          | (b, r) => Some (Bare b, r)
          end
      end
  end.

(** A match object of [TOKEN_RE]: [m.group("key")], the value groups and
    [m.end()]. *)
Record Match := { m_key : string; m_value : value_group; m_end : nat }.

(** [TOKEN_RE] against a text, anchored at its start.  The key class is
    greedy and does not contain [=], so the key is the longest run. *)
Definition match_token (s : string) : option (string * value_group * string) :=
  match s with
  | String c t =>
      if is_key_start c then
        let '(tail, r) := span is_key_char t in
        match r with
        | String e r' =>
            if Ascii.eqb e "="%char then
              '(v, r'') ← match_value r'; Some (String c tail, v, r'')
            else None
        | EmptyString => None
        end
      else None
  | EmptyString => None
  end.

(** [TOKEN_RE.match(text, pos)] *)
Definition TOKEN_RE_match (text : string) (pos : nat) : option Match :=
  '(k, v, r) ← match_token (drop pos text);
  Some {| m_key := k; m_value := v; m_end := len text - len r |}.

End Re.

(** ** Outcomes, exceptions and warnings *)

Module Py.

(** An exception (an instance of [Exception]), carrying what [str(e)]
    shows. *)
Inductive exn := Exn (msg : string).

Definition exn_str (e : exn) : string := let 'Exn msg := e in msg.

Definition IndexError : exn := Exn "string index out of range".
Definition KeyError (k : string) : exn := Exn ("'" +:+ k +:+ "'").
Definition AttributeError (what : string) : exn := Exn what.
Definition TypeError (what : string) : exn := Exn what.

Inductive outcome (A : Type) :=
| Return (a : A)
| Raise (e : exn)
| OutOfBudget.
Arguments Return {A} a.
Arguments Raise {A} e.
Arguments OutOfBudget {A}.

(** A computation: its outcome and the warnings it emitted, oldest first. *)
Definition M (A : Type) : Type := outcome A * list string.

Definition ret {A} (a : A) : M A := (Return a, []).

Definition bind {A B} (m : M A) (f : A -> M B) : M B :=
  match m with
  | (Return a, w) => let '(o, w') := f a in (o, w ++ w')
  | (Raise e, w) => (Raise e, w)
  | (OutOfBudget, w) => (OutOfBudget, w)
  end.

Definition raise {A} (e : exn) : M A := (Raise e, []).

Definition out_of_budget {A} : M A := (OutOfBudget, []).

(** The warnings filter in force, as far as it bears on control: the
    messages whose action is [error].  Every warning of this module is a
    [UserWarning], and its five call sites (lines 48, 57, 60, 91 and 103)
    give messages with five different openings, so a filter by category,
    module or line number is a function of the message too. *)
Definition warnings_filter : Type := string -> bool.

(** The filter under which no warning is an error. *)
Definition recording : warnings_filter := fun _ => false.

Definition UserWarning (msg : string) : exn := Exn msg.

(** [warnings.warn(msg)]: under the action [error] the warning is raised;
    under every other action the call returns. *)
Definition warn (errors : warnings_filter) (msg : string) : M unit :=
  if errors msg then raise (UserWarning msg) else (Return tt, [msg]).

(** [try: body / except Exception as e: handler(e)] *)
Definition try_except {A} (body : M A) (handler : exn -> M A) : M A :=
  match body with
  | (Raise e, w) => let '(o, w') := handler e in (o, w ++ w')
  | done => done
  end.

Definition when (b : bool) (m : M unit) : M unit := if b then m else ret tt.

(** The value a computation returned, if it returned. *)
Definition returned {A} (m : M A) : option A :=
  match m with (Return a, _) => Some a | _ => None end.

Definition warnings {A} (m : M A) : list string := m.2.

(** How a round of a [while] loop ends: by [continue] (or by falling
    through), or by [break]. *)
Inductive control (St : Type) :=
| Continue (st : St)
| Break (st : St).
Arguments Continue {St} st.
Arguments Break {St} st.

End Py.

Import Py.

Notation "'let*' x ':=' m 'in' k" := (bind m (fun x => k))
  (at level 10, x pattern, m at level 100, k at level 200, only parsing).

Module Py_loops.

(** [while cond(st): st = body(st)], given [budget] rounds: a loop that
    would need more ends as [OutOfBudget]. *)
Fixpoint while {St} (budget : nat) (cond : St -> M bool)
    (body : St -> M (control St)) (st : St) : M St :=
  match budget with
  | 0 => out_of_budget
  | S budget' =>
      let* go := cond st in
      if go then
        let* c := body st in
        match c with
        | Continue st' => while budget' cond body st'
        | Break st' => ret st'
        end
      else ret st
  end.

(** [for x in xs: st = body(st, x)] *)
Fixpoint for_each {St A} (xs : list A) (body : St -> A -> M St) (st : St) : M St :=
  match xs with
  | [] => ret st
  | x :: xs' => let* st' := body st x in for_each xs' body st'
  end.

End Py_loops.

Import Py_loops.

(** ** Values *)

(** What the caller may pass as a line: [None], a [str], or any other
    object, which the parser only ever touches through [str(line)]; that
    call returns a text or raises. *)
Inductive pyobj :=
| PyNone
| PyStr (s : string)
| PyOther (str_result : exn + string).

(** What a parsed record holds under a key: [None] (a blank timestamp), a
    [str], or a [list]. *)
#[warnings="-register-all"]
Inductive value :=
| VNone
| VStr (s : string)
| VList (items : list value).

(** The keyword-only options of [parse_log_line], lines 24-27. *)
Record options := {
  normalize_keys : bool;
  collect_duplicates : bool;
  warn_on_junk : bool;
  allow_blank_timestamp : bool
}.

Definition default_options : options :=
  {| normalize_keys := true; collect_duplicates := true;
     warn_on_junk := true; allow_blank_timestamp := true |}.

(** ** The line parser, lines 21-104 *)

Module Parser.

Import Text Re.

(** Lines 41-42: [line] itself when it is a [str], the empty text for
    [None], [str(line)] otherwise. *)
Definition coerce (line : pyobj) : M string :=
  match line with
  | PyStr s => ret s
  | PyNone => ret ""
  | PyOther (inr s) => ret s
  | PyOther (inl e) => raise e
  end.

(** [d[k]] on a dict *)
Definition getitem (d : gmap string value) (k : string) : M value :=
  match d !! k with
  | Some v => ret v
  | None => raise (KeyError k)
  end.

(** [s[i]] on a text *)
Definition char_at (s : string) (i : nat) : M ascii :=
  match index s i with
  | Some c => ret c
  | None => raise IndexError
  end.

Definition is_list (v : value) : bool :=
  match v with VList _ => true | _ => false end.

(** Line 68 *)
Definition token_key (normalize : bool) (m : Match) : string :=
  if normalize then lower (m_key m) else m_key m.

(** Lines 70 and 72: the three [replace] calls, for the quote [q]. *)
Definition unescape (q : ascii) (t : string) : string :=
  replace2 "\" "t" "009" (replace2 "\" "n" "010" (replace2 "\" q q t)).

(** Lines 69-74 *)
Definition token_value (m : Match) : string :=
  match m_value m with
  | Dq t => unescape "034" t
  | Sq t => unescape "'" t
  | Bare t => t
  end.

(** Lines 75-83: the duplicate policy. *)
Definition store_field (collect : bool) (fields : gmap string value)
    (key val : string) : M (gmap string value) :=
  if collect then
    if bool_decide (is_Some (fields !! key)) && bool_decide (key ≠ "timestamp") then
      let* old := getitem fields key in
      let fields := if is_list old then fields else <[key := VList [old]]> fields in
      let* cur := getitem fields key in
      match cur with
      | VList items => ret (<[key := VList (items ++ [VStr val])]> fields)
      | _ => raise (AttributeError "object has no attribute 'append'")
      end
    else ret (<[key := VStr val]> fields)
  else
    (* dict.setdefault *)
    ret (if bool_decide (is_Some (fields !! key)) then fields
         else <[key := VStr val]> fields).

(** Lines 85-86 and 95-96:
    [while pos < length and rest[pos].isspace(): pos += 1] *)
Definition skip_whitespace (budget : nat) (rest : string) (length pos : nat) : M nat :=
  while budget
    (fun pos =>
       if pos <? length
       then let* c := char_at rest pos in ret (isspace c)
       else ret false)
    (fun pos => ret (Continue (pos + 1)))
    pos.

(** Lines 66-96: one round of the tokenizer loop. *)
Definition tokenize_round (errors : warnings_filter) (opts : options)
    (budget : nat) (rest : string)
    (length : nat) (st : gmap string value * nat)
    : M (control (gmap string value * nat)) :=
  let '(fields, pos) := st in
  match TOKEN_RE_match rest pos with
  | Some m =>
      let key := token_key (normalize_keys opts) m in
      let val := token_value m in
      let* fields := store_field (collect_duplicates opts) fields key val in
      let* pos := skip_whitespace budget rest length (m_end m) in
      ret (Continue (fields, pos))
  | None =>
      let next_space := find_from " " rest pos in
      let bad_token :=
        match next_space with
        | None => drop pos rest
        | Some ns => slice pos ns rest
        end in
      let* _ := when (warn_on_junk opts && bool_decide (bad_token ≠ ""))
                  (warn errors ("Skipping malformed token: '" +:+ bad_token +:+ "'")) in
      match next_space with
      | None => ret (Break (fields, pos))
      | Some ns =>
          let* pos := skip_whitespace budget rest length (ns + 1) in
          ret (Continue (fields, pos))
      end
  end.

(** Lines 62-96: the fields gathered from [rest], starting from the
    timestamp entry. *)
Definition tokenize (errors : warnings_filter) (opts : options) (budget : nat)
    (rest : string) (timestamp : value) : M (gmap string value) :=
  let fields : gmap string value := {["timestamp" := timestamp]} in
  let length := len rest in
  let* st := while budget
               (fun st => ret (st.2 <? length))
               (tokenize_round errors opts budget rest length)
               (fields, 0) in
  ret st.1.

(** Line 97: [any(k for k in fields.keys() if k != "timestamp")], the
    truth of a key being that it is not the empty text. *)
Definition has_kv (fields : gmap string value) : bool :=
  existsb (fun k => bool_decide (k ≠ ""))
    (filter (fun k => k ≠ "timestamp") (map_to_list fields).*1).

(** Lines 97-100 *)
Definition finish (fields : gmap string value) : M (option (gmap string value)) :=
  if negb (has_kv fields) then
    let* ts := getitem fields "timestamp" in
    match ts with
    | VNone => ret None
    | _ => ret (Some fields)
    end
  else ret (Some fields).

(** Lines 41-100, the body of the [try]. *)
Definition parse_body (errors : warnings_filter) (budget : nat) (opts : options)
    (line : pyobj) : M (option (gmap string value)) :=
  let* line := coerce line in
  let s := rstrip_newline line in
  if bool_decide (strip s = "") then ret None
  else if len s <? 19 then
    let* _ := when (warn_on_junk opts)
                (warn errors "Missing 19-char timestamp region; line unparseable.") in
    ret None
  else
    let ts_field := take 19 s in
    let rest := lstrip (drop 19 s) in
    if TIMESTAMP_RE_match ts_field then
      let* fields := tokenize errors opts budget rest (VStr ts_field) in
      finish fields
    else if allow_blank_timestamp opts && bool_decide (strip ts_field = "") then
      let* _ := when (warn_on_junk opts)
                  (warn errors "Blank timestamp encountered; setting timestamp=None.") in
      let* fields := tokenize errors opts budget rest VNone in
      finish fields
    else
      let* _ := when (warn_on_junk opts)
                  (warn errors ("Invalid/missing timestamp: '" +:+ ts_field +:+ "'")) in
      ret None.

(** Lines 40-104, every loop given [budget] rounds. *)
Definition parse_log_line_within (errors : warnings_filter) (budget : nat)
    (opts : options) (line : pyobj) : M (option (gmap string value)) :=
  try_except (parse_body errors budget opts line)
    (fun e =>
       let* _ := when (warn_on_junk opts)
                   (warn errors ("Parser error: " +:+ exn_str e)) in
       ret None).

(** The length of the text the parser works on. *)
Definition text_length (line : pyobj) : nat :=
  match line with
  | PyStr s | PyOther (inr s) => len s
  | _ => 0
  end.

(** [parse_log_line]: no loop of the parser makes more rounds than the
    line has characters ([budget_suffices] below). *)
Definition parse_log_line (errors : warnings_filter) (opts : options)
    (line : pyobj) : M (option (gmap string value)) :=
  parse_log_line_within errors (S (text_length line)) opts line.

End Parser.

(** ** The counting pass, lines 108-155 *)

Module Counter.

Import Text Parser.

(** Lines 108-111 *)
Definition _as_list (v : value) : list value :=
  match v with
  | VNone => []
  | VList items => items
  | _ => [v]
  end.

(** [parsed.get(k)] *)
Definition get (parsed : gmap string value) (k : string) : value :=
  default VNone (parsed !! k).

(** [s.upper()], a method of [str] only. *)
Definition upper_of (v : value) : M string :=
  match v with
  | VStr s => ret (upper s)
  | VNone => raise (AttributeError "'NoneType' object has no attribute 'upper'")
  | VList _ => raise (AttributeError "'list' object has no attribute 'upper'")
  end.

(** [[s.upper() for s in vs]] *)
Fixpoint uppers (vs : list value) : M (list string) :=
  match vs with
  | [] => ret []
  | v :: vs' =>
      let* u := upper_of v in
      let* us := uppers vs' in
      ret (u :: us)
  end.

(** [ctr[k]] on a [collections.Counter]: a key it does not hold counts 0. *)
Definition count_of (ctr : gmap string nat) (k : string) : nat :=
  default 0 (ctr !! k).

(** [ctr[k] += 1] *)
Definition increment (k : string) (ctr : gmap string nat) : gmap string nat :=
  <[k := count_of ctr k + 1]> ctr.

(** Lines 140-141 and 143-144: [if u: ctr[u] += 1].  [None], the empty
    text and the empty list are false; a non-empty list is true and
    cannot be a key. *)
Definition tally (ctr : gmap string nat) (u : value) : M (gmap string nat) :=
  match u with
  | VNone => ret ctr
  | VStr s => if bool_decide (s ≠ "") then ret (increment s ctr) else ret ctr
  | VList [] => ret ctr
  | VList (_ :: _) => raise (TypeError "unhashable type: 'list'")
  end.

(** The locals of lines 121-125. *)
Record counters := {
  users_ctr : gmap string nat;
  ips_ctr : gmap string nat;
  seen : nat;
  counted : nat;
  skipped : nat
}.

Definition start : counters :=
  {| users_ctr := ∅; ips_ctr := ∅; seen := 0; counted := 0; skipped := 0 |}.

(** The options of the call on line 128. *)
Definition quiet_options : options :=
  {| normalize_keys := true; collect_duplicates := true;
     warn_on_junk := false; allow_blank_timestamp := true |}.

(** Lines 128-146: the body of the [for]. *)
Definition count_line (errors : warnings_filter) (c : counters) (line : pyobj)
    : M counters :=
  let* parsed := parse_log_line errors quiet_options line in
  match parsed with
  | None =>
      ret {| users_ctr := users_ctr c; ips_ctr := ips_ctr c; seen := seen c;
             counted := counted c; skipped := skipped c + 1 |}
  | Some parsed =>
      let seen' := seen c + 1 in
      let* statuses := uppers (_as_list (get parsed "status")) in
      let is_fail := existsb (fun s => bool_decide (s = "FAIL")) statuses in
      if negb is_fail then
        ret {| users_ctr := users_ctr c; ips_ctr := ips_ctr c; seen := seen';
               counted := counted c; skipped := skipped c |}
      else
        let* users := for_each (_as_list (get parsed "user")) tally (users_ctr c) in
        let* ips := for_each (_as_list (get parsed "ip")) tally (ips_ctr c) in
        ret {| users_ctr := users; ips_ctr := ips; seen := seen';
               counted := counted c + 1; skipped := skipped c |}
  end.

(** Lines 121-146 *)
Definition count_lines (errors : warnings_filter) (lines : list pyobj)
    : M counters :=
  for_each lines (count_line errors) start.

(** [sum(ctr.values())] *)
Definition sum_values (ctr : gmap string nat) : nat :=
  map_fold (fun _ n acc => n + acc) 0 ctr.

(** The dict returned on lines 148-155. *)
Record snapshot := {
  users : gmap string nat;
  ips : gmap string nat;
  total_fail : nat;
  snap_seen : nat;
  snap_counted : nat;
  snap_skipped : nat
}.

(** Lines 148-155; a [Counter] is true when it is not empty. *)
Definition summary (c : counters) : snapshot :=
  {| users := users_ctr c;
     ips := ips_ctr c;
     total_fail := if bool_decide (users_ctr c ≠ ∅)
                   then sum_values (users_ctr c)
                   else sum_values (ips_ctr c);
     snap_seen := seen c;
     snap_counted := counted c;
     snap_skipped := skipped c |}.

(** Lines 113-155.  [warn_on_missing_fields] is accepted and not used. *)
Definition count_failed_logins (errors : warnings_filter) (lines : list pyobj)
    (warn_on_missing_fields : bool) : M snapshot :=
  let* c := count_lines errors lines in
  ret (summary c).

(** Lines 158-183: the sample the module runs the count on, line by
    line as [splitlines] gives them. *)
Definition sample : list pyobj := PyStr <$> [
  "2024-11-25 08:12:34 event=LOGIN status=SUCCESS user=jsmith ip=10.0.1.50 method=WEB";
  "2024-11-25 08:15:22 event=LOGIN status=SUCCESS user=admin ip=10.0.1.10 method=SSH";
  "2024-11-25 08:18:45 event=LOGIN status=SUCCESS user=alice ip=192.168.1.100 method=WEB";
  "2024-11-25 08:22:10 event=LOGIN status=SUCCESS user=bob ip=172.16.0.50 method=SSH";
  "2024-11-25 08:25:33 event=LOGIN status=SUCCESS user=charlie ip=10.0.2.75 method=WEB";
  "2024-11-25 08:30:12 event=LOGIN status=FAIL user=admin ip=198.51.100.45 method=SSH";
  "2024-11-25 08:30:15 event=LOGIN status=FAIL user=admin ip=198.51.100.45 method=SSH";
  "2024-11-25 08:30:18 event=LOGIN status=FAIL user=root ip=198.51.100.45 method=SSH";
  "2024-11-25 08:30:21 event=LOGIN status=FAIL user=admin ip=198.51.100.45 method=SSH";
  "2024-11-25 08:30:24 event=LOGIN status=FAIL user=admin ip=198.51.100.45 method=SSH";
  "2024-11-25 08:30:27 event=LOGIN status=FAIL user=administrator ip=198.51.100.45 method=SSH";
  "2024-11-25 08:30:30 event=LOGIN status=FAIL user=admin ip=198.51.100.45 method=SSH";
  "2024-11-25 08:35:10 event=LOGIN status user=admin ip=198.51.100.45 method=SSH";
  "2024-11-25 event=LOGIN status=FAIL user=admin ip=198.51.100.45";
  "2024-11-25 08:40:12 event=LOGIN status=FAIL user=root ip=203.0.113.89 method=SSH";
  "2024-11-25 08:40:15 event=LOGIN status=FAIL user=administrator ip=203.0.113.89 method=SSH";
  "2024-11-25 08:40:18 event=LOGIN status=FAIL user=admin ip=203.0.113.89 method=SSH";
  "2024-11-25 08:42:30 event=LOGIN status=SUCCESS user=alice ip=192.168.1.100 method=WEB";
  "2024-11-25 08:45:12 event=LOGIN status=FAIL user=admin ip=192.0.2.15 method=SSH";
  "2024-11-25 08:45:15 event=LOGIN status=FAIL user=root ip=192.0.2.15 method=SSH";
  "2024-11-25 08:45:18 event=LOGIN status=FAIL user=admin ip=192.0.2.15 method=SSH";
  "";
  "2024-11-25 08:50:00 event=LOGIN status=SUCCESS user=bob ip=172.16.0.50 method=SSH";
  "2024-11-25 08:52:00 event=LOGIN status=FAIL user=test ip=198.51.100.92 method=WEB";
  "2024-11-25 08:54:00 event=LOGIN status=FAIL user=admin ip=198.51.100.45 method=SSH"
].

End Counter.

(** * The vocabulary of the statements *)

(** ** Tokens and records *)

Module Tokens.

Import Text Re Parser.

(** Whitespace only: what [s.strip() == ""] tests. *)
Fixpoint all_space (s : string) : bool :=
  match s with
  | EmptyString => true
  | String c t => isspace c && all_space t
  end.

(** The number of whitespace characters a text starts with. *)
Fixpoint leading_space (s : string) : nat :=
  match s with
  | String c t => if isspace c then S (leading_space t) else 0
  | EmptyString => 0
  end.

(** Where the whitespace run that starts at [pos] ends. *)
Definition skip_ws (rest : string) (pos : nat) : nat :=
  pos + leading_space (drop pos rest).

(** The duplicate policy of lines 75-83 as a function on records. *)
Definition merge (collect : bool) (fields : gmap string value)
    (key val : string) : gmap string value :=
  if collect then
    if bool_decide (key = "timestamp") then <[key := VStr val]> fields
    else
      match fields !! key with
      | None => <[key := VStr val]> fields
      | Some (VList items) => <[key := VList (items ++ [VStr val])]> fields
      | Some old => <[key := VList [old; VStr val]]> fields
      end
  else
    match fields !! key with
    | Some _ => fields
    | None => <[key := VStr val]> fields
    end.

(** What one more value does to the entry of a key other than
    [timestamp]. *)
Definition slot_after (collect : bool) (old : option value) (v : string) : option value :=
  if collect then
    match old with
    | None => Some (VStr v)
    | Some (VList items) => Some (VList (items ++ [VStr v]))
    | Some o => Some (VList [o; VStr v])
    end
  else
    match old with
    | Some o => Some o
    | None => Some (VStr v)
    end.

(** The entry of a key that was absent, after its values [vs] have come
    in: nothing, the one value, or (with [collect_duplicates]) the list of
    all of them, (without) the first. *)
Definition entry_of (collect : bool) (vs : list string) : option value :=
  match vs with
  | [] => None
  | [v] => Some (VStr v)
  | v :: _ :: _ => if collect then Some (VList (VStr <$> vs)) else Some (VStr v)
  end.

(** The tokens the loop of lines 65-96 matches from [pos] on, in order,
    each with its key (normalized or not) and its decoded value. *)
Fixpoint token_stream_from (budget : nat) (normalize : bool) (rest : string)
    (pos : nat) : list (string * string) :=
  match budget with
  | 0 => []
  | S budget' =>
      if pos <? len rest then
        match TOKEN_RE_match rest pos with
        | Some m =>
            (token_key normalize m, token_value m)
            :: token_stream_from budget' normalize rest (skip_ws rest (m_end m))
        | None =>
            match find_from " " rest pos with
            | None => []
            | Some ns => token_stream_from budget' normalize rest (skip_ws rest (ns + 1))
            end
        end
      else []
  end.

Definition token_stream (normalize : bool) (rest : string) : list (string * string) :=
  token_stream_from (S (len rest)) normalize rest 0.

(** The values of the tokens named [k], in order. *)
Definition values_of (k : string) (tokens : list (string * string)) : list string :=
  (filter (fun kv => kv.1 = k) tokens).*2.

(** A record after the tokens have been stored one by one. *)
Definition store_all (collect : bool) (fields : gmap string value)
    (tokens : list (string * string)) : gmap string value :=
  foldl (fun f kv => merge collect f kv.1 kv.2) fields tokens.

(** The text the parser works on, when [str(line)] does not raise. *)
Definition line_text (line : pyobj) : option string :=
  match line with
  | PyNone => Some ""
  | PyStr s | PyOther (inr s) => Some s
  | PyOther (inl _) => None
  end.

(** Line 50: the candidate timestamp, [ts_field]. *)
Definition timestamp_region (text : string) : string :=
  take 19 (rstrip_newline text).

(** Line 51: the part of the text that is tokenized, [rest]. *)
Definition token_region (text : string) : string :=
  lstrip (drop 19 (rstrip_newline text)).

(** Lines 43-61: the timestamp entry a text starts its record with, or
    [None] when the text is rejected before any token is read. *)
Definition timestamp_stage (allow_blank : bool) (text : string) : option value :=
  let s := rstrip_newline text in
  if bool_decide (strip s = "") then None
  else if len s <? 19 then None
  else if TIMESTAMP_RE_match (timestamp_region text) then Some (VStr (timestamp_region text))
  else if allow_blank && bool_decide (strip (timestamp_region text) = "") then Some VNone
  else None.

(** The tokens the parser reads off a text: those of its token region,
    none when the text is rejected before the loop. *)
Definition line_tokens (opts : options) (text : string) : list (string * string) :=
  match timestamp_stage (allow_blank_timestamp opts) text with
  | Some _ => token_stream (normalize_keys opts) (token_region text)
  | None => []
  end.

(** Lines 97-100 on a record that has a timestamp entry. *)
Definition keep_record (fields : gmap string value) : option (gmap string value) :=
  if has_kv fields then Some fields
  else match fields !! "timestamp" with
       | Some VNone | None => None
       | Some _ => Some fields
       end.

(** What [parse_log_line] returns, as a function of the line. *)
Definition parse_result (opts : options) (line : pyobj) : option (gmap string value) :=
  text ← line_text line;
  ts ← timestamp_stage (allow_blank_timestamp opts) text;
  keep_record
    (store_all (collect_duplicates opts) {["timestamp" := ts]}
       (token_stream (normalize_keys opts) (token_region text))).

End Tokens.

(** ** The counting pass as a function *)

Module Counting.

Import Text Parser Tokens Counter.

(** The texts among some values. *)
Definition strings_of (vs : list value) : list string :=
  omap (fun v => match v with VStr s => Some s | _ => None end) vs.

(** The values a record holds under a key. *)
Definition field_values (parsed : gmap string value) (k : string) : list string :=
  strings_of (_as_list (get parsed k)).

(** Line 135 *)
Definition is_fail (parsed : gmap string value) : bool :=
  existsb (fun s => bool_decide (upper s = "FAIL")) (field_values parsed "status").

(** Lines 139-141 on texts. *)
Definition tally_texts (ctr : gmap string nat) (ss : list string) : gmap string nat :=
  foldl (fun c s => if bool_decide (s ≠ "") then increment s c else c) ctr ss.

(** How often a text occurs in a list. *)
Definition occurrences (u : string) (ss : list string) : nat :=
  length (filter (fun s => s = u) ss).

Definition skip_one (c : counters) : counters :=
  {| users_ctr := users_ctr c; ips_ctr := ips_ctr c; seen := seen c;
     counted := counted c; skipped := skipped c + 1 |}.

(** What one line does to the counters. *)
Definition count_line_result (c : counters) (line : pyobj) : counters :=
  match parse_result quiet_options line with
  | None => skip_one c
  | Some parsed =>
      if is_fail parsed then
        {| users_ctr := tally_texts (users_ctr c) (field_values parsed "user");
           ips_ctr := tally_texts (ips_ctr c) (field_values parsed "ip");
           seen := seen c + 1; counted := counted c + 1; skipped := skipped c |}
      else
        {| users_ctr := users_ctr c; ips_ctr := ips_ctr c;
           seen := seen c + 1; counted := counted c; skipped := skipped c |}
  end.

Definition count_lines_result (lines : list pyobj) : counters :=
  foldl count_line_result start lines.

End Counting.

(** ** Lines as they are written *)

Module Lines.

Import Text Re Parser.

(** The options with [warn_on_junk] set to [b]. *)
Definition with_warn (b : bool) (opts : options) : options :=
  {| normalize_keys := normalize_keys opts;
     collect_duplicates := collect_duplicates opts;
     warn_on_junk := b;
     allow_blank_timestamp := allow_blank_timestamp opts |}.

(** [n] newline characters. *)
Fixpoint newlines (n : nat) : string :=
  match n with
  | 0 => EmptyString
  | S n' => String "010" (newlines n')
  end.

(** Every character of a text is in a class. *)
Fixpoint all_chars (p : ascii -> bool) (s : string) : bool :=
  match s with
  | EmptyString => true
  | String c t => p c && all_chars p t
  end.

(** A key as line 8 of the source spells it: a letter or an underscore,
    then letters, digits, underscores and hyphens. *)
Definition is_identifier (k : string) : bool :=
  match k with
  | String c t => is_key_start c && all_chars is_key_char t
  | EmptyString => false
  end.

(** The text of a value as the pattern of lines 10-16 reads it: between
    double quotes, between single quotes, or bare. *)
Definition raw_value (g : value_group) : string :=
  match g with
  | Dq v => String "034" (v +:+ String "034" EmptyString)
  | Sq v => String "'" (v +:+ String "'" EmptyString)
  | Bare v => v
  end.

(** What lies between the quotes, or the bare text. *)
Definition content (g : value_group) : string :=
  match g with Dq v | Sq v | Bare v => v end.

(** A token as it stands on a line: [key=value]. *)
Definition write_token (t : string * value_group) : string :=
  t.1 +:+ String "=" (raw_value t.2).

(** Tokens, each after one space. *)
Fixpoint write_tokens (tokens : list (string * value_group)) : string :=
  match tokens with
  | [] => EmptyString
  | t :: tokens' => String " " (write_token t +:+ write_tokens tokens')
  end.

(** A line: the timestamp, then the tokens. *)
Definition write_line (timestamp : string)
    (tokens : list (string * value_group)) : string :=
  timestamp +:+ write_tokens tokens.

(** A bare value that reads back as itself: not empty, free of
    whitespace, and not opening with a quote. *)
Definition bare_ok (v : string) : bool :=
  match v with
  | String c _ =>
      negb (Ascii.eqb c "034") && negb (Ascii.eqb c "'")
      && all_chars (fun c => negb (isspace c)) v
  | EmptyString => false
  end.

(** A quoted value that reads back as itself: free of the quote and of
    backslashes. *)
Definition quoted_ok (q : ascii) (v : string) : bool :=
  all_chars (fun c => negb (Ascii.eqb c q) && negb (Ascii.eqb c "\")) v.

Definition written_ok (t : string * value_group) : bool :=
  is_identifier t.1
  && match t.2 with
     | Bare v => bare_ok v
     | Dq v => quoted_ok "034" v
     | Sq v => quoted_ok "'" v
     end.

(** The key of a written token as the record has it. *)
Definition read_key (normalize : bool) (k : string) : string :=
  if normalize then lower k else k.

(** A text is empty or starts with whitespace. *)
Definition ends_token (r : string) : bool :=
  match r with
  | EmptyString => true
  | String c _ => isspace c
  end.

(** The last character of a text is one that [rstrip] keeps. *)
Fixpoint last_kept (p : ascii -> bool) (s : string) : bool :=
  match s with
  | EmptyString => true
  | String c EmptyString => negb (p c)
  | String _ t => last_kept p t
  end.

End Lines.

(** ** What the counting pass counts *)

Module Tallies.

Import Text Parser Tokens Counter Counting.

(** What line 128 binds to [parsed]: the record of the line, or
    nothing.  The call is quiet, so every warnings filter gives the same
    ([record_of_under] below). *)
Definition record_of (line : pyobj) : option (gmap string value) :=
  default None (returned (parse_log_line recording quiet_options line)).

(** The line is parsed (line 129 does not skip it). *)
Definition parses (line : pyobj) : bool :=
  match record_of line with Some _ => true | None => false end.

(** The line is parsed and some status of it upper-cases to [FAIL]. *)
Definition fails (line : pyobj) : bool :=
  match record_of line with Some parsed => is_fail parsed | None => false end.

(** The values lines 139-144 count for a line under the key [k]: the
    non-empty values of a failing line, in the order of the line. *)
Definition tallied (k : string) (line : pyobj) : list string :=
  match record_of line with
  | Some parsed =>
      if is_fail parsed then filter (fun s => s <> "") (field_values parsed k) else []
  | None => []
  end.

(** The values counted under [k] over a whole input. *)
Definition all_tallied (k : string) (lines : list pyobj) : list string :=
  mjoin (tallied k <$> lines).

(** The entry a frequency map has for [u] when it counts the list [ss]:
    none if [u] does not occur. *)
Definition frequency (ss : list string) (u : string) : option nat :=
  if decide (occurrences u ss = 0) then None else Some (occurrences u ss).

End Tallies.

(** ** Warnings turned into errors *)

Module Filters.

(** The first message of a log that the filter makes an error, with the
    messages before it. *)
Fixpoint first_error (errors : warnings_filter) (log : list string)
    : option (list string * string) :=
  match log with
  | [] => None
  | msg :: log' =>
      if errors msg then Some ([], msg)
      else match first_error errors log' with
           | Some (pre, m) => Some (msg :: pre, m)
           | None => None
           end
  end.

(** A run under [recording], seen under another filter: it goes the same
    way up to the first warning that is an error, which is raised. *)
Definition cut {A} (errors : warnings_filter) (m : M A) : M A :=
  match first_error errors m.2 with
  | Some (pre, msg) => (Raise (UserWarning msg), pre)
  | None => m
  end.

(** Line 103: the text of the warning for an exception caught on line
    101. *)
Definition report (msg : string) : string := "Parser error: " +:+ msg.

End Filters.

(** * Properties *)

(** ** Text *)

Module Text_facts.

Import Text Tokens.

Lemma len_drop n s : len (drop n s) = len s - n.
Proof.
  revert s; induction n as [|n IH]; intros [|c t]; simpl; auto.
Qed.

Lemma len_take n s : len (take n s) = n `min` len s.
Proof.
  revert s; induction n as [|n IH]; intros [|c t]; simpl; auto.
Qed.

Lemma take_all n s : len s <= n -> take n s = s.
Proof.
  revert s; induction n as [|n IH]; intros [|c t]; simpl; auto; try lia.
  intros H. f_equal. apply IH. lia.
Qed.

Lemma drop_all n s : len s <= n -> drop n s = "".
Proof.
  revert s; induction n as [|n IH]; intros [|c t]; simpl; auto; try lia.
  intros H. apply IH. lia.
Qed.

(** A position inside the text holds a character, the head of the
    suffix that starts there. *)
Lemma drop_index s pos :
  pos < len s ->
  exists c, index s pos = Some c /\ drop pos s = String c (drop (S pos) s).
Proof.
  revert s; induction pos as [|pos IH]; intros [|c t]; simpl; try lia.
  - intros _. exists c. split; auto.
  - intros H. destruct (IH t) as (d & Hd & Hdrop); [lia|].
    exists d. split; auto.
Qed.

Lemma len_lstrip s : len (lstrip s) <= len s.
Proof.
  induction s as [|c t IH]; simpl; auto.
  destruct (isspace c); simpl; unfold len in *; simpl; lia.
Qed.

Lemma len_rstrip_of p s : len (rstrip_of p s) <= len s.
Proof.
  induction s as [|c t IH]; simpl; auto.
  destruct (rstrip_of p t) eqn:E; simpl in *.
  - destruct (p c); simpl; unfold len in *; simpl; lia.
  - unfold len in *. simpl in *. lia.
Qed.

Lemma lstrip_empty s : lstrip s = "" <-> all_space s = true.
Proof.
  induction s as [|c t IH]; simpl; [done|].
  destruct (isspace c); simpl; [done|]. split; done.
Qed.

(** What [rstrip] leaves is empty or ends in a character it keeps, so
    it is whitespace only when it is empty. *)
Lemma rstrip_space_empty s :
  all_space (rstrip_of isspace s) = true -> rstrip_of isspace s = "".
Proof.
  induction s as [|c t IH]; simpl; [done|].
  destruct (rstrip_of isspace t) as [|a r] eqn:E.
  - destruct (isspace c) eqn:Hc; [done|]. simpl. by rewrite Hc.
  - simpl in *. intros H. apply andb_true_iff in H as [_ H].
    by specialize (IH H).
Qed.

Lemma all_space_rstrip_of p s :
  all_space s = true -> all_space (rstrip_of p s) = true.
Proof.
  induction s as [|c t IH]; simpl; [done|].
  intros [Hc Ht]%andb_true_iff. specialize (IH Ht).
  destruct (rstrip_of p t) as [|a r] eqn:E.
  - destruct (p c); simpl; [done|]. by rewrite Hc.
  - change (all_space (String c (String a r)) = true). simpl in *. by rewrite Hc.
Qed.

Lemma rstrip_space_all s :
  rstrip_of isspace s = "" -> all_space s = true.
Proof.
  induction s as [|c t IH]; simpl; [done|].
  destruct (rstrip_of isspace t) as [|a r] eqn:E; [|done].
  destruct (isspace c) eqn:Hc; [|done]. intros _. by rewrite IH.
Qed.

(** [s.strip() == ""] holds exactly of the texts of whitespace. *)
Lemma strip_empty s : strip s = "" <-> all_space s = true.
Proof.
  unfold strip. rewrite lstrip_empty. split.
  - intros H. by apply rstrip_space_all, rstrip_space_empty.
  - apply all_space_rstrip_of.
Qed.

Lemma strip_rstrip_newline s : strip s = "" -> strip (rstrip_newline s) = "".
Proof. rewrite !strip_empty. apply all_space_rstrip_of. Qed.

End Text_facts.

(** ** The token pattern *)

Module Re_facts.

Import Text Re Text_facts.

Lemma find_from_bounds c s start i :
  find_from c s start = Some i -> start <= i < len s.
Proof.
  revert start i; induction s as [|d t IH]; intros [|n] i; simpl; try done.
  - destruct (Ascii.eqb d c); [intros [= <-]; lia|].
    destruct (find_from c t 0) eqn:E; simpl; [|done].
    intros [= <-]. apply IH in E. lia.
  - destruct (find_from c t n) eqn:E; simpl; [|done].
    intros [= <-]. apply IH in E. lia.
Qed.

Lemma span_len p s run r : span p s = (run, r) -> len run + len r = len s.
Proof.
  revert run r; induction s as [|c t IH]; intros run r; simpl.
  - by intros [= <- <-].
  - destruct (p c).
    + destruct (span p t) as [run' r'] eqn:E. intros [= <- <-].
      simpl. f_equal. by apply IH.
    + by intros [= <- <-].
Qed.

Ltac len_lia := unfold len in *; cbn [String.length] in *; lia.

Lemma quoted_tail_len q s v r : quoted_tail q s = Some (v, r) -> len r < len s.
Proof.
  remember (len s) as n eqn:Hn. revert s v r Hn.
  induction n as [n IH] using lt_wf_ind. intros [|c t] v r Hn; [done|].
  assert (forall s' v' r', len s' < n ->
            quoted_tail q s' = Some (v', r') -> len r' < len s') as IH'.
  { intros s' v' r' Hlt. by apply (IH (len s')). }
  clear IH.
  assert (forall v' r', quoted_tail q t = Some (v', r') -> len r' < len t) as IHt.
  { intros v' r'. apply IH'. len_lia. }
  change (quoted_tail q (String c t)) with
    (match
       (if Ascii.eqb c "\" then
          match t with
          | String d t' =>
              if Ascii.eqb d "010" then None
              else '(v, r) ← quoted_tail q t'; Some (String c (String d v), r)
          | EmptyString => None
          end
        else None)
     with
     | Some res => Some res
     | None =>
         match (if Ascii.eqb c q then None
                else '(v, r) ← quoted_tail q t; Some (String c v, r)) with
         | Some res => Some res
         | None => if Ascii.eqb c q then Some (EmptyString, t) else None
         end
     end).
  destruct (quoted_tail q t) as [[v1 r1]|] eqn:E1;
    [specialize (IHt v1 r1 eq_refl)|clear IHt];
    destruct (Ascii.eqb c "\"), (Ascii.eqb c q); destruct t as [|d t'];
      try discriminate; cbn -[quoted_tail];
      try (destruct (Ascii.eqb d "010"));
      try (destruct (quoted_tail q t') as [[v2 r2]|] eqn:E2; cbn -[quoted_tail];
           [apply IH' in E2; [|len_lia]|]);
      try discriminate; intros [= <- <-]; len_lia.
Qed.

Lemma match_value_len s v r : match_value s = Some (v, r) -> len r < len s.
Proof.
  unfold match_value.
  destruct s as [|c t]; [done|].
  destruct (Ascii.eqb c "034") eqn:Hdq.
  - destruct (quoted_tail "034" t) as [[v1 r1]|] eqn:E1.
    { intros [= <- <-]. apply quoted_tail_len in E1. len_lia. }
    destruct (Ascii.eqb c "'") eqn:Hsq.
    { destruct (quoted_tail "'" t) as [[v2 r2]|] eqn:E2.
      { intros [= <- <-]. apply quoted_tail_len in E2. len_lia. }
      destruct (span _ (String c t)) as [[|b run] r'] eqn:Es; [done|].
      intros [= <- <-]. apply span_len in Es. len_lia. }
    destruct (span _ (String c t)) as [[|b run] r'] eqn:Es; [done|].
    intros [= <- <-]. apply span_len in Es. len_lia.
  - destruct (Ascii.eqb c "'") eqn:Hsq.
    { destruct (quoted_tail "'" t) as [[v2 r2]|] eqn:E2.
      { intros [= <- <-]. apply quoted_tail_len in E2. len_lia. }
      destruct (span _ (String c t)) as [[|b run] r'] eqn:Es; [done|].
      intros [= <- <-]. apply span_len in Es. len_lia. }
    destruct (span _ (String c t)) as [[|b run] r'] eqn:Es; [done|].
    intros [= <- <-]. apply span_len in Es. len_lia.
Qed.

(** A token has a key of at least one character and takes up at least
    one character of the text. *)
Lemma match_token_inv s k v r :
  match_token s = Some (k, v, r) -> k <> "" /\ len r < len s.
Proof.
  unfold match_token. destruct s as [|c t]; [done|].
  destruct (is_key_start c); [|done].
  destruct (span is_key_char t) as [tail r0] eqn:Es.
  destruct r0 as [|e r1]; [done|].
  destruct (Ascii.eqb e "="); [|done].
  destruct (match_value r1) as [[v1 r2]|] eqn:Ev; simpl; [|done].
  intros [= <- <- <-]. split; [done|].
  apply span_len in Es. apply match_value_len in Ev. len_lia.
Qed.

Lemma TOKEN_RE_match_end text pos m :
  TOKEN_RE_match text pos = Some m -> pos < m_end m <= len text.
Proof.
  unfold TOKEN_RE_match.
  destruct (match_token (drop pos text)) as [[[k v] r]|] eqn:E; simpl; [|done].
  intros [= <-]. simpl. apply match_token_inv in E as [_ E].
  rewrite len_drop in E. lia.
Qed.

Lemma TOKEN_RE_match_key text pos m :
  TOKEN_RE_match text pos = Some m -> m_key m <> "".
Proof.
  unfold TOKEN_RE_match.
  destruct (match_token (drop pos text)) as [[[k v] r]|] eqn:E; simpl; [|done].
  intros [= <-]. simpl. by apply match_token_inv in E as [E _].
Qed.

Lemma lower_empty s : lower s = "" -> s = "".
Proof. by destruct s. Qed.

End Re_facts.

(** ** Running a computation *)

Module Run.

Lemma bind_ret {A B} (a : A) (f : A -> M B) : bind (ret a) f = f a.
Proof. unfold bind, ret. by destruct (f a). Qed.

Lemma bind_returned {A B} (m : M A) (f : A -> M B) a :
  returned m = Some a -> returned (bind m f) = returned (f a).
Proof.
  destruct m as [[x|e|] w]; simpl; try done.
  intros [= ->]. by destruct (f a).
Qed.

Lemma when_returned b m : returned m = Some tt -> returned (when b m) = Some tt.
Proof. by destruct b. Qed.

Lemma warn_returned msg : returned (warn recording msg) = Some tt.
Proof. done. Qed.

Lemma bind_when_returned {B} b msg (f : unit -> M B) :
  returned (bind (when b (warn recording msg)) f) = returned (f tt).
Proof. destruct b; simpl; by destruct (f tt). Qed.

Lemma try_except_returned {A} (m : M A) h a :
  returned m = Some a -> returned (try_except m h) = Some a.
Proof. by destruct m as [[x|e|] w]. Qed.

End Run.

(** ** The tokenizer loop *)

Module Loop_facts.

Import Text Re Parser Tokens Text_facts Re_facts Run.

Lemma store_field_merge collect fields key val :
  store_field collect fields key val = ret (merge collect fields key val).
Proof.
  unfold store_field, merge, getitem. destruct collect.
  - destruct (decide (key = "timestamp")) as [->|Hk].
    + rewrite (bool_decide_eq_false_2 ("timestamp" ≠ "timestamp")) by naive_solver.
      by rewrite andb_false_r.
    + rewrite (bool_decide_eq_true_2 (key ≠ "timestamp")) by done.
      rewrite (bool_decide_eq_false_2 (key = "timestamp")) by done.
      rewrite andb_true_r.
      destruct (fields !! key) as [old|] eqn:E.
      * rewrite bool_decide_eq_true_2 by done. rewrite bind_ret.
        destruct old as [|s|items]; simpl;
          rewrite ?lookup_insert_eq, ?E, bind_ret, ?insert_insert_eq; done.
      * rewrite bool_decide_eq_false_2; [done|]. by intros [? ?].
  - destruct (fields !! key) as [old|] eqn:E.
    + by rewrite bool_decide_eq_true_2.
    + rewrite bool_decide_eq_false_2; [done|]. by intros [? ?].
Qed.

Lemma char_at_index s i c : index s i = Some c -> char_at s i = ret c.
Proof. unfold char_at. by intros ->. Qed.

Lemma skip_whitespace_skip_ws budget rest pos :
  len rest - pos < budget ->
  skip_whitespace budget rest (len rest) pos = ret (skip_ws rest pos).
Proof.
  unfold skip_whitespace, skip_ws.
  revert pos; induction budget as [|b IH]; intros pos Hb; [lia|].
  cbn [while]. destruct (pos <? len rest) eqn:Hlt.
  - apply Nat.ltb_lt in Hlt.
    destruct (drop_index rest pos Hlt) as (c & Hc & Hd).
    rewrite (char_at_index _ _ _ Hc), !bind_ret, Hd. cbn [leading_space].
    destruct (isspace c).
    + rewrite ?bind_ret, IH by lia. f_equal.
      replace (pos + 1) with (S pos) by lia. lia.
    + f_equal. lia.
  - apply Nat.ltb_ge in Hlt. rewrite bind_ret.
    rewrite drop_all by done. simpl. f_equal. lia.
Qed.

Lemma skip_ws_ge rest pos : pos <= skip_ws rest pos.
Proof. unfold skip_ws. lia. Qed.

Lemma token_stream_from_budget b1 b2 normalize rest pos :
  len rest - pos < b1 -> len rest - pos < b2 ->
  token_stream_from b1 normalize rest pos = token_stream_from b2 normalize rest pos.
Proof.
  revert b2 pos; induction b1 as [|b1 IH]; intros [|b2] pos H1 H2; try lia.
  cbn [token_stream_from]. destruct (pos <? len rest) eqn:Hlt; [|done].
  apply Nat.ltb_lt in Hlt.
  destruct (TOKEN_RE_match rest pos) as [m|] eqn:Em.
  - apply TOKEN_RE_match_end in Em. pose proof (skip_ws_ge rest (m_end m)).
    f_equal. apply IH; lia.
  - destruct (find_from " " rest pos) as [ns|] eqn:En; [|done].
    apply find_from_bounds in En. pose proof (skip_ws_ge rest (ns + 1)).
    apply IH; lia.
Qed.

(** The loop of lines 65-96 stores the token stream, token by token. *)
Lemma tokenizer_loop opts budget inner rest pos fields :
  len rest - pos < budget -> len rest < inner ->
  exists pos',
    returned (while budget (fun st => ret (st.2 <? len rest))
      (tokenize_round recording opts inner rest (len rest)) (fields, pos))
    = Some (store_all (collect_duplicates opts) fields
              (token_stream_from budget (normalize_keys opts) rest pos), pos').
Proof.
  revert pos fields; induction budget as [|b IH]; intros pos fields Hb Hi; [lia|].
  cbn [while token_stream_from]. rewrite bind_ret. cbn [snd].
  destruct (pos <? len rest) eqn:Hlt; [|by exists pos].
  apply Nat.ltb_lt in Hlt. unfold tokenize_round at 1.
  destruct (TOKEN_RE_match rest pos) as [m|] eqn:Em.
  - pose proof (TOKEN_RE_match_end _ _ _ Em) as Hend.
    pose proof (skip_ws_ge rest (m_end m)) as Hge.
    rewrite store_field_merge, bind_ret.
    rewrite skip_whitespace_skip_ws, !bind_ret by lia.
    destruct (IH (skip_ws rest (m_end m))
                (merge (collect_duplicates opts) fields
                   (token_key (normalize_keys opts) m) (token_value m)))
      as [pos' Hpos']; [lia|done|].
    exists pos'. by rewrite Hpos'.
  - destruct (find_from " " rest pos) as [ns|] eqn:En.
    + pose proof (find_from_bounds _ _ _ _ En) as Hns.
      pose proof (skip_ws_ge rest (ns + 1)) as Hge.
      destruct (IH (skip_ws rest (ns + 1)) fields) as [pos' Hpos']; [lia|done|].
      exists pos'. rewrite <- Hpos'.
      erewrite (bind_returned _ _ (Continue (fields, skip_ws rest (ns + 1)))); [done|].
      rewrite bind_when_returned.
      by rewrite skip_whitespace_skip_ws, bind_ret by lia.
    + exists pos.
      erewrite (bind_returned _ _ (Break (fields, pos))); [done|].
      by rewrite bind_when_returned.
Qed.

End Loop_facts.

(** ** Records built from a token stream *)

Module Record_facts.

Import Text Re Parser Tokens Text_facts Re_facts Run Loop_facts.

Lemma merge_lookup_ne collect fields key val k :
  k <> key -> merge collect fields key val !! k = fields !! k.
Proof.
  intros Hk. unfold merge.
  destruct collect; [case_bool_decide|];
    repeat case_match; by rewrite ?lookup_insert_ne.
Qed.

Lemma merge_lookup_eq collect fields key val :
  key <> "timestamp" ->
  merge collect fields key val !! key = slot_after collect (fields !! key) val.
Proof.
  intros Hk. unfold merge, slot_after.
  destruct collect; [rewrite bool_decide_eq_false_2 by done|];
    destruct (fields !! key) as [[|s|items]|] eqn:E; by rewrite ?lookup_insert_eq.
Qed.

Lemma merge_lookup_timestamp collect fields val :
  merge collect fields "timestamp" val !! "timestamp"
  = if collect then Some (VStr val)
    else match fields !! "timestamp" with
         | Some o => Some o
         | None => Some (VStr val)
         end.
Proof.
  unfold merge. destruct collect.
  - rewrite bool_decide_eq_true_2 by done. by rewrite lookup_insert_eq.
  - destruct (fields !! "timestamp") eqn:E; by rewrite ?lookup_insert_eq.
Qed.

Lemma values_of_cons k k' v tokens :
  values_of k ((k', v) :: tokens)
  = if decide (k' = k) then v :: values_of k tokens else values_of k tokens.
Proof.
  unfold values_of. rewrite filter_cons. simpl. by destruct (decide (k' = k)).
Qed.

Lemma store_all_lookup collect fields tokens k :
  k <> "timestamp" ->
  store_all collect fields tokens !! k
  = foldl (slot_after collect) (fields !! k) (values_of k tokens).
Proof.
  intros Hk. revert fields; induction tokens as [|[k' v] tokens IH]; intros fields.
  - done.
  - unfold store_all in *. cbn [foldl fst snd]. rewrite IH, values_of_cons.
    destruct (decide (k' = k)) as [->|Hne].
    + by rewrite merge_lookup_eq.
    + by rewrite merge_lookup_ne.
Qed.

Lemma slot_after_collect_list items vs :
  foldl (slot_after true) (Some (VList items)) vs = Some (VList (items ++ (VStr <$> vs))).
Proof.
  revert items; induction vs as [|v vs IH]; intros items; simpl.
  - by rewrite app_nil_r.
  - rewrite IH. by rewrite <- app_assoc.
Qed.

Lemma slot_after_keep o vs : foldl (slot_after false) (Some o) vs = Some o.
Proof. induction vs; simpl; auto. Qed.

Lemma slot_after_none collect vs :
  foldl (slot_after collect) None vs = entry_of collect vs.
Proof.
  destruct vs as [|v1 [|v2 vs]]; [done|by destruct collect|].
  destruct collect; simpl.
  - by rewrite slot_after_collect_list.
  - by rewrite slot_after_keep.
Qed.

Lemma store_all_entry collect fields tokens k :
  k <> "timestamp" -> fields !! k = None ->
  store_all collect fields tokens !! k = entry_of collect (values_of k tokens).
Proof. intros Hk Hf. by rewrite store_all_lookup, Hf, slot_after_none. Qed.

(** The [timestamp] entry: with [collect_duplicates] the last token named
    [timestamp] overwrites it, without it is kept. *)
Lemma store_all_timestamp collect fields tokens ts :
  fields !! "timestamp" = Some ts ->
  store_all collect fields tokens !! "timestamp"
  = if collect then
      match last (values_of "timestamp" tokens) with
      | Some v => Some (VStr v)
      | None => Some ts
      end
    else Some ts.
Proof.
  revert fields ts; induction tokens as [|[k v] tokens IH]; intros fields ts Hts.
  - simpl. by destruct collect.
  - unfold store_all in *. cbn [foldl fst snd]. rewrite values_of_cons.
    destruct (decide (k = "timestamp")) as [->|Hne].
    + pose proof (merge_lookup_timestamp collect fields v) as Hm.
      rewrite Hts in Hm. destruct collect.
      * rewrite (IH _ _ Hm). rewrite last_cons.
        by destruct (last (values_of "timestamp" tokens)).
      * by rewrite (IH _ _ Hm).
    + apply IH. by rewrite merge_lookup_ne.
Qed.

Lemma merge_dom collect fields key val k :
  is_Some (merge collect fields key val !! k) <-> is_Some (fields !! k) \/ k = key.
Proof.
  destruct (decide (k = key)) as [->|Hne].
  - split; [auto|]. intros _. unfold merge.
    destruct collect; [case_bool_decide|]; repeat case_match;
      rewrite ?lookup_insert_eq; eauto.
  - rewrite merge_lookup_ne by done. split; [auto|]. by intros [?|?].
Qed.

Lemma store_all_dom collect fields tokens k :
  is_Some (store_all collect fields tokens !! k)
  <-> is_Some (fields !! k) \/ k ∈ tokens.*1.
Proof.
  revert fields; induction tokens as [|[k' v] tokens IH]; intros fields.
  - simpl. split; [auto|]. intros [?|H]; [done|]. by apply elem_of_nil in H.
  - unfold store_all in *. cbn [foldl fst snd]. rewrite IH, merge_dom.
    rewrite fmap_cons, elem_of_cons. simpl. tauto.
Qed.

Lemma has_kv_true fields :
  has_kv fields = true
  <-> exists k, is_Some (fields !! k) /\ k <> "timestamp" /\ k <> "".
Proof.
  unfold has_kv. rewrite existsb_exists. split.
  - intros (k & Hin & Hk). apply bool_decide_eq_true in Hk.
    apply list_elem_of_In, list_elem_of_filter in Hin as [Hts Hin].
    apply list_elem_of_fmap in Hin as ([k' v] & -> & Hin).
    apply elem_of_map_to_list in Hin. exists k'. simpl in *. eauto.
  - intros (k & [v Hv] & Hts & Hk). exists k. split.
    + apply list_elem_of_In, list_elem_of_filter. split; [done|].
      apply list_elem_of_fmap. exists (k, v). split; [done|].
      by apply elem_of_map_to_list.
    + by apply bool_decide_eq_true.
Qed.

(** No token has an empty key. *)
Lemma token_stream_from_keys budget normalize rest pos k :
  k ∈ (token_stream_from budget normalize rest pos).*1 -> k <> "".
Proof.
  revert pos; induction budget as [|b IH]; intros pos; cbn [token_stream_from].
  - intros H. by apply elem_of_nil in H.
  - destruct (pos <? len rest); [|intros H; by apply elem_of_nil in H].
    destruct (TOKEN_RE_match rest pos) as [m|] eqn:Em.
    + rewrite fmap_cons, elem_of_cons. intros [->|H]; [|by eapply IH].
      apply TOKEN_RE_match_key in Em. unfold token_key. simpl.
      destruct normalize; [|done]. intros H. by apply lower_empty in H.
    + destruct (find_from " " rest pos); [apply IH|].
      intros H. by apply elem_of_nil in H.
Qed.

Lemma token_stream_keys normalize rest k :
  k ∈ (token_stream normalize rest).*1 -> k <> "".
Proof. apply token_stream_from_keys. Qed.

End Record_facts.

(** ** What the parser returns *)

Module Parser_facts.

Import Text Re Parser Tokens Text_facts Re_facts Run Loop_facts Record_facts.

Lemma tokenize_returned opts budget rest ts :
  len rest < budget ->
  returned (tokenize recording opts budget rest ts)
  = Some (store_all (collect_duplicates opts) {["timestamp" := ts]}
            (token_stream (normalize_keys opts) rest)).
Proof.
  intros Hb. unfold tokenize.
  destruct (tokenizer_loop opts budget budget rest 0 {["timestamp" := ts]})
    as [pos' Hloop]; [lia|done|].
  rewrite (bind_returned _ _ _ Hloop). simpl.
  unfold token_stream.
  by rewrite (token_stream_from_budget budget (S (len rest))) by lia.
Qed.

Lemma store_all_has_timestamp collect ts tokens :
  is_Some (store_all collect {["timestamp" := ts]} tokens !! "timestamp").
Proof. apply store_all_dom. left. by rewrite lookup_singleton_eq. Qed.

Lemma finish_returned fields :
  is_Some (fields !! "timestamp") ->
  returned (finish fields) = Some (keep_record fields).
Proof.
  intros [ts Hts]. unfold finish, keep_record, getitem.
  destruct (has_kv fields); simpl; [done|].
  rewrite Hts, bind_ret. by destruct ts.
Qed.

Lemma len_token_region text : len (token_region text) <= len text.
Proof.
  unfold token_region.
  pose proof (len_lstrip (drop 19 (rstrip_newline text))).
  pose proof (len_rstrip_of (fun c => Ascii.eqb c "010") text).
  rewrite len_drop in *. unfold rstrip_newline in *. lia.
Qed.

Lemma tokenize_finish_returned opts budget text ts :
  len text < budget ->
  returned (bind (tokenize recording opts budget (token_region text) ts) finish)
  = Some (keep_record
            (store_all (collect_duplicates opts) {["timestamp" := ts]}
               (token_stream (normalize_keys opts) (token_region text)))).
Proof.
  intros Hb. pose proof (len_token_region text).
  erewrite bind_returned; [|apply tokenize_returned; lia].
  apply finish_returned, store_all_has_timestamp.
Qed.

(** The parser returns [parse_result], whatever budget at least the
    length of the text its loops are given. *)
Lemma parse_log_line_within_returned budget opts line :
  text_length line < budget ->
  returned (parse_log_line_within recording budget opts line) = Some (parse_result opts line).
Proof.
  intros Hb. unfold parse_log_line_within, parse_result.
  assert (forall text, line_text line = Some text -> len text < budget ->
            returned (parse_body recording budget opts line)
            = Some (timestamp_stage (allow_blank_timestamp opts) text ≫= fun ts =>
                keep_record
                  (store_all (collect_duplicates opts) {["timestamp" := ts]}
                     (token_stream (normalize_keys opts) (token_region text))))) as Hbody.
  { intros text Htext Hlen. unfold parse_body.
    assert (coerce line = ret text) as ->.
    { destruct line as [|s|[e|s]]; simpl in *; congruence. }
    rewrite bind_ret. unfold timestamp_stage.
    fold (token_region text). fold (timestamp_region text).
    case_bool_decide; [done|].
    destruct (len (rstrip_newline text) <? 19).
    { by rewrite bind_when_returned. }
    destruct (TIMESTAMP_RE_match (timestamp_region text)).
    { by rewrite tokenize_finish_returned. }
    destruct (allow_blank_timestamp opts && _).
    { rewrite bind_when_returned. by rewrite tokenize_finish_returned. }
    by rewrite bind_when_returned. }
  destruct (line_text line) as [text|] eqn:Htext.
  - apply try_except_returned. simpl. apply Hbody; [done|].
    destruct line as [|s|[e|s]]; simpl in *; simplify_eq; simpl; lia.
  - destruct line as [|s|[e|s]]; try done. simpl.
    unfold parse_body. simpl. by destruct (warn_on_junk opts).
Qed.

Lemma parse_log_line_returned opts line :
  returned (parse_log_line recording opts line) = Some (parse_result opts line).
Proof. apply parse_log_line_within_returned. lia. Qed.

(** [warn_on_junk] has no say in what is returned. *)
Lemma warn_on_junk_irrelevant opts opts' line :
  normalize_keys opts = normalize_keys opts' ->
  collect_duplicates opts = collect_duplicates opts' ->
  allow_blank_timestamp opts = allow_blank_timestamp opts' ->
  returned (parse_log_line recording opts line) = returned (parse_log_line recording opts' line).
Proof.
  intros Hn Hc Ha. rewrite !parse_log_line_returned.
  unfold parse_result. by rewrite Hn, Hc, Ha.
Qed.

Lemma budget_suffices budget opts line :
  text_length line < budget ->
  returned (parse_log_line_within recording budget opts line) = returned (parse_log_line recording opts line).
Proof.
  intros Hb. by rewrite parse_log_line_returned, parse_log_line_within_returned.
Qed.

End Parser_facts.

(** ** A timestamp at the start of a line *)

Module Timestamp_facts.

Import Text Re Parser Tokens Text_facts Re_facts.

Lemma index_take i n s : i < n -> index (take n s) i = index s i.
Proof.
  revert i s; induction n as [|n IH]; intros i [|c t] Hi; try lia; try done.
  destruct i as [|i]; [done|]. simpl. apply IH. lia.
Qed.

Lemma index_lt s i c : index s i = Some c -> i < len s.
Proof.
  revert i; induction s as [|a t IH]; intros [|i]; simpl; try done; try lia.
  intros H. apply IH in H. lia.
Qed.

Lemma match_classes_index cls s r i p :
  match_classes cls s = Some r -> cls !! i = Some p ->
  exists c, index s i = Some c /\ p c = true.
Proof.
  revert s i; induction cls as [|q cls IH]; intros [|c t] i; simpl; try done.
  destruct (q c) eqn:Hq; [|done]. intros Hm. destruct i as [|i]; simpl.
  - intros [= <-]. eauto.
  - intros Hi. eapply IH; eauto.
Qed.

Lemma all_space_index s i c :
  all_space s = true -> index s i = Some c -> isspace c = true.
Proof.
  revert i; induction s as [|a t IH]; intros [|i]; simpl; try done.
  - intros [Ha _]%andb_true_iff [= <-]. done.
  - intros [_ Ht]%andb_true_iff. by apply IH.
Qed.

(** [rstrip] leaves alone everything up to a character it keeps. *)
Lemma rstrip_of_take p s n c :
  index s n = Some c -> p c = false ->
  take (S n) (rstrip_of p s) = take (S n) s.
Proof.
  revert n; induction s as [|a t IH]; intros [|n]; simpl; try done.
  - intros [= <-] Hp. rewrite Hp. by destruct (rstrip_of p t).
  - intros Hi Hp. specialize (IH n Hi Hp).
    destruct t as [|b t']; [by destruct n|].
    destruct (rstrip_of p (String b t')) as [|b' r] eqn:E; [done|].
    simpl in *. by f_equal.
Qed.

Lemma digit_not_space c : isdigit c = true -> isspace c = false.
Proof. destruct c as [[] [] [] [] [] [] [] []]; done. Qed.

Lemma digit_not_newline c : isdigit c = true -> Ascii.eqb c "010" = false.
Proof. destruct c as [[] [] [] [] [] [] [] []]; done. Qed.

(** A line that starts with a timestamp passes lines 43-53 with the
    first 19 characters as its timestamp. *)
Lemma timestamp_stage_prefix allow_blank text :
  TIMESTAMP_RE_match (take 19 text) = true ->
  timestamp_stage allow_blank text = Some (VStr (take 19 text)).
Proof.
  intros Hm. unfold TIMESTAMP_RE_match in Hm.
  destruct (match_classes TIMESTAMP_classes (take 19 text)) as [r|] eqn:E; [|done].
  destruct (match_classes_index _ _ _ 18 isdigit E eq_refl) as (c & Hc & Hd).
  rewrite index_take in Hc by lia.
  pose proof (rstrip_of_take (fun c => Ascii.eqb c "010") text 18 c Hc
                (digit_not_newline c Hd)) as Hr.
  fold (rstrip_newline text) in Hr. fold (timestamp_region text) in Hr.
  assert (index (rstrip_newline text) 18 = Some c) as Hc'.
  { rewrite <- (index_take 18 19) by lia.
    change (take 19 (rstrip_newline text)) with (timestamp_region text).
    rewrite Hr, index_take by lia. done. }
  unfold timestamp_stage. rewrite Hr.
  rewrite bool_decide_eq_false_2.
  2: { intros Hs%strip_empty. pose proof (all_space_index _ _ _ Hs Hc') as Hsp.
       by rewrite digit_not_space in Hsp. }
  apply index_lt in Hc'.
  destruct (len (rstrip_newline text) <? 19) eqn:Hlen.
  { apply Nat.ltb_lt in Hlen. lia. }
  unfold TIMESTAMP_RE_match. by rewrite E, Hm.
Qed.

End Timestamp_facts.

(** ** The record the parser keeps *)

Module Result_facts.

Import Text Re Parser Tokens.
Import Text_facts Re_facts Run Loop_facts Record_facts Parser_facts Timestamp_facts.

Lemma returned_Return {A} (m : M A) a : returned m = Some a -> m.1 = Return a.
Proof. destruct m as [[x|e|] w]; simpl; congruence. Qed.

Lemma parse_result_accepted opts line text ts :
  line_text line = Some text ->
  timestamp_stage (allow_blank_timestamp opts) text = Some ts ->
  parse_result opts line
  = keep_record (store_all (collect_duplicates opts) {["timestamp" := ts]}
                   (line_tokens opts text)).
Proof.
  intros Ht Hs. unfold parse_result, line_tokens.
  rewrite Ht. simpl. by rewrite Hs.
Qed.

Lemma parse_result_rejected opts line text :
  line_text line = Some text ->
  timestamp_stage (allow_blank_timestamp opts) text = None ->
  parse_result opts line = None.
Proof. intros Ht Hs. unfold parse_result. rewrite Ht. simpl. by rewrite Hs. Qed.

Lemma timestamp_stage_inv allow_blank text ts :
  timestamp_stage allow_blank text = Some ts ->
  (ts = VStr (timestamp_region text) /\ TIMESTAMP_RE_match (timestamp_region text) = true)
  \/ (ts = VNone /\ TIMESTAMP_RE_match (timestamp_region text) = false).
Proof.
  unfold timestamp_stage. case_bool_decide; [done|].
  destruct (_ <? 19); [done|].
  destruct (TIMESTAMP_RE_match (timestamp_region text)); [intros [= <-]; auto|].
  destruct (allow_blank && _); [intros [= <-]; auto|done].
Qed.

Lemma keep_record_inv fields rec :
  keep_record fields = Some rec ->
  rec = fields
  /\ (has_kv fields = true
      \/ exists v, fields !! "timestamp" = Some v /\ v <> VNone).
Proof.
  unfold keep_record. destruct (has_kv fields); [intros [= <-]; auto|].
  destruct (fields !! "timestamp") as [[|s|items]|]; try done;
    intros [= <-]; split; eauto.
Qed.

Lemma keep_record_timestamp fields v :
  fields !! "timestamp" = Some v -> v <> VNone -> keep_record fields = Some fields.
Proof.
  intros Hv Hne. unfold keep_record. rewrite Hv.
  destruct (has_kv fields); [done|]. by destruct v.
Qed.

Lemma keep_record_field fields k :
  is_Some (fields !! k) -> k <> "timestamp" -> k <> "" ->
  keep_record fields = Some fields.
Proof.
  intros Hk Hts He. unfold keep_record.
  assert (has_kv fields = true) as ->; [|done].
  apply has_kv_true. eauto.
Qed.

Lemma keep_record_none fields :
  is_Some (fields !! "timestamp") ->
  keep_record fields = None
  <-> has_kv fields = false /\ fields !! "timestamp" = Some VNone.
Proof.
  intros [v Hv]. unfold keep_record. rewrite Hv.
  destruct (has_kv fields); [split; [done|by intros [? _]]|].
  destruct v; split; try done; by intros [_ ?].
Qed.

Lemma values_of_elem k v tokens : v ∈ values_of k tokens -> (k, v) ∈ tokens.
Proof.
  unfold values_of. intros ([k' v'] & -> & Hin)%list_elem_of_fmap.
  apply list_elem_of_filter in Hin as [Hk Hin]. simpl in *. by subst.
Qed.

Lemma values_of_key k v tokens : v ∈ values_of k tokens -> k ∈ tokens.*1.
Proof.
  intros H%values_of_elem. apply list_elem_of_fmap. by exists (k, v).
Qed.

Lemma values_of_absent k tokens : k ∉ tokens.*1 -> values_of k tokens = [].
Proof.
  intros Hk. destruct (values_of k tokens) as [|v vs] eqn:E; [done|].
  exfalso. apply Hk, (values_of_key k v). rewrite E. left.
Qed.

Lemma last_elem {A} (l : list A) x : last l = Some x -> x ∈ l.
Proof.
  induction l as [|a [|b l] IH]; simpl; [done|intros [= ->]; left|].
  intros H. right. by apply IH.
Qed.

(** The tokens of a line all have keys, so what [has_kv] asks of the
    record is whether some token is not named [timestamp]. *)
Lemma has_kv_tokens opts text ts :
  timestamp_stage (allow_blank_timestamp opts) text = Some ts ->
  has_kv (store_all (collect_duplicates opts) {["timestamp" := ts]}
            (line_tokens opts text)) = true
  <-> exists k, k ∈ (line_tokens opts text).*1 /\ k <> "timestamp".
Proof.
  intros Hs. rewrite has_kv_true. unfold line_tokens. rewrite Hs. split.
  - intros (k & Hk & Hts & _). exists k. split; [|done].
    apply store_all_dom in Hk as [Hk|Hk]; [|done].
    rewrite lookup_singleton_ne in Hk by done. by destruct Hk.
  - intros (k & Hk & Hts). exists k. split; [|split; [done|]].
    + apply store_all_dom. by right.
    + by eapply token_stream_keys.
Qed.

(** A line that starts with a timestamp is never rejected, whatever
    follows the timestamp: its [timestamp] entry is a text, the prefix or
    the value of a token. *)
Lemma timestamped_line_kept opts line text :
  line_text line = Some text ->
  TIMESTAMP_RE_match (take 19 text) = true ->
  exists rec, parse_result opts line = Some rec.
Proof.
  intros Ht Hm.
  pose proof (timestamp_stage_prefix (allow_blank_timestamp opts) text Hm) as Hs.
  rewrite (parse_result_accepted _ _ _ _ Ht Hs).
  set (fields := store_all _ _ _).
  assert (exists s, fields !! "timestamp" = Some (VStr s)) as [s Hslot].
  { unfold fields.
    rewrite (store_all_timestamp _ _ _ (VStr (take 19 text))) by apply lookup_singleton_eq.
    destruct (collect_duplicates opts); [|eauto].
    destruct (last _); eauto. }
  exists fields. by rewrite (keep_record_timestamp _ _ Hslot).
Qed.

Lemma line_tokens_accepted opts text :
  line_tokens opts text <> [] ->
  is_Some (timestamp_stage (allow_blank_timestamp opts) text).
Proof. unfold line_tokens. by destruct (timestamp_stage _ text). Qed.

End Result_facts.

(** ** The parser in quiet mode *)

Module Quiet_facts.

Import Text Re Parser Tokens Lines.
Import Text_facts Re_facts Run Loop_facts Record_facts Parser_facts
  Timestamp_facts Result_facts.

Lemma when_false m : when false m = ret tt.
Proof. done. Qed.

(** Without [warn_on_junk] the loop of lines 65-96 is silent, whatever
    the warnings filter. *)
Lemma tokenizer_loop_quiet errors opts budget inner rest pos fields :
  warn_on_junk opts = false ->
  len rest - pos < budget -> len rest < inner ->
  exists pos',
    while budget (fun st => ret (st.2 <? len rest))
      (tokenize_round errors opts inner rest (len rest)) (fields, pos)
    = ret (store_all (collect_duplicates opts) fields
             (token_stream_from budget (normalize_keys opts) rest pos), pos').
Proof.
  intros Hq. revert pos fields; induction budget as [|b IH]; intros pos fields Hb Hi; [lia|].
  cbn [while token_stream_from]. rewrite bind_ret. cbn [snd].
  destruct (pos <? len rest) eqn:Hlt; [|by exists pos].
  apply Nat.ltb_lt in Hlt. unfold tokenize_round at 1. rewrite Hq. cbn [andb].
  destruct (TOKEN_RE_match rest pos) as [m|] eqn:Em.
  - pose proof (TOKEN_RE_match_end _ _ _ Em) as Hend.
    pose proof (skip_ws_ge rest (m_end m)) as Hge.
    rewrite store_field_merge, bind_ret.
    rewrite skip_whitespace_skip_ws, !bind_ret by lia.
    apply IH; [lia|done].
  - rewrite when_false, bind_ret.
    destruct (find_from " " rest pos) as [ns|] eqn:En.
    + pose proof (find_from_bounds _ _ _ _ En) as Hns.
      pose proof (skip_ws_ge rest (ns + 1)) as Hge.
      rewrite skip_whitespace_skip_ws, !bind_ret by lia.
      apply IH; [lia|done].
    + rewrite bind_ret. by exists pos.
Qed.

Lemma finish_keep_record fields :
  is_Some (fields !! "timestamp") -> finish fields = ret (keep_record fields).
Proof.
  intros [ts Hts]. unfold finish, keep_record, getitem.
  destruct (has_kv fields); simpl; [done|].
  rewrite Hts, bind_ret. by destruct ts.
Qed.

Lemma tokenize_finish_quiet errors opts budget text ts :
  warn_on_junk opts = false -> len text < budget ->
  bind (tokenize errors opts budget (token_region text) ts) finish
  = ret (keep_record
           (store_all (collect_duplicates opts) {["timestamp" := ts]}
              (token_stream (normalize_keys opts) (token_region text)))).
Proof.
  intros Hq Hb. pose proof (len_token_region text). unfold tokenize.
  destruct (tokenizer_loop_quiet errors opts budget budget (token_region text) 0
              {["timestamp" := ts]} Hq) as [pos' ->]; [lia..|].
  rewrite !bind_ret. cbn [fst].
  rewrite finish_keep_record by apply store_all_has_timestamp.
  unfold token_stream.
  by rewrite (token_stream_from_budget budget (S (len (token_region text)))) by lia.
Qed.

(** In quiet mode the parser returns its result and emits nothing,
    whatever the warnings filter. *)
Lemma parse_log_line_within_quiet errors budget opts line :
  warn_on_junk opts = false -> text_length line < budget ->
  parse_log_line_within errors budget opts line = ret (parse_result opts line).
Proof.
  intros Hq Hb. unfold parse_log_line_within, parse_result, parse_body.
  destruct (line_text line) as [text|] eqn:Htext.
  - assert (coerce line = ret text) as ->.
    { destruct line as [|s|[e|s]]; simpl in *; congruence. }
    assert (len text < budget) as Hlen.
    { destruct line as [|s|[e|s]]; simpl in *; simplify_eq; simpl; lia. }
    rewrite bind_ret, Hq. simpl option_bind. cbn [mbind option_bind].
    unfold timestamp_stage.
    fold (token_region text). fold (timestamp_region text).
    case_bool_decide; [done|].
    destruct (len (rstrip_newline text) <? 19); [done|].
    destruct (TIMESTAMP_RE_match (timestamp_region text)).
    { by rewrite tokenize_finish_quiet. }
    destruct (allow_blank_timestamp opts && _); [|done].
    rewrite when_false, bind_ret. by rewrite tokenize_finish_quiet.
  - destruct line as [|s|[e|s]]; try done. simpl. by rewrite Hq.
Qed.

Lemma parse_log_line_quiet errors opts line :
  warn_on_junk opts = false ->
  parse_log_line errors opts line = ret (parse_result opts line).
Proof. intros Hq. apply parse_log_line_within_quiet; [done|lia]. Qed.

(** A blank line is rejected before any warning, whatever the options
    and the warnings filter. *)
Lemma blank_line_rejected errors opts text :
  strip text = "" -> parse_log_line errors opts (PyStr text) = ret None.
Proof.
  intros Hb. unfold parse_log_line, parse_log_line_within, parse_body.
  cbn [coerce]. rewrite bind_ret.
  by rewrite bool_decide_eq_true_2 by by apply strip_rstrip_newline.
Qed.

End Quiet_facts.

(** ** The parser under a warnings filter *)

Module Filter_facts.

Import Text Re Parser Tokens Lines Filters.
Import Text_facts Re_facts Run Loop_facts Record_facts Parser_facts
  Timestamp_facts Result_facts Quiet_facts.

Lemma first_error_app errors w w' :
  first_error errors (w ++ w')
  = match first_error errors w with
    | Some found => Some found
    | None =>
        match first_error errors w' with
        | Some (pre, m) => Some (w ++ pre, m)
        | None => None
        end
    end.
Proof.
  induction w as [|msg w IH]; simpl.
  - by destruct (first_error errors w') as [[pre m]|].
  - destruct (errors msg); [done|]. rewrite IH.
    destruct (first_error errors w) as [[pre m]|]; [done|].
    by destruct (first_error errors w') as [[pre m]|].
Qed.

Lemma first_error_none errors log :
  Forall (fun msg => errors msg = false) log -> first_error errors log = None.
Proof. induction 1 as [|msg log Hm _ IH]; simpl; [done|]. by rewrite Hm, IH. Qed.

Lemma cut_silent {A} errors (m : M A) : m.2 = [] -> cut errors m = m.
Proof. unfold cut. by intros ->. Qed.

Lemma warn_cut errors msg : warn errors msg = cut errors (warn recording msg).
Proof. unfold warn, cut, recording. simpl. by destruct (errors msg). Qed.

Lemma when_warn_cut errors b msg :
  when b (warn errors msg) = cut errors (when b (warn recording msg)).
Proof. destruct b; [apply warn_cut|done]. Qed.

Lemma bind_ext {A B} (m m' : M A) (k k' : A -> M B) :
  m = m' -> (forall a, k a = k' a) -> bind m k = bind m' k'.
Proof. intros <- Hk. destruct m as [[a|e|] w]; simpl; [|done..]. by rewrite Hk. Qed.

Lemma cut_bind {A B} errors (m : M A) (k : A -> M B) :
  cut errors (bind m k) = bind (cut errors m) (fun a => cut errors (k a)).
Proof.
  destruct m as [[a|e|] w]; unfold cut; simpl.
  - destruct (k a) as [o w'] eqn:Ek. simpl. rewrite first_error_app.
    destruct (first_error errors w) as [[pre msg]|]; [done|]. simpl.
    rewrite Ek. simpl.
    by destruct (first_error errors w') as [[pre msg]|].
  - by destruct (first_error errors w) as [[pre msg]|].
  - by destruct (first_error errors w) as [[pre msg]|].
Qed.

Lemma while_cut {St} errors budget (cond cond' : St -> M bool)
    (body body' : St -> M (control St)) st :
  (forall st, cond st = cut errors (cond' st)) ->
  (forall st, body st = cut errors (body' st)) ->
  while budget cond body st = cut errors (while budget cond' body' st).
Proof.
  intros Hc Hb. revert st; induction budget as [|b IH]; intros st; [done|].
  cbn [while]. rewrite cut_bind. apply bind_ext; [apply Hc|].
  intros [|]; [|done]. rewrite cut_bind. apply bind_ext; [apply Hb|].
  intros [st'|st']; [apply IH|done].
Qed.

Lemma while_ext {St} budget (cond : St -> M bool)
    (body body' : St -> M (control St)) st :
  (forall st, body st = body' st) ->
  while budget cond body st = while budget cond body' st.
Proof.
  intros Hb. revert st; induction budget as [|b IH]; intros st; [done|].
  cbn [while]. apply bind_ext; [done|].
  intros [|]; [|done]. apply bind_ext; [apply Hb|].
  intros [st'|st']; [apply IH|done].
Qed.

(** A loop that comes to an end within its budget goes the same way
    with a larger one. *)
Lemma while_more {St} budget more (cond : St -> M bool)
    (body : St -> M (control St)) st :
  (while budget cond body st).1 <> OutOfBudget ->
  while (budget + more) cond body st = while budget cond body st.
Proof.
  revert st; induction budget as [|b IH]; intros st; [done|].
  cbn [while Nat.add]. destruct (cond st) as [[go|e|] w]; simpl; [|done..].
  destruct go; [|done].
  destruct (body st) as [[[st'|st']|e|] w']; simpl; [|done..].
  destruct (while b cond body st') as [o w''] eqn:Ew. simpl.
  intros Ho. rewrite IH; [by rewrite Ew|]. rewrite Ew. simpl.
  by destruct o.
Qed.

(** *** The tokenizer *)

Lemma tokenize_round_cut errors opts inner rest st :
  len rest < inner ->
  tokenize_round errors opts inner rest (len rest) st
  = cut errors (tokenize_round recording opts inner rest (len rest) st).
Proof.
  intros Hi. destruct st as [fields pos]. unfold tokenize_round.
  destruct (TOKEN_RE_match rest pos) as [m|] eqn:Em.
  - rewrite store_field_merge, bind_ret.
    by rewrite skip_whitespace_skip_ws, !bind_ret by lia.
  - rewrite cut_bind. apply bind_ext; [apply when_warn_cut|]. intros _.
    destruct (find_from " " rest pos) as [ns|]; [|done].
    by rewrite skip_whitespace_skip_ws, !bind_ret by lia.
Qed.

Lemma tokenize_round_inner errors opts i1 i2 rest st :
  len rest < i1 -> len rest < i2 ->
  tokenize_round errors opts i1 rest (len rest) st
  = tokenize_round errors opts i2 rest (len rest) st.
Proof.
  intros H1 H2. destruct st as [fields pos]. unfold tokenize_round.
  destruct (TOKEN_RE_match rest pos) as [m|] eqn:Em.
  - apply bind_ext; [done|]. intros fields'.
    by rewrite !skip_whitespace_skip_ws by lia.
  - apply bind_ext; [done|]. intros _.
    destruct (find_from " " rest pos) as [ns|]; [|done].
    by rewrite !skip_whitespace_skip_ws by lia.
Qed.

Lemma tokenize_cut errors opts budget rest ts :
  len rest < budget ->
  tokenize errors opts budget rest ts
  = cut errors (tokenize recording opts budget rest ts).
Proof.
  intros Hb. unfold tokenize. rewrite cut_bind.
  apply bind_ext; [|done].
  apply while_cut; [done|]. intros st. by apply tokenize_round_cut.
Qed.

Lemma tokenize_budget opts budget rest ts :
  len rest < budget ->
  tokenize recording opts budget rest ts
  = tokenize recording opts (S (len rest)) rest ts.
Proof.
  intros Hb. unfold tokenize. apply bind_ext; [|done].
  replace budget with (S (len rest) + (budget - S (len rest))) at 1 by lia.
  rewrite while_more.
  - apply while_ext. intros st. apply tokenize_round_inner; lia.
  - destruct (tokenizer_loop opts (S (len rest)) budget rest 0 {["timestamp" := ts]})
      as [pos' Hloop]; [lia|done|].
    destruct (while _ _ _ _) as [[x|e|] w]; done.
Qed.

Lemma finish_silent fields : (finish fields).2 = [].
Proof.
  unfold finish, getitem. destruct (has_kv fields); simpl; [done|].
  destruct (fields !! "timestamp") as [[|s|items]|]; done.
Qed.

(** *** The body of the [try] *)

Lemma coerce_text line text : line_text line = Some text -> coerce line = ret text.
Proof. destruct line as [|s|[e|s]]; simpl; intros; by simplify_eq. Qed.

Lemma text_length_text line text :
  line_text line = Some text -> text_length line = len text.
Proof. destruct line as [|s|[e|s]]; simpl; intros; by simplify_eq. Qed.

Lemma parse_body_cut errors budget opts line :
  text_length line < budget ->
  parse_body errors budget opts line
  = cut errors (parse_body recording budget opts line).
Proof.
  intros Hb. unfold parse_body.
  destruct (line_text line) as [text|] eqn:Htext.
  - rewrite (text_length_text _ _ Htext) in Hb.
    rewrite (coerce_text _ _ Htext), !bind_ret.
    pose proof (len_token_region text) as Hr. unfold token_region in Hr.
    case_bool_decide; [done|].
    destruct (len (rstrip_newline text) <? 19).
    { rewrite cut_bind. apply bind_ext; [apply when_warn_cut|done]. }
    destruct (TIMESTAMP_RE_match _).
    { rewrite cut_bind. apply bind_ext; [apply tokenize_cut; lia|].
      intros fields. by rewrite cut_silent by apply finish_silent. }
    destruct (allow_blank_timestamp opts && _).
    { rewrite cut_bind. apply bind_ext; [apply when_warn_cut|]. intros _.
      rewrite cut_bind. apply bind_ext; [apply tokenize_cut; lia|].
      intros fields. by rewrite cut_silent by apply finish_silent. }
    rewrite cut_bind. apply bind_ext; [apply when_warn_cut|done].
  - by destruct line as [|s|[e|s]].
Qed.

Lemma parse_body_budget budget opts line :
  text_length line < budget ->
  parse_body recording budget opts line
  = parse_body recording (S (text_length line)) opts line.
Proof.
  intros Hb. unfold parse_body.
  destruct (line_text line) as [text|] eqn:Htext.
  - rewrite (text_length_text _ _ Htext) in *.
    rewrite (coerce_text _ _ Htext), !bind_ret.
    pose proof (len_token_region text) as Hr. unfold token_region in Hr.
    case_bool_decide; [done|].
    destruct (len (rstrip_newline text) <? 19); [done|].
    destruct (TIMESTAMP_RE_match _).
    { apply bind_ext; [|done].
      rewrite tokenize_budget by lia. symmetry. apply tokenize_budget. lia. }
    destruct (allow_blank_timestamp opts && _); [|done].
    apply bind_ext; [done|]. intros _. apply bind_ext; [|done].
    rewrite tokenize_budget by lia. symmetry. apply tokenize_budget. lia.
  - by destruct line as [|s|[e|s]].
Qed.

(** On a line that has a text the body of the [try] returns. *)
Lemma parse_body_returned budget opts line text :
  line_text line = Some text -> text_length line < budget ->
  (parse_body recording budget opts line).1 = Return (parse_result opts line).
Proof.
  intros Htext Hb. apply returned_Return.
  rewrite (text_length_text _ _ Htext) in Hb.
  unfold parse_result, parse_body. rewrite Htext.
  rewrite (coerce_text _ _ Htext), bind_ret. cbn [mbind option_bind].
  unfold timestamp_stage.
  fold (token_region text). fold (timestamp_region text).
  case_bool_decide; [done|].
  destruct (len (rstrip_newline text) <? 19).
  { by rewrite bind_when_returned. }
  destruct (TIMESTAMP_RE_match (timestamp_region text)).
  { by rewrite tokenize_finish_returned. }
  destruct (allow_blank_timestamp opts && _).
  { rewrite bind_when_returned. by rewrite tokenize_finish_returned. }
  by rewrite bind_when_returned.
Qed.

(** *** The whole call *)

(** The budget is irrelevant once it exceeds the length of the line. *)
Lemma recorded_run_budget budget opts line :
  text_length line < budget ->
  parse_log_line_within recording budget opts line
  = parse_log_line recording opts line.
Proof.
  intros Hb. unfold parse_log_line, parse_log_line_within.
  by rewrite parse_body_budget.
Qed.

(** The run under a filter, from the run under [recording], on a line
    that has a text. *)
Lemma run_under_filter errors budget opts line text :
  line_text line = Some text -> text_length line < budget ->
  parse_log_line_within errors budget opts line
  = match first_error errors (warnings (parse_log_line recording opts line)) with
    | None => parse_log_line recording opts line
    | Some (pre, msg) =>
        if errors (report msg) then (Raise (UserWarning (report msg)), pre)
        else (Return None, pre ++ [report msg])
    end.
Proof.
  intros Htext Hb. rewrite <- (recorded_run_budget budget) by done.
  unfold parse_log_line_within. rewrite parse_body_cut by done.
  pose proof (parse_body_returned budget opts line text Htext Hb) as Hret.
  destruct (parse_body recording budget opts line) as [o log] eqn:Ebody.
  simpl in Hret. subst o. cbn [try_except]. unfold warnings, cut. cbn [snd].
  destruct (first_error errors log) as [[pre msg]|] eqn:Efirst; [|done].
  cbn [try_except exn_str UserWarning].
  assert (warn_on_junk opts = true) as ->.
  { destruct (warn_on_junk opts) eqn:Hq; [done|].
    pose proof (parse_log_line_within_quiet recording budget opts line Hq Hb) as Hquiet.
    unfold parse_log_line_within in Hquiet. rewrite Ebody in Hquiet.
    cbn [try_except] in Hquiet. unfold ret in Hquiet.
    injection Hquiet as Hlog. by rewrite Hlog in Efirst. }
  unfold report. cbn [when]. unfold warn.
  destruct (errors _); simpl; by rewrite ?app_nil_r.
Qed.

(** When no warning of the recorded run is an error, the run under the
    filter is the recorded run. *)
Lemma run_unaffected errors budget opts line :
  Forall (fun msg => errors msg = false)
    (warnings (parse_log_line recording opts line)) ->
  text_length line < budget ->
  parse_log_line_within errors budget opts line
  = parse_log_line recording opts line.
Proof.
  intros Hlog Hb. destruct (line_text line) as [text|] eqn:Htext.
  - rewrite (run_under_filter errors budget opts line text) by done.
    by rewrite first_error_none.
  - destruct line as [|s|[e|s]]; try done. revert Hlog.
    unfold parse_log_line, parse_log_line_within, parse_body. simpl.
    destruct (warn_on_junk opts); [|done]. simpl.
    intros Hlog. apply Forall_cons in Hlog as [Hlog _]. unfold warn.
    by rewrite Hlog.
Qed.

Lemma call_unaffected errors opts line :
  Forall (fun msg => errors msg = false)
    (warnings (parse_log_line recording opts line)) ->
  parse_log_line errors opts line = parse_log_line recording opts line.
Proof. intros Hlog. unfold parse_log_line at 1. apply run_unaffected; [done|lia]. Qed.

End Filter_facts.

(** ** What the counting pass returns *)

Module Counter_facts.

Import Text Re Parser Tokens Counter Counting.
Import Text_facts Re_facts Run Loop_facts Record_facts Parser_facts Result_facts
  Quiet_facts.

Lemma strings_of_texts ss : strings_of (VStr <$> ss) = ss.
Proof. induction ss as [|s ss IH]; [done|]. unfold strings_of in *. simpl. by f_equal. Qed.

(** Under a key other than [timestamp] a parsed record holds texts only. *)
Lemma parsed_values_texts opts line parsed k :
  parse_result opts line = Some parsed -> k <> "timestamp" ->
  _as_list (get parsed k) = VStr <$> field_values parsed k.
Proof.
  unfold parse_result. intros H Hk.
  destruct (line_text line) as [text|]; [|done]. simpl in H.
  destruct (timestamp_stage _ text) as [ts|]; [|done]. simpl in H.
  unfold keep_record in H.
  assert (parsed = store_all (collect_duplicates opts) {["timestamp" := ts]}
            (token_stream (normalize_keys opts) (token_region text))) as ->.
  { repeat case_match; congruence. }
  clear H. unfold field_values, get.
  rewrite store_all_entry; [|done|by rewrite lookup_singleton_ne].
  destruct (values_of k _) as [|v1 [|v2 vs]]; [done..|].
  destruct (collect_duplicates opts); [|done].
  change (_as_list (default VNone (entry_of true (v1 :: v2 :: vs))))
    with (VStr <$> (v1 :: v2 :: vs)).
  by rewrite strings_of_texts.
Qed.

Lemma uppers_texts ss : uppers (VStr <$> ss) = ret (upper <$> ss).
Proof.
  induction ss as [|s ss IH]; [done|].
  cbn [fmap list_fmap uppers upper_of]. fold (fmap (M:=list) VStr ss).
  by rewrite bind_ret, IH, bind_ret.
Qed.

Lemma tally_texts_ret ctr ss :
  for_each (VStr <$> ss) tally ctr = ret (tally_texts ctr ss).
Proof.
  revert ctr; induction ss as [|s ss IH]; intros ctr; [done|].
  cbn [fmap list_fmap for_each tally]. fold (fmap (M:=list) VStr ss).
  unfold tally_texts in *. cbn [foldl].
  case_bool_decide; by rewrite bind_ret, IH.
Qed.

Lemma existsb_fmap {A B} (f : A -> B) p xs :
  existsb p (f <$> xs) = existsb (fun x => p (f x)) xs.
Proof. induction xs as [|x xs IH]; simpl; [done|]. by f_equal. Qed.

Lemma count_line_returned errors c line :
  returned (count_line errors c line) = Some (count_line_result c line).
Proof.
  unfold count_line, count_line_result.
  rewrite (parse_log_line_quiet errors quiet_options line) by done.
  rewrite bind_ret.
  destruct (parse_result quiet_options line) as [parsed|] eqn:Hp; [|done].
  rewrite !(parsed_values_texts _ _ _ _ Hp) by done.
  rewrite uppers_texts, bind_ret. unfold is_fail. rewrite existsb_fmap.
  destruct (existsb _ (field_values parsed "status")); [|done].
  cbn [negb]. by rewrite !tally_texts_ret, !bind_ret.
Qed.

Lemma for_each_returned {St A} (body : St -> A -> M St) (f : St -> A -> St) xs st :
  (forall st x, returned (body st x) = Some (f st x)) ->
  returned (for_each xs body st) = Some (foldl f st xs).
Proof.
  intros Hbody. revert st; induction xs as [|x xs IH]; intros st; [done|].
  cbn [for_each foldl]. by rewrite (bind_returned _ _ _ (Hbody st x)).
Qed.

(** The counting loop returns; no line makes it raise, whatever the
    warnings filter. *)
Lemma count_lines_returned errors lines :
  returned (count_lines errors lines) = Some (count_lines_result lines).
Proof. apply for_each_returned, count_line_returned. Qed.

Lemma count_failed_logins_returned errors lines w :
  returned (count_failed_logins errors lines w) = Some (summary (count_lines_result lines)).
Proof.
  unfold count_failed_logins.
  by rewrite (bind_returned _ _ _ (count_lines_returned errors lines)).
Qed.

Lemma count_lines_result_snoc lines line :
  count_lines_result (lines ++ [line])
  = count_line_result (count_lines_result lines) line.
Proof. unfold count_lines_result. by rewrite foldl_app. Qed.

Lemma count_of_increment k ctr u :
  count_of (increment k ctr) u = count_of ctr u + (if decide (k = u) then 1 else 0).
Proof.
  unfold increment, count_of. destruct (decide (k = u)) as [->|Hne].
  - by rewrite lookup_insert_eq.
  - rewrite lookup_insert_ne by done. lia.
Qed.

(** Each non-empty text adds one to its own count. *)
Lemma count_of_tally_texts ctr ss u :
  count_of (tally_texts ctr ss) u
  = count_of ctr u + (if decide (u = "") then 0 else occurrences u ss).
Proof.
  unfold tally_texts, occurrences.
  revert ctr; induction ss as [|s ss IH]; intros ctr; cbn [foldl].
  - rewrite filter_nil. simpl. destruct (decide (u = "")); lia.
  - rewrite IH, filter_cons. case_bool_decide as Hs.
    + rewrite count_of_increment.
      destruct (decide (s = u)) as [->|Hne]; destruct (decide (u = "")); simpl; try lia.
      all: done.
    + subst s. destruct (decide (u = "")) as [->|Hne].
      * done.
      * by rewrite decide_False.
Qed.

(** The run of lines 183-185: of the 25 sample lines 23 are parsed, 15
    of them failures; the line with a date but no time and the empty
    line are skipped. *)
Example sample_stats :
  returned (count_failed_logins recording sample false)
  = Some {| users := list_to_map [("admin", 9); ("root", 3);
                                  ("administrator", 2); ("test", 1)];
            ips := list_to_map [("198.51.100.45", 8); ("203.0.113.89", 3);
                                ("192.0.2.15", 3); ("198.51.100.92", 1)];
            total_fail := 15; snap_seen := 23; snap_counted := 15;
            snap_skipped := 2 |}.
Proof. vm_compute; reflexivity. Qed.

Lemma seen_skipped_total lines :
  seen (count_lines_result lines) + skipped (count_lines_result lines) = length lines
  /\ counted (count_lines_result lines) <= seen (count_lines_result lines).
Proof.
  induction lines as [|line lines IH] using rev_ind; [simpl; lia|].
  rewrite count_lines_result_snoc, length_app. simpl.
  unfold count_line_result.
  destruct (parse_result quiet_options line) as [parsed|]; [destruct (is_fail parsed)|];
    simpl; lia.
Qed.

Lemma sum_values_list (ctr : gmap string nat) :
  sum_values ctr = sum_list (map_to_list ctr).*2.
Proof.
  unfold sum_values. rewrite map_fold_foldr.
  induction (map_to_list ctr) as [|[k n] l IH]; simpl; [done|]. by rewrite IH.
Qed.

Lemma count_line_result_skip_one c line :
  count_line_result (skip_one c) line = skip_one (count_line_result c line).
Proof.
  unfold count_line_result.
  destruct (parse_result quiet_options line) as [parsed|]; [|done].
  by destruct (is_fail parsed).
Qed.

Lemma foldl_skip_one c lines :
  foldl count_line_result (skip_one c) lines
  = skip_one (foldl count_line_result c lines).
Proof.
  revert c; induction lines as [|line lines IH]; intros c; [done|].
  simpl. by rewrite count_line_result_skip_one, IH.
Qed.

Lemma blank_parse_result opts text :
  strip text = "" -> parse_result opts (PyStr text) = None.
Proof.
  intros Hb. apply (parse_result_rejected _ _ text); [done|].
  unfold timestamp_stage.
  by rewrite bool_decide_eq_true_2 by by apply strip_rstrip_newline.
Qed.

End Counter_facts.

(** * The parser: the statements C1, C3, C4, C5, C8 and C10 *)

(** Where a statement names the filter [recording], it is about a call
    none of whose warnings is turned into an error; under any other
    filter the call goes as [Filter_facts.run_under_filter] says. *)

Module Parser_claims.

Import Text Re Parser Tokens Filters.
Import Text_facts Re_facts Run Loop_facts Record_facts Parser_facts
  Timestamp_facts Result_facts Quiet_facts Filter_facts.




(** C3, as stated, fails: a line with a blank timestamp region and a
    token named [timestamp] yields a record although its prefix does
    not match the pattern and it has no other field. *)
Lemma blank_prefix_with_timestamp_token :
  let text := "                    timestamp=foo" in
  let rec : gmap string value := {["timestamp" := VStr "foo"]} in
  returned (parse_log_line recording default_options (PyStr text)) = Some (Some rec)
  /\ TIMESTAMP_RE_match (timestamp_region text) = false
  /\ forall k, is_Some (rec !! k) -> k = "timestamp".
Proof.
  split; [vm_compute; reflexivity|]. split; [vm_compute; reflexivity|].
  intros k [v Hv]. by apply lookup_singleton_Some in Hv as [<- _].
Qed.

(** C3, amended.  When [parse_log_line] returns a record, the 19-character
    prefix matched the timestamp pattern, or the record has a field other
    than [timestamp], or ([collect_duplicates] on) a token named
    [timestamp] filled the timestamp entry; a record with a [None]
    timestamp and no other field is never returned. *)
Theorem record_has_timestamp_or_field (opts : options) (line : pyobj)
    (rec : gmap string value) :
  returned (parse_log_line recording opts line) = Some (Some rec) ->
  (exists text, line_text line = Some text /\
     (TIMESTAMP_RE_match (timestamp_region text) = true
      \/ (exists k, k <> "timestamp" /\ is_Some (rec !! k))
      \/ (collect_duplicates opts = true
          /\ "timestamp" ∈ (line_tokens opts text).*1)))
  /\ ~ (rec !! "timestamp" = Some VNone
        /\ forall k, is_Some (rec !! k) -> k = "timestamp").
Proof.
  rewrite parse_log_line_returned. intros [= H].
  destruct (line_text line) as [text|] eqn:Ht; [|by unfold parse_result in H; rewrite Ht in H].
  destruct (timestamp_stage (allow_blank_timestamp opts) text) as [ts|] eqn:Hs;
    [|by rewrite (parse_result_rejected _ _ _ Ht Hs) in H].
  rewrite (parse_result_accepted _ _ _ _ Ht Hs) in H.
  apply keep_record_inv in H as [-> Hkeep]. split.
  - exists text. split; [done|].
    destruct Hkeep as [Hkv|(v & Hv & Hne)].
    + right; left. apply has_kv_true in Hkv as (k & Hk & Hts & _). eauto.
    + apply timestamp_stage_inv in Hs as [[_ Hm]|[-> _]]; [by left|].
      right; right.
      rewrite (store_all_timestamp _ _ _ VNone) in Hv by apply lookup_singleton_eq.
      destruct (collect_duplicates opts); [|congruence]. split; [done|].
      destruct (last (values_of "timestamp" (line_tokens opts text))) as [v'|] eqn:El;
        [|congruence].
      by apply (values_of_key _ v'), last_elem.
  - intros [Hnone Honly]. destruct Hkeep as [Hkv|(v & Hv & Hne)].
    + apply has_kv_true in Hkv as (k & Hk & Hts & _). by apply Hts, Honly.
    + congruence.
Qed.

Lemma record_has_timestamp_or_field_witness :
  let line := PyStr "2024-11-25 08:30:12 event=LOGIN" in
  let rec : gmap string value :=
    <["event" := VStr "LOGIN"]> {["timestamp" := VStr "2024-11-25 08:30:12"]} in
  returned (parse_log_line recording default_options line) = Some (Some rec)
  /\ ~ (rec !! "timestamp" = Some VNone
        /\ forall k, is_Some (rec !! k) -> k = "timestamp").
Proof.
  split; [vm_compute; reflexivity|].
  apply (record_has_timestamp_or_field default_options
           (PyStr "2024-11-25 08:30:12 event=LOGIN")).
  vm_compute; reflexivity.
Defined.

(** C4, as stated, fails: with [collect_duplicates] on (the default) a
    token named [timestamp] replaces the prefix in the record. *)
Lemma timestamp_token_replaces_prefix :
  let text := "2024-11-25 08:30:12 timestamp=foo" in
  TIMESTAMP_RE_match (take 19 text) = true
  /\ take 19 text = "2024-11-25 08:30:12"
  /\ returned (parse_log_line recording default_options (PyStr text))
     = Some (Some {["timestamp" := VStr "foo"]}).
Proof. repeat split; vm_compute; reflexivity. Qed.

(** C4, amended.  For every line whose first 19 characters match the
    timestamp pattern, [parse_log_line] returns a record, and its
    timestamp is exactly those 19 characters provided [collect_duplicates]
    is off or no token of the line is named [timestamp]. *)
Theorem timestamp_is_prefix (opts : options) (line : pyobj) (text : string) :
  line_text line = Some text ->
  TIMESTAMP_RE_match (take 19 text) = true ->
  collect_duplicates opts = false \/ "timestamp" ∉ (line_tokens opts text).*1 ->
  exists rec, returned (parse_log_line recording opts line) = Some (Some rec)
    /\ rec !! "timestamp" = Some (VStr (take 19 text)).
Proof.
  intros Ht Hm Hcond.
  pose proof (timestamp_stage_prefix (allow_blank_timestamp opts) text Hm) as Hs.
  rewrite parse_log_line_returned, (parse_result_accepted _ _ _ _ Ht Hs).
  set (fields := store_all _ _ _).
  assert (fields !! "timestamp" = Some (VStr (take 19 text))) as Hslot.
  { unfold fields.
    rewrite (store_all_timestamp _ _ _ (VStr (take 19 text))) by apply lookup_singleton_eq.
    destruct Hcond as [->|Habs]; [done|].
    rewrite (values_of_absent _ _ Habs). by destruct (collect_duplicates opts). }
  exists fields. split; [|done].
  by rewrite (keep_record_timestamp _ _ Hslot).
Qed.

Lemma timestamp_is_prefix_witness :
  let text := "2024-11-25 08:30:12 event=LOGIN status=FAIL" in
  exists rec, returned (parse_log_line recording default_options (PyStr text)) = Some (Some rec)
    /\ rec !! "timestamp" = Some (VStr (take 19 text)).
Proof.
  apply (timestamp_is_prefix default_options
           (PyStr "2024-11-25 08:30:12 event=LOGIN status=FAIL")).
  - reflexivity.
  - vm_compute; reflexivity.
  - right. vm_compute. intros H. repeat (apply elem_of_cons in H as [H|H]; [discriminate H|]).
    by apply elem_of_nil in H.
Defined.

(** C5, as stated, fails for the key [timestamp]: two tokens
    [timestamp=a timestamp=b] leave the text [b] with [collect_duplicates]
    on (not the list of both) and the prefix with it off (not [a]). *)
Lemma timestamp_tokens_not_collected :
  let text := "2024-11-25 08:30:12 timestamp=a timestamp=b" in
  let first_wins :=
    {| normalize_keys := true; collect_duplicates := false;
       warn_on_junk := true; allow_blank_timestamp := true |} in
  values_of "timestamp" (line_tokens default_options text) = ["a"; "b"]
  /\ returned (parse_log_line recording default_options (PyStr text))
     = Some (Some {["timestamp" := VStr "b"]})
  /\ returned (parse_log_line recording first_wins (PyStr text))
     = Some (Some {["timestamp" := VStr "2024-11-25 08:30:12"]}).
Proof. repeat split; vm_compute; reflexivity. Qed.

(** C5, amended.  For every key [k] other than [timestamp] and values
    [v1], [v2]: on a line whose tokens named [k] (after normalization)
    are exactly [k=v1] and later [k=v2], [parse_log_line] returns a record
    whose [k] entry is the list [[v1, v2]] with [collect_duplicates] on and
    the text [v1] with it off. *)
Theorem duplicate_field (opts : options) (line : pyobj) (text k v1 v2 : string) :
  line_text line = Some text ->
  k <> "timestamp" ->
  values_of k (line_tokens opts text) = [v1; v2] ->
  exists rec, returned (parse_log_line recording opts line) = Some (Some rec)
    /\ rec !! k = Some (if collect_duplicates opts
                        then VList [VStr v1; VStr v2] else VStr v1).
Proof.
  intros Ht Hk Hvs.
  destruct (line_tokens_accepted opts text) as [ts Hs].
  { intros E. by rewrite E in Hvs. }
  rewrite parse_log_line_returned, (parse_result_accepted _ _ _ _ Ht Hs).
  set (fields := store_all _ _ _).
  assert (fields !! k = Some (if collect_duplicates opts
                              then VList [VStr v1; VStr v2] else VStr v1)) as Hslot.
  { unfold fields. rewrite store_all_entry, Hvs; [|done|by rewrite lookup_singleton_ne].
    by destruct (collect_duplicates opts). }
  exists fields. split; [|done].
  rewrite (keep_record_field fields k); [done|by rewrite Hslot|done|].
  assert (k ∈ (line_tokens opts text).*1) as Hin.
  { apply (values_of_key k v1). rewrite Hvs. left. }
  unfold line_tokens in Hin. rewrite Hs in Hin. by eapply token_stream_keys.
Qed.

Lemma duplicate_field_witness :
  let text := "2024-11-25 08:35:10 user=admin ip=10.0.0.1 User=bob" in
  exists rec, returned (parse_log_line recording default_options (PyStr text)) = Some (Some rec)
    /\ rec !! "user" = Some (VList [VStr "admin"; VStr "bob"]).
Proof.
  apply (duplicate_field default_options
           (PyStr "2024-11-25 08:35:10 user=admin ip=10.0.0.1 User=bob")
           "2024-11-25 08:35:10 user=admin ip=10.0.0.1 User=bob" "user" "admin" "bob").
  - reflexivity.
  - discriminate.
  - vm_compute; reflexivity.
Defined.

(** C8, at the failing input.  After the malformed token [a] comes a TAB
    and the well-formed token [b=1]; the loop takes the malformed token
    to run up to the next SPACE, so [b=1] is dropped with it and only
    [c=2] reaches the record. *)
Theorem malformed_token_swallows_tab_separated_token :
  let tab := String "009" "" in
  let rest := "a" +:+ tab +:+ "b=1 c=2" in
  let line := PyStr ("2024-11-25 08:30:12 " +:+ rest) in
  TOKEN_RE_match rest 0 = None
  /\ isspace "009" = true
  /\ TOKEN_RE_match rest 2 = Some {| m_key := "b"; m_value := Bare "1"; m_end := 5 |}
  /\ parse_log_line recording default_options line
     = (Return (Some (<["c" := VStr "2"]> {["timestamp" := VStr "2024-11-25 08:30:12"]})),
        ["Skipping malformed token: 'a" +:+ tab +:+ "b=1'"]).
Proof. repeat split; vm_compute; reflexivity. Qed.

(** C10.  On a line that passes the timestamp stage with entry [ts] and
    has a token named [timestamp] (after normalization), the last such
    token having the value [v]:
    - with [collect_duplicates] on, a record is returned and its
      [timestamp] entry is the text [v], which took the place of the
      prefix or of [None]; the record has no further entry for it: its
      keys are [timestamp] and the keys of the tokens;
    - with [collect_duplicates] off, the [timestamp] entry of a returned
      record is still [ts];
    - the tokens named [timestamp] do not count as fields: the line is
      rejected exactly when [collect_duplicates] is off, [ts] is [None]
      and every token is named [timestamp]. *)
Theorem timestamp_token_shares_slot (opts : options) (line : pyobj)
    (text : string) (ts : value) (v : string) :
  line_text line = Some text ->
  timestamp_stage (allow_blank_timestamp opts) text = Some ts ->
  last (values_of "timestamp" (line_tokens opts text)) = Some v ->
  (collect_duplicates opts = true ->
   exists rec, returned (parse_log_line recording opts line) = Some (Some rec)
     /\ rec !! "timestamp" = Some (VStr v)
     /\ forall k, is_Some (rec !! k)
                  <-> k = "timestamp" \/ k ∈ (line_tokens opts text).*1)
  /\ (collect_duplicates opts = false ->
      forall rec, returned (parse_log_line recording opts line) = Some (Some rec) ->
                  rec !! "timestamp" = Some ts)
  /\ (returned (parse_log_line recording opts line) = Some None
      <-> collect_duplicates opts = false /\ ts = VNone
          /\ forall k, k ∈ (line_tokens opts text).*1 -> k = "timestamp").
Proof.
  intros Ht Hs Hlast.
  rewrite parse_log_line_returned, (parse_result_accepted _ _ _ _ Ht Hs).
  pose proof (has_kv_tokens opts text ts Hs) as Hkv.
  set (fields := store_all _ _ _) in *.
  assert (fields !! "timestamp"
          = if collect_duplicates opts then Some (VStr v) else Some ts) as Hslot.
  { unfold fields.
    rewrite (store_all_timestamp _ _ _ ts) by apply lookup_singleton_eq.
    by rewrite Hlast. }
  split; [|split].
  - intros Hc. rewrite Hc in Hslot. exists fields.
    rewrite (keep_record_timestamp _ _ Hslot) by done.
    split; [done|]. split; [done|].
    intros k. unfold fields. rewrite store_all_dom.
    destruct (decide (k = "timestamp")) as [->|Hne].
    + rewrite lookup_singleton_eq. split; eauto.
    + rewrite lookup_singleton_ne by done. split.
      * intros [[? ?]|?]; [done|by right].
      * intros [?|?]; [done|by right].
  - intros Hc rec [= Hrec]. apply keep_record_inv in Hrec as [-> _].
    by rewrite Hslot, Hc.
  - split.
    + intros [= Hnone]. apply keep_record_none in Hnone as [Hno Hts];
        [|by rewrite Hslot; destruct (collect_duplicates opts)].
      rewrite Hslot in Hts. destruct (collect_duplicates opts); [done|].
      split; [done|]. split; [congruence|].
      intros k Hk. destruct (decide (k = "timestamp")) as [|Hne]; [done|].
      assert (has_kv fields = true) as Hyes by (apply Hkv; eauto).
      congruence.
    + intros (Hc & -> & Honly). f_equal.
      apply keep_record_none; [by rewrite Hslot; destruct (collect_duplicates opts)|].
      rewrite Hslot, Hc. split; [|done].
      destruct (has_kv fields) eqn:E; [|done].
      destruct Hkv as [Hkv _]. destruct (Hkv eq_refl) as (k & Hk & Hne).
      by apply Honly in Hk.
Qed.

Lemma timestamp_token_shares_slot_witness :
  let text := "                    a=1 TimeStamp=x timestamp=y" in
  exists rec, returned (parse_log_line recording default_options (PyStr text)) = Some (Some rec)
    /\ rec !! "timestamp" = Some (VStr "y").
Proof.
  destruct (timestamp_token_shares_slot default_options
              (PyStr "                    a=1 TimeStamp=x timestamp=y")
              "                    a=1 TimeStamp=x timestamp=y" VNone "y")
    as [Hcollect _].
  - reflexivity.
  - vm_compute; reflexivity.
  - vm_compute; reflexivity.
  - destruct (Hcollect eq_refl) as (rec & Hrec & Hts & _). by exists rec.
Defined.

End Parser_claims.

(** * The counting pass: the statements C2, C6, C7 and C9 *)

Module Counter_claims.

Import Text Re Parser Tokens Counter Counting.
Import Text_facts Re_facts Run Loop_facts Record_facts Parser_facts
  Timestamp_facts Result_facts Quiet_facts Counter_facts.

(** C2.  Let a line parse to the record [parsed].  Every value the record
    holds under [status], [user] and [ip] is a text.  If no status value
    upper-cases to [FAIL], the line leaves [counted] and both frequency
    maps as they were.  Otherwise [counted] grows by one and each
    non-empty value under [user] adds one to its own user count, each
    non-empty value under [ip] one to its own address count: the count
    of [u] grows by the number of times [u] occurs among the values, and
    an empty value adds nothing. *)
Theorem failed_line_effect (errors : warnings_filter) (pre : list pyobj)
    (line : pyobj) (parsed : gmap string value) :
  returned (parse_log_line errors quiet_options line) = Some (Some parsed) ->
  exists c c',
    returned (count_lines errors pre) = Some c
    /\ returned (count_lines errors (pre ++ [line])) = Some c'
    /\ (forall k, k <> "timestamp" ->
          _as_list (get parsed k) = VStr <$> field_values parsed k)
    /\ if existsb (fun s => bool_decide (upper s = "FAIL")) (field_values parsed "status")
       then counted c' = counted c + 1
            /\ (forall u, count_of (users_ctr c') u
                  = count_of (users_ctr c) u
                    + if decide (u = "") then 0
                      else occurrences u (field_values parsed "user"))
            /\ (forall a, count_of (ips_ctr c') a
                  = count_of (ips_ctr c) a
                    + if decide (a = "") then 0
                      else occurrences a (field_values parsed "ip"))
       else counted c' = counted c
            /\ users_ctr c' = users_ctr c /\ ips_ctr c' = ips_ctr c.
Proof.
  rewrite (parse_log_line_quiet errors quiet_options line) by done. intros [= Hp].
  exists (count_lines_result pre), (count_lines_result (pre ++ [line])).
  rewrite !count_lines_returned. split; [done|]. split; [done|]. split.
  { intros k Hk. by apply (parsed_values_texts quiet_options line). }
  rewrite count_lines_result_snoc. unfold count_line_result. rewrite Hp.
  unfold is_fail. destruct (existsb _ (field_values parsed "status")); simpl.
  - split; [done|]. split; intros u; apply count_of_tally_texts.
  - done.
Qed.

Lemma failed_line_effect_witness :
  let line := PyStr "2024-11-25 08:30:12 status=fail user=admin user=root ip=10.0.0.1" in
  exists c', returned (count_lines recording ([] ++ [line])) = Some c'
    /\ counted c' = 1 /\ count_of (users_ctr c') "root" = 1.
Proof.
  destruct (failed_line_effect recording []
              (PyStr "2024-11-25 08:30:12 status=fail user=admin user=root ip=10.0.0.1")
              (<["ip" := VStr "10.0.0.1"]>
                 (<["user" := VList [VStr "admin"; VStr "root"]]>
                    (<["status" := VStr "fail"]>
                       {["timestamp" := VStr "2024-11-25 08:30:12"]}))))
    as (c & c' & Hc & Hc' & _ & Heffect).
  - vm_compute; reflexivity.
  - exists c'. split; [exact Hc'|].
    injection Hc as <-.
    destruct Heffect as (Hcounted & Husers & _).
    split; [exact Hcounted|]. exact (Husers "root").
Defined.

(** C6.  For every sequence of [n] lines [count_failed_logins] returns a
    snapshot, and in it [seen + skipped = n] and [counted <= seen]. *)
Theorem seen_skipped_counted (errors : warnings_filter) (lines : list pyobj)
    (warn_on_missing_fields : bool) :
  exists snap,
    returned (count_failed_logins errors lines warn_on_missing_fields) = Some snap
    /\ snap_seen snap + snap_skipped snap = length lines
    /\ snap_counted snap <= snap_seen snap.
Proof.
  exists (summary (count_lines_result lines)).
  split; [apply count_failed_logins_returned|]. apply seen_skipped_total.
Qed.

(** C7.  In the snapshot [count_failed_logins] returns, [total_fail] is
    the sum of the counts of the user map when that map is not empty, and
    the sum of the counts of the address map when it is. *)
Theorem total_fail_rule (errors : warnings_filter) (lines : list pyobj)
    (warn_on_missing_fields : bool) :
  exists snap,
    returned (count_failed_logins errors lines warn_on_missing_fields) = Some snap
    /\ (users snap <> ∅ -> total_fail snap = sum_list (map_to_list (users snap)).*2)
    /\ (users snap = ∅ -> total_fail snap = sum_list (map_to_list (ips snap)).*2).
Proof.
  exists (summary (count_lines_result lines)).
  split; [apply count_failed_logins_returned|].
  unfold summary. simpl. rewrite <- !sum_values_list.
  split; intros H; case_bool_decide; done.
Qed.

(** C9, as stated, fails: an empty line adds one to [skipped]. *)
Lemma blank_line_is_skipped :
  returned (count_failed_logins recording [] false)
  = Some {| users := ∅; ips := ∅; total_fail := 0;
            snap_seen := 0; snap_counted := 0; snap_skipped := 0 |}
  /\ returned (count_failed_logins recording [PyStr ""] false)
     = Some {| users := ∅; ips := ∅; total_fail := 0;
               snap_seen := 0; snap_counted := 0; snap_skipped := 1 |}.
Proof. split; vm_compute; reflexivity. Qed.

(** C9, amended.  For every line that is empty or all whitespace,
    [parse_log_line] returns [None] under every combination of options,
    and feeding the line to [count_failed_logins] anywhere in the input
    leaves the two frequency maps, [total_fail], [seen] and [counted] as
    they are without it, and makes [skipped] greater by one. *)
Theorem blank_line_only_skipped (errors : warnings_filter) (opts : options)
    (pre post : list pyobj) (text : string) (warn_on_missing_fields : bool) :
  strip text = "" ->
  returned (parse_log_line errors opts (PyStr text)) = Some None
  /\ exists snap,
       returned (count_failed_logins errors (pre ++ post) warn_on_missing_fields) = Some snap
       /\ returned (count_failed_logins errors (pre ++ PyStr text :: post) warn_on_missing_fields)
          = Some {| users := users snap; ips := ips snap;
                    total_fail := total_fail snap; snap_seen := snap_seen snap;
                    snap_counted := snap_counted snap;
                    snap_skipped := snap_skipped snap + 1 |}.
Proof.
  intros Hb. split.
  { by rewrite blank_line_rejected. }
  exists (summary (count_lines_result (pre ++ post))).
  rewrite !count_failed_logins_returned. split; [done|]. f_equal.
  unfold count_lines_result. rewrite !foldl_app. cbn [foldl].
  unfold count_line_result at 2. rewrite (blank_parse_result _ _ Hb).
  by rewrite foldl_skip_one.
Qed.

Lemma blank_line_only_skipped_witness :
  returned (parse_log_line recording default_options (PyStr "   ")) = Some None
  /\ exists snap,
       returned (count_failed_logins recording
                   ([PyStr "2024-11-25 08:30:12 status=FAIL user=admin"] ++ []) false)
       = Some snap
       /\ returned (count_failed_logins recording
                      ([PyStr "2024-11-25 08:30:12 status=FAIL user=admin"]
                       ++ PyStr "   " :: []) false)
          = Some {| users := users snap; ips := ips snap;
                    total_fail := total_fail snap; snap_seen := snap_seen snap;
                    snap_counted := snap_counted snap;
                    snap_skipped := snap_skipped snap + 1 |}.
Proof.
  apply (blank_line_only_skipped recording default_options
           [PyStr "2024-11-25 08:30:12 status=FAIL user=admin"] [] "   " false).
  vm_compute; reflexivity.
Defined.

End Counter_claims.

(** * Further properties *)

(** ** The shape of lines and records *)

Module Shape_facts.

Import Text Re Parser Tokens Lines.
Import Text_facts Re_facts Run Loop_facts Record_facts Parser_facts
  Timestamp_facts Result_facts Quiet_facts.

Lemma rstrip_of_only p s : all_chars p s = true -> rstrip_of p s = "".
Proof.
  induction s as [|c t IH]; simpl; [done|].
  intros [Hc Ht]%andb_true_iff. by rewrite IH, Hc.
Qed.

Lemma rstrip_of_app_only p s t :
  all_chars p t = true -> rstrip_of p (s +:+ t) = rstrip_of p s.
Proof.
  intros Ht. induction s as [|c s IH]; simpl.
  - by apply rstrip_of_only.
  - change (String c s +:+ t) with (String c (s +:+ t)). simpl. by rewrite IH.
Qed.

Lemma all_chars_newlines n :
  all_chars (fun c => Ascii.eqb c "010") (newlines n) = true.
Proof. induction n; simpl; auto. Qed.

Lemma rstrip_newline_newlines text n :
  rstrip_newline (text +:+ newlines n) = rstrip_newline text.
Proof. apply rstrip_of_app_only, all_chars_newlines. Qed.

(** What [parse_result] reads of a text is what [rstrip] leaves of it. *)
Lemma parse_result_rstrip opts text text' :
  rstrip_newline text = rstrip_newline text' ->
  parse_result opts (PyStr text) = parse_result opts (PyStr text').
Proof.
  intros H. unfold parse_result. simpl.
  unfold timestamp_stage, token_region, timestamp_region. by rewrite H.
Qed.

Lemma all_space_rstrip_newline s :
  all_space (rstrip_newline s) = all_space s.
Proof.
  unfold rstrip_newline. induction s as [|c t IH]; simpl; [done|].
  destruct (rstrip_of _ t) as [|a r] eqn:E.
  - simpl in IH. rewrite <- IH.
    destruct (Ascii.eqb c "010") eqn:Hc.
    + apply Ascii.eqb_eq in Hc as ->. done.
    + simpl. by rewrite andb_true_r.
  - change (all_space (String c (String a r))) with (isspace c && all_space (String a r)).
    by rewrite IH.
Qed.

Lemma strip_rstrip_newline_iff s : strip (rstrip_newline s) = "" <-> strip s = "".
Proof. by rewrite !strip_empty, all_space_rstrip_newline. Qed.

Lemma lower_char_idem c : lower_char (lower_char c) = lower_char c.
Proof. destruct c as [[] [] [] [] [] [] [] []]; reflexivity. Qed.

Lemma lower_idem s : lower (lower s) = lower s.
Proof. induction s as [|c t IH]; simpl; [done|]. by rewrite lower_char_idem, IH. Qed.

(** The keys of the tokens read with [normalize_keys] are lower case. *)
Lemma token_stream_from_lower budget rest pos k :
  k ∈ (token_stream_from budget true rest pos).*1 -> lower k = k.
Proof.
  revert pos; induction budget as [|b IH]; intros pos; cbn [token_stream_from].
  - intros H. by apply elem_of_nil in H.
  - destruct (pos <? len rest); [|intros H; by apply elem_of_nil in H].
    destruct (TOKEN_RE_match rest pos) as [m|] eqn:Em.
    + rewrite fmap_cons, elem_of_cons. intros [->|H]; [|by eapply IH].
      apply lower_idem.
    + destruct (find_from " " rest pos); [apply IH|].
      intros H. by apply elem_of_nil in H.
Qed.

Lemma lower_char_key_start c : is_key_start c = true -> is_key_start (lower_char c) = true.
Proof. destruct c as [[] [] [] [] [] [] [] []]; done. Qed.

Lemma lower_char_key_char c : is_key_char c = true -> is_key_char (lower_char c) = true.
Proof. destruct c as [[] [] [] [] [] [] [] []]; done. Qed.

Lemma lower_identifier k : is_identifier k = true -> is_identifier (lower k) = true.
Proof.
  destruct k as [|c t]; [done|]. simpl.
  intros [Hc Ht]%andb_true_iff. rewrite lower_char_key_start by done. simpl.
  induction t as [|d t IH]; simpl in *; [done|].
  apply andb_true_iff in Ht as [Hd Ht]. by rewrite lower_char_key_char, IH.
Qed.

Lemma span_all_chars p s run r : span p s = (run, r) -> all_chars p run = true.
Proof.
  revert run r; induction s as [|c t IH]; intros run r; simpl.
  - by intros [= <- <-].
  - destruct (p c) eqn:Hc.
    + destruct (span p t) as [run' r'] eqn:E. intros [= <- <-].
      simpl. rewrite Hc. by eapply IH.
    + by intros [= <- <-].
Qed.

(** The key of a match is an identifier. *)
Lemma match_token_identifier s k v r :
  match_token s = Some (k, v, r) -> is_identifier k = true.
Proof.
  unfold match_token. destruct s as [|c t]; [done|].
  destruct (is_key_start c) eqn:Hc; [|done].
  destruct (span is_key_char t) as [tail r0] eqn:Es.
  destruct r0 as [|e r1]; [done|].
  destruct (Ascii.eqb e "="); [|done].
  destruct (match_value r1) as [[v1 r2]|] eqn:Ev; simpl; [|done].
  intros [= <- <- <-]. simpl. rewrite Hc. by eapply span_all_chars.
Qed.

Lemma token_stream_from_identifiers budget normalize rest pos k :
  k ∈ (token_stream_from budget normalize rest pos).*1 -> is_identifier k = true.
Proof.
  revert pos; induction budget as [|b IH]; intros pos; cbn [token_stream_from].
  - intros H. by apply elem_of_nil in H.
  - destruct (pos <? len rest); [|intros H; by apply elem_of_nil in H].
    destruct (TOKEN_RE_match rest pos) as [m|] eqn:Em.
    + rewrite fmap_cons, elem_of_cons. intros [->|H]; [|by eapply IH].
      unfold TOKEN_RE_match in Em.
      destruct (match_token (drop pos rest)) as [[[k' v'] r']|] eqn:E; [|done].
      simpl in Em. injection Em as <-. unfold token_key. simpl.
      apply match_token_identifier in E. destruct normalize; [|done].
      by apply lower_identifier.
    + destruct (find_from " " rest pos); [apply IH|].
      intros H. by apply elem_of_nil in H.
Qed.

(** The record a line parses to, split into its parts. *)
Lemma returned_record opts line rec :
  returned (parse_log_line recording opts line) = Some (Some rec) ->
  exists text ts,
    line_text line = Some text
    /\ timestamp_stage (allow_blank_timestamp opts) text = Some ts
    /\ rec = store_all (collect_duplicates opts) {["timestamp" := ts]}
               (line_tokens opts text).
Proof.
  rewrite parse_log_line_returned. intros [= H].
  destruct (line_text line) as [text|] eqn:Ht;
    [|by unfold parse_result in H; rewrite Ht in H].
  destruct (timestamp_stage (allow_blank_timestamp opts) text) as [ts|] eqn:Hs;
    [|by rewrite (parse_result_rejected _ _ _ Ht Hs) in H].
  rewrite (parse_result_accepted _ _ _ _ Ht Hs) in H.
  apply keep_record_inv in H as [-> _]. eauto.
Qed.

Lemma timestamp_stage_none allow_blank text :
  timestamp_stage allow_blank text = Some VNone ->
  allow_blank = true /\ strip (timestamp_region text) = "".
Proof.
  unfold timestamp_stage. case_bool_decide; [done|].
  destruct (_ <? 19); [done|].
  destruct (TIMESTAMP_RE_match (timestamp_region text)); [done|].
  destruct allow_blank; [|done]. simpl. case_bool_decide; done.
Qed.

End Shape_facts.

(** ** What a match covers *)

Module Match_facts.

Import Text Re Parser Tokens Lines.
Import Text_facts Re_facts Run Loop_facts Record_facts Parser_facts
  Timestamp_facts Result_facts Shape_facts.

Lemma app_cons c s t : String c s +:+ t = String c (s +:+ t).
Proof. done. Qed.

Lemma app_assoc' (a b c : string) : (a +:+ b) +:+ c = a +:+ (b +:+ c).
Proof. induction a as [|x a IH]; [done|]. by rewrite !app_cons, IH. Qed.

Lemma len_app a b : len (a +:+ b) = len a + len b.
Proof. induction a as [|x a IH]; [done|]. rewrite app_cons. simpl. by rewrite IH. Qed.

Lemma drop_drop n m s : drop n (drop m s) = drop (m + n) s.
Proof.
  revert s; induction m as [|m IH]; intros s; [done|].
  destruct s as [|c t]; simpl; [by destruct n|]. apply IH.
Qed.

Lemma drop_app_len a b : drop (len a) (a +:+ b) = b.
Proof. induction a as [|x a IH]; [done|]. by rewrite app_cons. Qed.

Lemma take_app_len a b : take (len a) (a +:+ b) = a.
Proof. induction a as [|x a IH]; [done|]. rewrite app_cons. simpl. by rewrite IH. Qed.

(** What is left of a text after a prefix is where the prefix ends. *)
Lemma drop_suffix a r : drop (len (a +:+ r) - len r) (a +:+ r) = r.
Proof.
  rewrite len_app. replace (len a + len r - len r) with (len a) by lia.
  apply drop_app_len.
Qed.

Lemma span_app p s run r : span p s = (run, r) -> s = run +:+ r.
Proof.
  revert run r; induction s as [|c t IH]; intros run r; simpl.
  - by intros [= <- <-].
  - destruct (p c).
    + destruct (span p t) as [run' r'] eqn:E. intros [= <- <-].
      rewrite app_cons. f_equal. by apply IH.
    + by intros [= <- <-].
Qed.

(** The text captured between quotes is the text that stood there. *)
Lemma quoted_tail_app q s v r : quoted_tail q s = Some (v, r) -> s = v +:+ String q r.
Proof.
  remember (len s) as n eqn:Hn. revert s v r Hn.
  induction n as [n IH] using lt_wf_ind. intros [|c t] v r Hn; [done|].
  assert (forall s' v' r', len s' < n ->
            quoted_tail q s' = Some (v', r') -> s' = v' +:+ String q r') as IH'.
  { intros s' v' r' Hlt. by apply (IH (len s')). }
  clear IH.
  assert (forall v' r', quoted_tail q t = Some (v', r') -> t = v' +:+ String q r') as IHt.
  { intros v' r'. apply IH'. subst n. simpl. lia. }
  change (quoted_tail q (String c t)) with
    (match
       (if Ascii.eqb c "\" then
          match t with
          | String d t' =>
              if Ascii.eqb d "010" then None
              else '(v, r) ← quoted_tail q t'; Some (String c (String d v), r)
          | EmptyString => None
          end
        else None)
     with
     | Some res => Some res
     | None =>
         match (if Ascii.eqb c q then None
                else '(v, r) ← quoted_tail q t; Some (String c v, r)) with
         | Some res => Some res
         | None => if Ascii.eqb c q then Some (EmptyString, t) else None
         end
     end).
  destruct (quoted_tail q t) as [[v1 r1]|] eqn:E1;
    [specialize (IHt v1 r1 eq_refl)|clear IHt];
    destruct (Ascii.eqb c "\"), (Ascii.eqb c q) eqn:Hq; destruct t as [|d t'];
      try discriminate; cbn -[quoted_tail];
      try (destruct (Ascii.eqb d "010"));
      try (destruct (quoted_tail q t') as [[v2 r2]|] eqn:E2; cbn -[quoted_tail];
           [apply IH' in E2; [|subst n; simpl; lia]|]);
      try discriminate; intros [= <- <-];
      try apply Ascii.eqb_eq in Hq; subst; rewrite ?app_cons;
      first [reflexivity | congruence].
Qed.

Lemma match_value_app s g r : match_value s = Some (g, r) -> s = raw_value g +:+ r.
Proof.
  unfold match_value. destruct s as [|c t]; [done|].
  assert (forall b run r',
            span (fun c => negb (isspace c)) (String c t) = (String b run, r') ->
            Some (Bare (String b run), r') = Some (g, r) ->
            String c t = raw_value g +:+ r) as Hbare.
  { intros b run r' Es [= <- <-]. by apply span_app in Es. }
  destruct (Ascii.eqb c "034") eqn:Hdq.
  - apply Ascii.eqb_eq in Hdq as ->.
    destruct (quoted_tail "034" t) as [[v1 r1]|] eqn:E1.
    { intros [= <- <-]. apply quoted_tail_app in E1. simpl.
      by rewrite E1, app_cons, app_assoc'. }
    assert (Ascii.eqb "034" "'" = false) as -> by done.
    destruct (span _ (String "034" t)) as [[|b run] r'] eqn:Es; [done|].
    by apply Hbare.
  - destruct (Ascii.eqb c "'") eqn:Hsq.
    + apply Ascii.eqb_eq in Hsq as ->.
      destruct (quoted_tail "'" t) as [[v2 r2]|] eqn:E2.
      { intros [= <- <-]. apply quoted_tail_app in E2. simpl.
        by rewrite E2, app_cons, app_assoc'. }
      destruct (span _ (String "'" t)) as [[|b run] r'] eqn:Es; [done|].
      by apply Hbare.
    + destruct (span _ (String c t)) as [[|b run] r'] eqn:Es; [done|].
      by apply Hbare.
Qed.

(** A match of the token pattern covers the key, the equals sign and the
    value as written, and nothing else. *)
Lemma match_token_app s k g r :
  match_token s = Some (k, g, r) -> s = write_token (k, g) +:+ r.
Proof.
  unfold match_token. destruct s as [|c t]; [done|].
  destruct (is_key_start c); [|done].
  destruct (span is_key_char t) as [tail r0] eqn:Es.
  destruct r0 as [|e r1]; [done|].
  destruct (Ascii.eqb e "=") eqn:He; [|done].
  apply Ascii.eqb_eq in He as ->.
  destruct (match_value r1) as [[v1 r2]|] eqn:Ev; simpl; [|done].
  intros [= <- <- <-]. apply span_app in Es. apply match_value_app in Ev.
  unfold write_token. simpl. rewrite Es, Ev.
  by rewrite !app_cons, !app_assoc', !app_cons.
Qed.

Lemma match_value_bare s v r :
  match_value s = Some (Bare v, r) ->
  v <> "" /\ all_chars (fun c => negb (isspace c)) v = true.
Proof.
  unfold match_value.
  destruct (match s with
            | EmptyString => None
            | String c t => if Ascii.eqb c "034" then quoted_tail "034" t else None
            end) as [[? ?]|]; [done|].
  destruct (match s with
            | EmptyString => None
            | String c t => if Ascii.eqb c "'" then quoted_tail "'" t else None
            end) as [[? ?]|]; [done|].
  destruct (span _ s) as [[|b run] r'] eqn:Es; [done|].
  intros [= <- <-]. split; [done|]. by eapply span_all_chars.
Qed.

(** A bare value is a non-empty run without whitespace. *)
Lemma match_token_bare s k v r :
  match_token s = Some (k, Bare v, r) ->
  v <> "" /\ all_chars (fun c => negb (isspace c)) v = true.
Proof.
  unfold match_token. destruct s as [|c t]; [done|].
  destruct (is_key_start c); [|done].
  destruct (span is_key_char t) as [tail r0].
  destruct r0 as [|e r1]; [done|].
  destruct (Ascii.eqb e "="); [|done].
  destruct (match_value r1) as [[g' r2]|] eqn:Ev; simpl; [|done].
  intros [= _ -> _]. by eapply match_value_bare.
Qed.

Lemma leading_space_lstrip t : drop (leading_space t) t = lstrip t.
Proof.
  induction t as [|c t IH]; simpl; [done|].
  destruct (isspace c); simpl; done.
Qed.

(** After the whitespace run comes what [lstrip] leaves. *)
Lemma drop_skip_ws rest pos : drop (skip_ws rest pos) rest = lstrip (drop pos rest).
Proof. unfold skip_ws. by rewrite <- drop_drop, leading_space_lstrip. Qed.

Lemma find_from_drop c s pos :
  find_from c s pos = (fun i => pos + i) <$> find_from c (drop pos s) 0.
Proof.
  revert s; induction pos as [|pos IH]; intros s.
  - simpl. destruct (find_from c s 0); done.
  - destruct s as [|d t]; [done|]. simpl. rewrite IH.
    by destruct (find_from c (drop pos t) 0).
Qed.

Lemma token_stream_from_shift b b' normalize rest pos :
  len rest - pos < b -> len rest - pos < b' ->
  token_stream_from b normalize rest pos
  = token_stream_from b' normalize (drop pos rest) 0.
Proof.
  revert rest pos b'; induction b as [|b IH]; intros rest pos [|b'] Hb Hb'; try lia.
  cbn [token_stream_from]. rewrite len_drop.
  destruct (pos <? len rest) eqn:Hlt.
  2: { apply Nat.ltb_ge in Hlt.
       by replace (0 <? len rest - pos) with false by (symmetry; apply Nat.ltb_ge; lia). }
  apply Nat.ltb_lt in Hlt.
  replace (0 <? len rest - pos) with true by (symmetry; apply Nat.ltb_lt; lia).
  unfold TOKEN_RE_match. cbn [drop].
  destruct (match_token (drop pos rest)) as [[[k g] r]|] eqn:Em; simpl.
  - pose proof (match_token_inv _ _ _ _ Em) as [_ Hr]. rewrite len_drop in Hr.
    f_equal.
    pose proof (skip_ws_ge rest (len rest - len r)) as H1.
    pose proof (skip_ws_ge (drop pos rest) (len (drop pos rest) - len r)) as H2.
    rewrite len_drop in *.
    rewrite (IH rest _ b) by lia.
    rewrite (token_stream_from_budget b' b) by (rewrite len_drop; lia).
    rewrite (IH (drop pos rest) _ b) by (rewrite len_drop; lia).
    rewrite !drop_skip_ws, drop_drop.
    by replace (pos + (len rest - pos - len r)) with (len rest - len r) by lia.
  - rewrite find_from_drop.
    destruct (find_from " " (drop pos rest) 0) as [i|] eqn:Ef; simpl; [|done].
    pose proof (find_from_bounds _ _ _ _ Ef) as Hi. rewrite len_drop in Hi.
    pose proof (skip_ws_ge rest (pos + i + 1)) as H1.
    pose proof (skip_ws_ge (drop pos rest) (i + 1)) as H2.
    rewrite (IH rest _ b) by lia.
    rewrite (token_stream_from_budget b' b) by (rewrite len_drop; lia).
    rewrite (IH (drop pos rest) _ b) by (rewrite len_drop; lia).
    rewrite !drop_skip_ws, drop_drop.
    by replace (pos + (i + 1)) with (pos + i + 1) by lia.
Qed.

(** The tokens read from a position on are the tokens of the text that
    starts there. *)
Lemma token_stream_from_drop budget normalize rest pos :
  len rest - pos < budget ->
  token_stream_from budget normalize rest pos = token_stream normalize (drop pos rest).
Proof.
  intros Hb. unfold token_stream. apply token_stream_from_shift; [done|].
  rewrite len_drop. lia.
Qed.

Lemma token_stream_empty normalize : token_stream normalize "" = [].
Proof. done. Qed.

(** The tokens of a text that starts with a token: that token, then the
    tokens after the whitespace that follows it. *)
Lemma token_stream_match normalize s k g r :
  match_token s = Some (k, g, r) ->
  token_stream normalize s
  = (read_key normalize k,
     token_value {| m_key := k; m_value := g; m_end := len s - len r |})
    :: token_stream normalize (lstrip r).
Proof.
  intros Em. pose proof (match_token_inv _ _ _ _ Em) as [_ Hr].
  unfold token_stream at 1. cbn [token_stream_from].
  replace (0 <? len s) with true by (symmetry; apply Nat.ltb_lt; lia).
  unfold TOKEN_RE_match. cbn [drop]. rewrite Em. simpl. f_equal.
  pose proof (skip_ws_ge s (len s - len r)).
  rewrite token_stream_from_drop by lia. rewrite drop_skip_ws.
  f_equal. f_equal. rewrite (match_token_app _ _ _ _ Em) at 1 2.
  apply drop_suffix.
Qed.

(** The tokens of a text that starts with something else: those after
    the next space, if there is one. *)
Lemma token_stream_skip normalize s :
  s <> "" -> match_token s = None ->
  token_stream normalize s
  = match find_from " " s 0 with
    | Some i => token_stream normalize (lstrip (drop (i + 1) s))
    | None => []
    end.
Proof.
  intros Hs Em. unfold token_stream at 1. cbn [token_stream_from].
  assert (0 < len s) by (destruct s; [done|simpl; lia]).
  replace (0 <? len s) with true by (symmetry; apply Nat.ltb_lt; lia).
  unfold TOKEN_RE_match. cbn [drop]. rewrite Em. simpl.
  destruct (find_from " " s 0) as [i|] eqn:Ef; [|done].
  pose proof (find_from_bounds _ _ _ _ Ef).
  pose proof (skip_ws_ge s (i + 1)).
  rewrite token_stream_from_drop by lia. by rewrite drop_skip_ws.
Qed.

End Match_facts.

(** ** Reading back a written line *)

Module Written_facts.

Import Text Re Parser Tokens Lines.
Import Text_facts Re_facts Run Loop_facts Record_facts Parser_facts
  Timestamp_facts Result_facts Shape_facts Match_facts.

Lemma span_all p a b :
  all_chars p a = true ->
  match b with EmptyString => true | String c _ => negb (p c) end = true ->
  span p (a +:+ b) = (a, b).
Proof.
  intros Ha Hb. induction a as [|c a IH].
  - destruct b as [|d b]; [done|]. simpl in *.
    apply negb_true_iff in Hb. change ("" +:+ String d b) with (String d b).
    simpl. by rewrite Hb.
  - simpl in Ha. apply andb_true_iff in Ha as [Hc Ha].
    rewrite app_cons. simpl. by rewrite Hc, IH.
Qed.

Lemma replace2_absent a b new s :
  all_chars (fun c => negb (Ascii.eqb c a)) s = true -> replace2 a b new s = s.
Proof.
  remember (len s) as n eqn:Hn. revert s Hn.
  induction n as [n IH] using lt_wf_ind. intros [|c1 [|c2 t]] Hn; [done..|].
  intros [H1 H2]%andb_true_iff. apply negb_true_iff in H1.
  change (replace2 a b new (String c1 (String c2 t))) with
    (if Ascii.eqb c1 a && Ascii.eqb c2 b
     then String new (replace2 a b new t)
     else String c1 (replace2 a b new (String c2 t))).
  rewrite H1. cbn [andb]. f_equal. apply (IH (len (String c2 t))); [|done|done].
  subst n. simpl. lia.
Qed.

Lemma quoted_ok_no_backslash q v :
  quoted_ok q v = true -> all_chars (fun c => negb (Ascii.eqb c "\")) v = true.
Proof.
  unfold quoted_ok. induction v as [|c v IH]; simpl; [done|].
  intros [[_ Hc]%andb_true_iff Hv]%andb_true_iff. by rewrite Hc, IH.
Qed.

(** Without a backslash there is nothing to decode. *)
Lemma unescape_plain q v : quoted_ok q v = true -> unescape q v = v.
Proof.
  intros H%quoted_ok_no_backslash. unfold unescape.
  by rewrite !(replace2_absent _ _ _ _ H).
Qed.

Lemma quoted_tail_written q v r :
  Ascii.eqb q "\" = false -> quoted_ok q v = true ->
  quoted_tail q (v +:+ String q r) = Some (v, r).
Proof.
  intros Hq. unfold quoted_ok. induction v as [|c v IH].
  - intros _. change ("" +:+ String q r) with (String q r).
    simpl. rewrite Hq. by rewrite Ascii.eqb_refl.
  - cbn [all_chars]. intros [[Hc1 Hc2]%andb_true_iff Hv]%andb_true_iff.
    apply negb_true_iff in Hc1, Hc2. specialize (IH Hv).
    rewrite app_cons.
    change (quoted_tail q (String c (v +:+ String q r))) with
      (match
         (if Ascii.eqb c "\" then
            match v +:+ String q r with
            | String d t' =>
                if Ascii.eqb d "010" then None
                else '(v, r) ← quoted_tail q t'; Some (String c (String d v), r)
            | EmptyString => None
            end
          else None)
       with
       | Some res => Some res
       | None =>
           match (if Ascii.eqb c q then None
                  else '(v, r) ← quoted_tail q (v +:+ String q r); Some (String c v, r)) with
           | Some res => Some res
           | None => if Ascii.eqb c q then Some (EmptyString, v +:+ String q r) else None
           end
       end).
    by rewrite Hc1, Hc2, IH.
Qed.

Lemma bare_ok_inv v :
  bare_ok v = true ->
  exists c t, v = String c t /\ Ascii.eqb c "034" = false /\ Ascii.eqb c "'" = false
              /\ all_chars (fun c => negb (isspace c)) v = true.
Proof.
  destruct v as [|c t]; [done|]. unfold bare_ok.
  intros [[H1 H2]%andb_true_iff H3]%andb_true_iff.
  apply negb_true_iff in H1, H2. eauto 10.
Qed.

(** A value written as [written_ok] asks is matched as it was written,
    when whitespace or the end of the text follows it. *)
Lemma match_value_written g r :
  match g with
  | Bare v => bare_ok v
  | Dq v => quoted_ok "034" v
  | Sq v => quoted_ok "'" v
  end = true ->
  ends_token r = true ->
  match_value (raw_value g +:+ r) = Some (g, r).
Proof.
  intros Hok Hr. destruct g as [v|v|v]; unfold match_value.
  - simpl raw_value. rewrite app_cons, app_assoc', app_cons.
    rewrite Ascii.eqb_refl.
    change ("" +:+ r) with r. by rewrite quoted_tail_written.
  - simpl raw_value. rewrite app_cons, app_assoc', app_cons.
    assert (Ascii.eqb "'" "034" = false) as -> by done.
    rewrite Ascii.eqb_refl.
    change ("" +:+ r) with r. by rewrite quoted_tail_written.
  - simpl raw_value. apply bare_ok_inv in Hok as (c & t & -> & H1 & H2 & Hall).
    rewrite (span_all _ (String c t) r Hall).
    + by rewrite app_cons, H1, H2.
    + destruct r as [|d r']; [done|]. simpl in *. by rewrite Hr.
Qed.

Lemma equals_not_key_char : is_key_char "=" = false.
Proof. done. Qed.

Lemma match_token_written k g r :
  written_ok (k, g) = true -> ends_token r = true ->
  match_token (write_token (k, g) +:+ r) = Some (k, g, r).
Proof.
  unfold written_ok, write_token. simpl fst. simpl snd.
  intros [Hk Hg]%andb_true_iff Hr.
  destruct k as [|c tail]; [done|]. simpl in Hk.
  apply andb_true_iff in Hk as [Hc Htail].
  rewrite app_assoc', !app_cons.
  unfold match_token. rewrite Hc.
  rewrite (span_all is_key_char tail (String "=" (raw_value g +:+ r)) Htail) by done.
  rewrite Ascii.eqb_refl. by rewrite match_value_written.
Qed.

Lemma key_start_not_space c : is_key_start c = true -> isspace c = false.
Proof. destruct c as [[] [] [] [] [] [] [] []]; done. Qed.

Lemma ends_token_write_tokens tokens : ends_token (write_tokens tokens) = true.
Proof. by destruct tokens. Qed.

Lemma token_value_written k g e :
  written_ok (k, g) = true ->
  token_value {| m_key := k; m_value := g; m_end := e |} = content g.
Proof.
  unfold written_ok, token_value. simpl.
  intros [_ Hg]%andb_true_iff. destruct g; simpl; by rewrite ?unescape_plain.
Qed.

(** The tokens read off written tokens are the tokens written. *)
Lemma token_stream_written normalize tokens :
  forallb written_ok tokens = true ->
  token_stream normalize (lstrip (write_tokens tokens))
  = (fun t => (read_key normalize t.1, content t.2)) <$> tokens.
Proof.
  induction tokens as [|[k g] tokens IH]; [done|].
  simpl forallb. intros [Hok Hall]%andb_true_iff.
  cbn [write_tokens]. cbn [lstrip]. assert (isspace " " = true) as -> by done.
  assert (lstrip (write_token (k, g) +:+ write_tokens tokens)
          = write_token (k, g) +:+ write_tokens tokens) as ->.
  { pose proof Hok as [Hk _]%andb_true_iff. simpl in Hk.
    destruct k as [|c tail]; [done|]. simpl in Hk.
    apply andb_true_iff in Hk as [Hc _]. unfold write_token. simpl fst.
    rewrite app_cons. simpl. by rewrite key_start_not_space. }
  rewrite (token_stream_match _ _ k g (write_tokens tokens))
    by (apply match_token_written; [done|apply ends_token_write_tokens]).
  rewrite fmap_cons. simpl. rewrite token_value_written by done.
  f_equal. by apply IH.
Qed.

Lemma rstrip_of_last_kept p s : last_kept p s = true -> rstrip_of p s = s.
Proof.
  induction s as [|c t IH]; [done|]. destruct t as [|d t'].
  - simpl. intros H%negb_true_iff. by rewrite H.
  - intros H. change (last_kept p (String c (String d t'))) with
      (last_kept p (String d t')) in H.
    specialize (IH H).
    change (rstrip_of p (String c (String d t'))) with
      (match rstrip_of p (String d t') with
       | EmptyString => if p c then EmptyString else String c EmptyString
       | t' => String c t'
       end).
    by rewrite IH.
Qed.

Lemma last_kept_app p a b : b <> "" -> last_kept p (a +:+ b) = last_kept p b.
Proof.
  intros Hb. induction a as [|c a IH]; [done|].
  rewrite app_cons. destruct (a +:+ b) as [|d t] eqn:E.
  - destruct a; [|done]. by destruct b.
  - done.
Qed.

Lemma last_kept_all p q s :
  s <> "" -> all_chars q s = true -> (forall c, q c = true -> p c = false) ->
  last_kept p s = true.
Proof.
  intros Hs Hall Hq. induction s as [|c t IH]; [done|].
  simpl in Hall. apply andb_true_iff in Hall as [Hc Ht].
  destruct t as [|d t'].
  - simpl. by rewrite (Hq c Hc).
  - apply IH; done.
Qed.

Lemma last_kept_index p s i c :
  index s i = Some c -> len s = S i -> p c = false -> last_kept p s = true.
Proof.
  revert i; induction s as [|a t IH]; intros [|i]; simpl; try done.
  - intros [= <-] Hl Hp. destruct t; [|done]. by rewrite Hp.
  - intros Hi Hl Hp. destruct t as [|d t']; [done|].
    apply (IH i); [done|lia|done].
Qed.

Lemma not_space_not_newline c : negb (isspace c) = true -> Ascii.eqb c "010" = false.
Proof. destruct c as [[] [] [] [] [] [] [] []]; done. Qed.

Lemma last_kept_raw_value g :
  match g with
  | Bare v => bare_ok v
  | Dq v => quoted_ok "034" v
  | Sq v => quoted_ok "'" v
  end = true ->
  raw_value g <> "" /\ last_kept (fun c => Ascii.eqb c "010") (raw_value g) = true.
Proof.
  destruct g as [v|v|v]; cbn [raw_value]; intros Hok.
  - split; [done|]. rewrite <- app_cons, last_kept_app; done.
  - split; [done|]. rewrite <- app_cons, last_kept_app; done.
  - apply bare_ok_inv in Hok as (c & t & -> & _ & _ & Hall). split; [done|].
    eapply last_kept_all; [done|exact Hall|]. apply not_space_not_newline.
Qed.

Lemma app_empty_r (s : string) : s +:+ "" = s.
Proof. induction s as [|c s IH]; [done|]. by rewrite app_cons, IH. Qed.

Lemma app_not_empty (a b : string) : a <> "" -> a +:+ b <> "".
Proof. by destruct a. Qed.

Lemma last_kept_write_tokens tokens :
  tokens <> [] -> forallb written_ok tokens = true ->
  write_tokens tokens <> ""
  /\ last_kept (fun c => Ascii.eqb c "010") (write_tokens tokens) = true.
Proof.
  induction tokens as [|[k g] tokens IH]; [done|]. intros _.
  simpl forallb. intros [Hok Hall]%andb_true_iff. split; [done|].
  cbn [write_tokens]. unfold write_token. simpl fst. simpl snd.
  pose proof Hok as [_ Hg]%andb_true_iff. simpl in Hg.
  apply last_kept_raw_value in Hg as [Hne Hlast].
  replace (String " " ((k +:+ String "=" (raw_value g)) +:+ write_tokens tokens))
    with (String " " (k +:+ "=") +:+ (raw_value g +:+ write_tokens tokens)).
  2: { by rewrite !app_cons, !app_assoc', !app_cons. }
  rewrite last_kept_app by by apply app_not_empty.
  destruct tokens as [|t tokens].
  - simpl write_tokens. by rewrite app_empty_r.
  - destruct IH as [Hne' Hlast']; [done|done|]. by rewrite last_kept_app.
Qed.

(** A written line, taken apart as lines 43-53 do. *)
Lemma write_line_parts allow_blank timestamp tokens :
  TIMESTAMP_RE_match timestamp = true -> len timestamp = 19 ->
  forallb written_ok tokens = true ->
  timestamp_stage allow_blank (write_line timestamp tokens) = Some (VStr timestamp)
  /\ token_region (write_line timestamp tokens) = lstrip (write_tokens tokens).
Proof.
  intros Hm Hlen Hok. unfold write_line.
  assert (take 19 (timestamp +:+ write_tokens tokens) = timestamp) as Htake.
  { rewrite <- Hlen. apply take_app_len. }
  split.
  - rewrite <- Htake at 2. apply timestamp_stage_prefix. by rewrite Htake.
  - unfold token_region.
    assert (rstrip_newline (timestamp +:+ write_tokens tokens)
            = timestamp +:+ write_tokens tokens) as ->.
    { apply rstrip_of_last_kept. destruct tokens as [|t tokens'] eqn:E.
      - simpl write_tokens.
        rewrite app_empty_r.
        unfold TIMESTAMP_RE_match in Hm.
        destruct (match_classes TIMESTAMP_classes timestamp) as [r|] eqn:Ec; [|done].
        destruct (match_classes_index _ _ _ 18 isdigit Ec eq_refl) as (c & Hc & Hd).
        eapply last_kept_index; [exact Hc|done|by apply digit_not_newline].
      - rewrite <- E in *.
        destruct (last_kept_write_tokens tokens) as [Hne Hlast]; [by subst|done|].
        by rewrite last_kept_app. }
    rewrite <- Hlen. by rewrite drop_app_len.
Qed.

Lemma written_line_tokens opts timestamp tokens :
  TIMESTAMP_RE_match timestamp = true -> len timestamp = 19 ->
  forallb written_ok tokens = true ->
  line_tokens opts (write_line timestamp tokens)
  = (fun t => (read_key (normalize_keys opts) t.1, content t.2)) <$> tokens.
Proof.
  intros Hm Hlen Hok.
  destruct (write_line_parts (allow_blank_timestamp opts) timestamp tokens)
    as [Hs Hr]; [done..|].
  unfold line_tokens. rewrite Hs, Hr. by apply token_stream_written.
Qed.

Lemma keys_texts (pairs : list (string * string)) :
  ((fun kv => (kv.1, VStr kv.2)) <$> pairs).*1 = pairs.*1.
Proof. induction pairs as [|kv pairs IH]; [done|]. simpl. by f_equal. Qed.

(** Storing tokens with distinct keys, none of them in the record yet,
    adds one text per key. *)
Lemma store_all_distinct collect fields (pairs : list (string * string)) :
  NoDup pairs.*1 ->
  (forall k, k ∈ pairs.*1 -> fields !! k = None /\ k <> "timestamp") ->
  store_all collect fields pairs
  = list_to_map ((fun kv => (kv.1, VStr kv.2)) <$> pairs) ∪ fields.
Proof.
  revert fields; induction pairs as [|[k v] pairs IH]; intros fields Hnd Hfresh.
  - simpl. by rewrite (left_id_L ∅ (∪)).
  - rewrite fmap_cons in Hnd. apply NoDup_cons in Hnd as [Hk Hnd]. simpl in Hk.
    destruct (Hfresh k) as [Hnone Hts]; [rewrite fmap_cons; left|].
    assert (merge collect fields k v = <[k := VStr v]> fields) as Hm.
    { unfold merge. rewrite Hnone.
      rewrite (bool_decide_eq_false_2 (k = "timestamp")) by done.
      by destruct collect. }
    unfold store_all in *. cbn [foldl fst snd]. rewrite Hm, IH; [|done|].
    + rewrite fmap_cons. cbn [list_to_map foldr fst snd uncurry].
      change (foldr (λ '(k, v), <[k:=v]>) ∅ ?l) with (list_to_map l : gmap string value).
      rewrite <- insert_union_r, insert_union_l; [done|].
      apply not_elem_of_list_to_map_1. by rewrite keys_texts.
    + intros k' Hk'.
      destruct (Hfresh k') as [Hnone' Hts']; [rewrite fmap_cons; by right|].
      split; [|done]. rewrite lookup_insert_ne; [done|]. by intros ->.
Qed.

End Written_facts.

(** ** The counting pass as a whole *)

Module Tally_facts.

Import Text Re Parser Tokens Counter Counting Lines Tallies.
Import Text_facts Re_facts Run Loop_facts Record_facts Parser_facts
  Timestamp_facts Result_facts Counter_facts Quiet_facts.

Lemma record_of_result line : record_of line = parse_result quiet_options line.
Proof. unfold record_of. by rewrite parse_log_line_returned. Qed.

Lemma record_of_under errors line :
  returned (parse_log_line errors quiet_options line) = Some (record_of line).
Proof. by rewrite record_of_result, parse_log_line_quiet. Qed.

(** ** The pass writes no warning *)

Lemma count_line_quiet errors c line :
  count_line errors c line = ret (count_line_result c line).
Proof.
  unfold count_line, count_line_result.
  rewrite (parse_log_line_quiet errors quiet_options line) by done. rewrite bind_ret.
  destruct (parse_result quiet_options line) as [parsed|] eqn:Hp; [|done].
  rewrite !(parsed_values_texts _ _ _ _ Hp) by done.
  rewrite uppers_texts, bind_ret. unfold is_fail. rewrite existsb_fmap.
  destruct (existsb _ (field_values parsed "status")); [|done].
  cbn [negb]. by rewrite !tally_texts_ret, !bind_ret.
Qed.

Lemma for_each_ret {St A} (body : St -> A -> M St) (f : St -> A -> St) xs st :
  (forall st x, body st x = ret (f st x)) ->
  for_each xs body st = ret (foldl f st xs).
Proof.
  intros Hbody. revert st; induction xs as [|x xs IH]; intros st; [done|].
  cbn [for_each foldl]. by rewrite Hbody, bind_ret.
Qed.

Lemma count_failed_logins_quiet errors lines w :
  count_failed_logins errors lines w = ret (summary (count_lines_result lines)).
Proof.
  unfold count_failed_logins, count_lines.
  by rewrite (for_each_ret _ count_line_result _ _ (count_line_quiet errors)), bind_ret.
Qed.

(** ** The three numbers *)

Lemma numbers_from c lines :
  let c' := foldl count_line_result c lines in
  seen c' = seen c + length (filter (fun l => parses l = true) lines)
  /\ skipped c' = skipped c + length (filter (fun l => parses l = false) lines)
  /\ counted c' = counted c + length (filter (fun l => fails l = true) lines).
Proof.
  revert c; induction lines as [|line lines IH]; intros c.
  { simpl. lia. }
  cbn [foldl]. cbn zeta in *. destruct (IH (count_line_result c line)) as (-> & -> & ->).
  rewrite !filter_cons. unfold count_line_result, parses, fails.
  rewrite record_of_result.
  destruct (parse_result quiet_options line) as [parsed|]; [destruct (is_fail parsed)|];
    simpl; lia.
Qed.

(** ** The two frequency maps *)

Lemma tally_texts_app m ss ts :
  tally_texts m (ss ++ ts) = tally_texts (tally_texts m ss) ts.
Proof. unfold tally_texts. by rewrite foldl_app. Qed.

Lemma tally_texts_filter m ss :
  tally_texts m (filter (fun s => s <> "") ss) = tally_texts m ss.
Proof.
  unfold tally_texts. revert m; induction ss as [|s ss IH]; intros m; [done|].
  rewrite filter_cons. cbn [foldl]. destruct (decide (s <> "")) as [Hs|Hs].
  - cbn [foldl]. rewrite bool_decide_eq_true_2 by done. apply IH.
  - rewrite bool_decide_eq_false_2 by done. apply IH.
Qed.

Lemma maps_from c lines :
  users_ctr (foldl count_line_result c lines)
  = tally_texts (users_ctr c) (all_tallied "user" lines)
  /\ ips_ctr (foldl count_line_result c lines)
     = tally_texts (ips_ctr c) (all_tallied "ip" lines).
Proof.
  revert c; induction lines as [|line lines IH]; intros c; [done|].
  cbn [foldl]. destruct (IH (count_line_result c line)) as [-> ->].
  unfold all_tallied. cbn [fmap list_fmap mjoin list_join].
  rewrite !tally_texts_app. unfold tallied, count_line_result.
  rewrite record_of_result.
  destruct (parse_result quiet_options line) as [parsed|]; [destruct (is_fail parsed)|];
    cbn [users_ctr ips_ctr skip_one]; by rewrite ?tally_texts_filter.
Qed.

Lemma tallied_nonempty k line : Forall (fun s => s <> "") (tallied k line).
Proof.
  unfold tallied. destruct (record_of line) as [parsed|]; [|done].
  destruct (is_fail parsed); [|done].
  apply Forall_forall. intros s Hs. by apply list_elem_of_filter in Hs as [??].
Qed.

Lemma all_tallied_nonempty k lines : Forall (fun s => s <> "") (all_tallied k lines).
Proof.
  unfold all_tallied. induction lines as [|line lines IH]; [done|].
  cbn [fmap list_fmap mjoin list_join]. apply Forall_app. split; [|done].
  apply tallied_nonempty.
Qed.

Lemma all_tallied_app k l1 l2 :
  all_tallied k (l1 ++ l2) = all_tallied k l1 ++ all_tallied k l2.
Proof. unfold all_tallied. by rewrite fmap_app, join_app. Qed.

Lemma occurrences_app u ss ts :
  occurrences u (ss ++ ts) = occurrences u ss + occurrences u ts.
Proof. unfold occurrences. by rewrite filter_app, length_app. Qed.

Lemma lookup_tally_texts m ss u :
  Forall (fun s => s <> "") ss ->
  tally_texts m ss !! u
  = if decide (occurrences u ss = 0) then m !! u
    else Some (count_of m u + occurrences u ss).
Proof.
  unfold tally_texts, occurrences.
  intros Hss. revert m; induction Hss as [|s ss Hs Hss IH]; intros m; [done|].
  cbn [foldl]. rewrite bool_decide_eq_true_2 by done. rewrite IH, filter_cons.
  rewrite count_of_increment. unfold increment.
  destruct (decide (s = u)) as [->|Hne]; cbn [length].
  - rewrite lookup_insert_eq.
    destruct (decide (length (filter (fun s => s = u) ss) = 0)) as [->|_].
    + by rewrite decide_False by lia.
    + rewrite decide_False by lia. f_equal. lia.
  - rewrite lookup_insert_ne by done.
    destruct (decide (length (filter (fun s => s = u) ss) = 0)); [done|].
    f_equal. lia.
Qed.

Lemma lookup_tally_texts_empty ss u :
  Forall (fun s => s <> "") ss -> tally_texts ∅ ss !! u = frequency ss u.
Proof.
  intros Hss. rewrite lookup_tally_texts by done. unfold frequency, count_of.
  rewrite lookup_empty. by destruct (decide _).
Qed.

Lemma occurrences_Permutation u ss ts : ss ≡ₚ ts -> occurrences u ss = occurrences u ts.
Proof. unfold occurrences. by intros ->. Qed.

Lemma tally_texts_Permutation ss ts :
  Forall (fun s => s <> "") ss -> ss ≡ₚ ts -> tally_texts ∅ ss = tally_texts ∅ ts.
Proof.
  intros Hss Hp. apply map_eq. intros u.
  rewrite !lookup_tally_texts_empty; [|by rewrite <- Hp|done].
  unfold frequency. by rewrite (occurrences_Permutation u _ _ Hp).
Qed.

Lemma all_tallied_Permutation k l1 l2 :
  l1 ≡ₚ l2 -> all_tallied k l1 ≡ₚ all_tallied k l2.
Proof. unfold all_tallied. by intros ->. Qed.

(** ** The sum of a frequency map *)

Lemma sum_values_insert k n (m : gmap string nat) :
  sum_values (<[k := n]> m) + count_of m k = sum_values m + n.
Proof.
  unfold sum_values, count_of.
  destruct (m !! k) as [old|] eqn:Hk; simpl.
  - rewrite <- (insert_delete_id m k old) at 2 by done.
    rewrite <- (insert_delete_eq m).
    rewrite !(map_fold_insert_L (fun _ n acc => n + acc));
      [lia|intros; lia|apply lookup_delete_eq|intros; lia|apply lookup_delete_eq].
  - rewrite (map_fold_insert_L (fun _ n acc => n + acc)); [lia|intros; lia|done].
Qed.

Lemma sum_values_increment k m : sum_values (increment k m) = sum_values m + 1.
Proof. unfold increment. pose proof (sum_values_insert k (count_of m k + 1) m). lia. Qed.

Lemma sum_values_tally_texts m ss :
  Forall (fun s => s <> "") ss ->
  sum_values (tally_texts m ss) = sum_values m + length ss.
Proof.
  unfold tally_texts. intros Hss.
  revert m; induction Hss as [|s ss Hs Hss IH]; intros m; [simpl; lia|].
  cbn [foldl length]. rewrite bool_decide_eq_true_2 by done.
  rewrite IH, sum_values_increment. lia.
Qed.

Lemma sum_values_empty : sum_values ∅ = 0.
Proof. unfold sum_values. apply map_fold_empty. Qed.

Lemma tally_texts_empty_iff ss :
  Forall (fun s => s <> "") ss -> tally_texts ∅ ss = ∅ <-> ss = [].
Proof.
  intros Hss. split; [|by intros ->].
  intros He. pose proof (sum_values_tally_texts ∅ ss Hss) as Hsum.
  rewrite He, sum_values_empty in Hsum. destruct ss; [done|simpl in Hsum; lia].
Qed.

Lemma total_fail_summary lines :
  total_fail (summary (count_lines_result lines))
  = if decide (all_tallied "user" lines = [])
    then length (all_tallied "ip" lines)
    else length (all_tallied "user" lines).
Proof.
  unfold summary, count_lines_result. cbn [total_fail].
  destruct (maps_from start lines) as [-> ->]. cbn [users_ctr ips_ctr start].
  pose proof (all_tallied_nonempty "user" lines) as Hu.
  pose proof (all_tallied_nonempty "ip" lines) as Hi.
  rewrite !sum_values_tally_texts, sum_values_empty by done.
  case_bool_decide as He; destruct (decide _) as [Hd|Hd]; try done.
  - exfalso. apply He. by apply tally_texts_empty_iff.
  - exfalso. by apply Hd, tally_texts_empty_iff.
Qed.

(** A line counted as a failure with one user value each. *)
Lemma length_all_tallied k lines :
  (forall line, line ∈ lines -> fails line = true -> length (tallied k line) = 1) ->
  length (all_tallied k lines) = length (filter (fun l => fails l = true) lines).
Proof.
  unfold all_tallied. induction lines as [|line lines IH]; intros Hone; [done|].
  cbn [fmap list_fmap mjoin list_join]. rewrite length_app, filter_cons.
  assert (IH' := IH (fun l Hl => Hone l (list_elem_of_further _ _ _ Hl))).
  destruct (decide (fails line = true)) as [Hf|Hf].
  - rewrite (Hone line) by (done || by left). cbn [length]. by f_equal.
  - transitivity (0 + length (filter (fun l => fails l = true) lines)); [|done].
    f_equal; [|done].
    unfold tallied, fails in *. destruct (record_of line) as [parsed|]; [|done].
    by destruct (is_fail parsed).
Qed.

Lemma summary_Permutation l1 l2 :
  l1 ≡ₚ l2 -> summary (count_lines_result l1) = summary (count_lines_result l2).
Proof.
  intros Hp.
  assert (count_lines_result l1 = count_lines_result l2) as ->; [|done].
  unfold count_lines_result.
  destruct (numbers_from start l1) as (Hs1 & Hk1 & Hc1).
  destruct (numbers_from start l2) as (Hs2 & Hk2 & Hc2).
  destruct (maps_from start l1) as [Hu1 Hi1].
  destruct (maps_from start l2) as [Hu2 Hi2].
  cbn zeta in *.
  destruct (foldl count_line_result start l1) as [u1 i1 s1 c1 k1].
  destruct (foldl count_line_result start l2) as [u2 i2 s2 c2 k2].
  cbn [users_ctr ips_ctr seen counted skipped start] in *. subst.
  f_equal.
  - apply tally_texts_Permutation;
      [apply all_tallied_nonempty|by apply all_tallied_Permutation].
  - apply tally_texts_Permutation;
      [apply all_tallied_nonempty|by apply all_tallied_Permutation].
  - by rewrite Hp.
  - by rewrite Hp.
  - by rewrite Hp.
Qed.

End Tally_facts.

(** ** The parser *)

(** As above, a statement that names the filter [recording] is about a
    call none of whose warnings is turned into an error; what a call
    does under any other filter is stated at the end of the module. *)

Module Parser_extras.

Import Text Re Parser Tokens Lines Filters.
Import Text_facts Re_facts Run Loop_facts Record_facts Parser_facts
  Timestamp_facts Result_facts Quiet_facts Filter_facts Shape_facts Match_facts
  Written_facts.

(** X1.  A line of fewer than 19 characters (its trailing newlines not
    counted) never gives a record, whatever the options.  A blank one, or
    any with [warn_on_junk] off, is rejected in silence.  Otherwise the
    warning of line 48 is emitted and the line rejected; but if the
    warnings filter makes that warning an error, it is raised, caught on
    line 101 and reported by line 103 as a parser error, and if the
    filter makes the report an error too, the report is raised to the
    caller. *)
Theorem short_line_rejected (errors : warnings_filter) (opts : options)
    (line : pyobj) (text : string) :
  line_text line = Some text ->
  len (rstrip_newline text) < 19 ->
  let msg := "Missing 19-char timestamp region; line unparseable." in
  parse_log_line errors opts line
  = if warn_on_junk opts && negb (bool_decide (strip text = "")) then
      if errors msg then
        if errors (report msg) then (Raise (UserWarning (report msg)), [])
        else (Return None, [report msg])
      else (Return None, [msg])
    else (Return None, []).
Proof.
  intros Ht Hlen msg. unfold parse_log_line, parse_log_line_within, parse_body.
  rewrite (coerce_text _ _ Ht), bind_ret.
  destruct (decide (strip text = "")) as [Hb|Hb].
  - rewrite (bool_decide_eq_true_2 (strip (rstrip_newline text) = ""))
      by by apply strip_rstrip_newline_iff.
    rewrite (bool_decide_eq_true_2 _ Hb). by rewrite andb_false_r.
  - rewrite (bool_decide_eq_false_2 (strip (rstrip_newline text) = ""))
      by by rewrite strip_rstrip_newline_iff.
    rewrite (bool_decide_eq_false_2 _ Hb), andb_true_r.
    apply Nat.ltb_lt in Hlen. rewrite Hlen.
    destruct (warn_on_junk opts); [|done]. cbn [when]. unfold warn. fold msg.
    destruct (errors msg); [|done]. cbn [raise bind try_except exn_str UserWarning].
    fold (report msg). by destruct (errors (report msg)).
Qed.

Lemma short_line_rejected_witness :
  parse_log_line
    (fun msg => bool_decide
                  (msg = "Missing 19-char timestamp region; line unparseable."))
    default_options (PyStr "2024-11-25 08:30")
  = (Return None,
     ["Parser error: Missing 19-char timestamp region; line unparseable."]).
Proof.
  refine (eq_trans
            (short_line_rejected
               (fun msg => bool_decide
                  (msg = "Missing 19-char timestamp region; line unparseable."))
               default_options (PyStr "2024-11-25 08:30") "2024-11-25 08:30" _ _) _).
  - reflexivity.
  - vm_compute; lia.
  - vm_compute; reflexivity.
Defined.

(** X2.  A line of at least 19 characters whose first 19 do not match
    the timestamp pattern is rejected as a whole, whatever tokens follow,
    unless those 19 are blank and [allow_blank_timestamp] is on. *)
Theorem invalid_timestamp_rejected (opts : options) (line : pyobj) (text : string) :
  line_text line = Some text ->
  19 <= len (rstrip_newline text) ->
  TIMESTAMP_RE_match (timestamp_region text) = false ->
  allow_blank_timestamp opts = false \/ strip (timestamp_region text) <> "" ->
  returned (parse_log_line recording opts line) = Some None.
Proof.
  intros Ht Hlen Hm Hblank. rewrite parse_log_line_returned. f_equal.
  apply (parse_result_rejected _ _ text); [done|].
  unfold timestamp_stage. case_bool_decide; [done|].
  destruct (_ <? 19); [done|]. rewrite Hm.
  destruct Hblank as [->|Hne]; [done|].
  by rewrite (bool_decide_eq_false_2 _ Hne), andb_false_r.
Qed.

Lemma invalid_timestamp_rejected_witness :
  returned (parse_log_line recording default_options
              (PyStr "2024-11-25 event=LOGIN status=FAIL user=admin ip=198.51.100.45"))
  = Some None.
Proof.
  apply (invalid_timestamp_rejected default_options
           (PyStr "2024-11-25 event=LOGIN status=FAIL user=admin ip=198.51.100.45")
           "2024-11-25 event=LOGIN status=FAIL user=admin ip=198.51.100.45").
  - reflexivity.
  - vm_compute; lia.
  - vm_compute; reflexivity.
  - right. vm_compute. discriminate.
Defined.

(** X3.  With [warn_on_junk] off the parser emits no warning, whatever
    the line, the other options and the warnings filter. *)
Theorem quiet_parser_is_silent (errors : warnings_filter) (opts : options)
    (line : pyobj) :
  warnings (parse_log_line errors (with_warn false opts) line) = [].
Proof. by rewrite parse_log_line_quiet. Qed.

(** X4.  Under a warnings filter that makes no warning an error,
    [warn_on_junk] has no say in what the parser returns. *)
Theorem warn_on_junk_keeps_result (errors : warnings_filter) (b : bool)
    (opts : options) (line : pyobj) :
  (forall msg, errors msg = false) ->
  returned (parse_log_line errors (with_warn b opts) line)
  = returned (parse_log_line errors opts line).
Proof.
  intros Hnone.
  rewrite !(call_unaffected errors) by by apply Forall_forall.
  by rewrite !parse_log_line_returned.
Qed.

Lemma warn_on_junk_keeps_result_witness :
  returned (parse_log_line recording (with_warn false default_options)
              (PyStr "2024-11-25 08:30:12 junk user=admin"))
  = returned (parse_log_line recording default_options
                (PyStr "2024-11-25 08:30:12 junk user=admin")).
Proof.
  apply (warn_on_junk_keeps_result recording false default_options
           (PyStr "2024-11-25 08:30:12 junk user=admin")).
  intros msg. reflexivity.
Defined.

(** X5.  Trailing newlines, however many, do not change what a line
    parses to. *)
Theorem trailing_newlines_ignored (opts : options) (text : string) (n : nat) :
  returned (parse_log_line recording opts (PyStr (text +:+ newlines n)))
  = returned (parse_log_line recording opts (PyStr text)).
Proof.
  rewrite !parse_log_line_returned. f_equal.
  apply parse_result_rstrip, rstrip_newline_newlines.
Qed.

(** X6.  The shape of every record the parser returns: it has a
    [timestamp] entry, which is [None] or a text; every key is an
    identifier; every other entry is a text or a list of at least two
    texts, and a list only with [collect_duplicates] on. *)
Theorem record_shape (opts : options) (line : pyobj) (rec : gmap string value) :
  returned (parse_log_line recording opts line) = Some (Some rec) ->
  (exists ts, rec !! "timestamp" = Some ts /\ (ts = VNone \/ exists s, ts = VStr s))
  /\ forall k v, rec !! k = Some v ->
       is_identifier k = true
       /\ (k <> "timestamp" ->
           (exists s, v = VStr s)
           \/ (exists ss, v = VList (VStr <$> ss) /\ 2 <= length ss
                          /\ collect_duplicates opts = true)).
Proof.
  intros (text & ts & Ht & Hs & ->)%returned_record. split.
  - rewrite (store_all_timestamp _ _ _ ts) by apply lookup_singleton_eq.
    destruct (collect_duplicates opts).
    + destruct (last _) as [v|]; [eauto|].
      eexists; split; [done|].
      apply timestamp_stage_inv in Hs as [[-> _]|[-> _]]; eauto.
    + eexists; split; [done|].
      apply timestamp_stage_inv in Hs as [[-> _]|[-> _]]; eauto.
  - intros k v Hv. split.
    + assert (is_Some (store_all (collect_duplicates opts) {["timestamp" := ts]}
                         (line_tokens opts text) !! k)) as Hk by eauto.
      apply store_all_dom in Hk as [Hk|Hk].
      * destruct (decide (k = "timestamp")) as [->|Hne]; [done|].
        rewrite lookup_singleton_ne in Hk by done. by destruct Hk.
      * unfold line_tokens in Hk. rewrite Hs in Hk.
        by eapply token_stream_from_identifiers.
    + intros Hne. rewrite store_all_entry in Hv;
        [|done|by rewrite lookup_singleton_ne].
      destruct (values_of k (line_tokens opts text)) as [|v1 [|v2 vs]];
        simpl in Hv; [done|injection Hv as <-; eauto|].
      destruct (collect_duplicates opts); injection Hv as <-; [|eauto].
      right. exists (v1 :: v2 :: vs). simpl. split; [done|]. split; [lia|done].
Qed.

Lemma record_shape_witness :
  let rec : gmap string value :=
    <["ip" := VList [VStr "a"; VStr "b"]]>
      {["timestamp" := VStr "2024-11-25 08:30:12"]} in
  exists ts, rec !! "timestamp" = Some ts /\ (ts = VNone \/ exists s, ts = VStr s).
Proof.
  apply (record_shape default_options (PyStr "2024-11-25 08:30:12 ip=a IP=b")).
  vm_compute; reflexivity.
Defined.

(** X7.  A key other than [timestamp] that occurs on a line any number
    of times: with [collect_duplicates] on its entry is the one value, or
    the list of all its values in the order of the line; with it off its
    entry is the first value. *)
Theorem repeated_field (opts : options) (line : pyobj) (text k v : string)
    (vs : list string) :
  line_text line = Some text ->
  k <> "timestamp" ->
  values_of k (line_tokens opts text) = v :: vs ->
  exists rec, returned (parse_log_line recording opts line) = Some (Some rec)
    /\ rec !! k = Some (if collect_duplicates opts && negb (bool_decide (vs = []))
                        then VList (VStr <$> v :: vs) else VStr v).
Proof.
  intros Ht Hk Hvs.
  destruct (line_tokens_accepted opts text) as [ts Hs].
  { intros E. by rewrite E in Hvs. }
  rewrite parse_log_line_returned, (parse_result_accepted _ _ _ _ Ht Hs).
  set (fields := store_all _ _ _).
  assert (fields !! k = Some (if collect_duplicates opts && negb (bool_decide (vs = []))
                              then VList (VStr <$> v :: vs) else VStr v)) as Hslot.
  { unfold fields. rewrite store_all_entry, Hvs; [|done|by rewrite lookup_singleton_ne].
    destruct vs as [|v2 vs]; simpl; [by rewrite andb_false_r|].
    by destruct (collect_duplicates opts). }
  exists fields. split; [|done].
  rewrite (keep_record_field fields k); [done|by rewrite Hslot|done|].
  assert (k ∈ (line_tokens opts text).*1) as Hin.
  { apply (values_of_key k v). rewrite Hvs. left. }
  unfold line_tokens in Hin. rewrite Hs in Hin. by eapply token_stream_keys.
Qed.

Lemma repeated_field_witness :
  let text := "2024-11-25 08:35:10 user=a ip=10.0.0.1 user=b USER=c" in
  exists rec, returned (parse_log_line recording default_options (PyStr text)) = Some (Some rec)
    /\ rec !! "user" = Some (VList [VStr "a"; VStr "b"; VStr "c"]).
Proof.
  apply (repeated_field default_options
           (PyStr "2024-11-25 08:35:10 user=a ip=10.0.0.1 user=b USER=c")
           "2024-11-25 08:35:10 user=a ip=10.0.0.1 user=b USER=c"
           "user" "a" ["b"; "c"]).
  - reflexivity.
  - discriminate.
  - vm_compute; reflexivity.
Defined.

(** X8.  With [normalize_keys] on every key of a returned record is in
    lower case. *)
Theorem normalized_keys_lower_case (opts : options) (line : pyobj)
    (rec : gmap string value) (k : string) :
  normalize_keys opts = true ->
  returned (parse_log_line recording opts line) = Some (Some rec) ->
  is_Some (rec !! k) ->
  lower k = k.
Proof.
  intros Hn (text & ts & Ht & Hs & ->)%returned_record Hk.
  apply store_all_dom in Hk as [Hk|Hk].
  - destruct (decide (k = "timestamp")) as [->|Hne]; [done|].
    rewrite lookup_singleton_ne in Hk by done. by destruct Hk.
  - unfold line_tokens in Hk. rewrite Hs, Hn in Hk.
    by eapply token_stream_from_lower.
Qed.

Lemma normalized_keys_lower_case_witness : lower "user" = "user".
Proof.
  apply (normalized_keys_lower_case default_options
           (PyStr "2024-11-25 08:35:10 User=a")
           (<["user" := VStr "a"]> {["timestamp" := VStr "2024-11-25 08:35:10"]})).
  - reflexivity.
  - vm_compute; reflexivity.
  - vm_compute. eauto.
Defined.

(** X9.  A returned record has the timestamp [None] only when
    [allow_blank_timestamp] is on, the first 19 characters are blank, and
    the record has a field besides. *)
Theorem none_timestamp_only_when_blank (opts : options) (line : pyobj)
    (rec : gmap string value) :
  returned (parse_log_line recording opts line) = Some (Some rec) ->
  rec !! "timestamp" = Some VNone ->
  allow_blank_timestamp opts = true
  /\ (exists text, line_text line = Some text /\ strip (timestamp_region text) = "")
  /\ exists k, k <> "timestamp" /\ is_Some (rec !! k).
Proof.
  intros Hret Hnone.
  pose proof Hret as (text & ts & Ht & Hs & Hrec)%returned_record.
  assert (ts = VNone) as ->.
  { subst rec.
    rewrite (store_all_timestamp _ _ _ ts) in Hnone by apply lookup_singleton_eq.
    destruct (collect_duplicates opts); [|congruence].
    destruct (last _); congruence. }
  apply timestamp_stage_none in Hs as [Ha Hb].
  split; [done|]. split; [eauto|].
  rewrite parse_log_line_returned in Hret. injection Hret as Hret.
  unfold parse_result in Hret. rewrite Ht in Hret. simpl in Hret.
  destruct (timestamp_stage _ text) as [ts'|]; [|done]. simpl in Hret.
  apply keep_record_inv in Hret as [<- [Hkv|(v & Hv & Hne)]].
  - apply has_kv_true in Hkv as (k & Hk & Hts & _). eauto.
  - congruence.
Qed.

Lemma none_timestamp_only_when_blank_witness :
  allow_blank_timestamp default_options = true
  /\ (exists text, line_text (PyStr "                    user=a") = Some text
                   /\ strip (timestamp_region text) = "")
  /\ exists k, k <> "timestamp"
       /\ is_Some ((<["user" := VStr "a"]> {["timestamp" := VNone]} : gmap string value) !! k).
Proof.
  apply (none_timestamp_only_when_blank default_options
           (PyStr "                    user=a")).
  - vm_compute; reflexivity.
  - vm_compute; reflexivity.
Defined.

(** X10.  A match of [TOKEN_RE] at [pos] spans exactly the text
    [key=value] as written (the value with its quotes): its key is an
    identifier, and a bare value is a non-empty run without whitespace. *)
Theorem match_covers_token (text : string) (pos : nat) (m : Match) :
  TOKEN_RE_match text pos = Some m ->
  slice pos (m_end m) text = write_token (m_key m, m_value m)
  /\ is_identifier (m_key m) = true
  /\ match m_value m with
     | Bare v => v <> "" /\ all_chars (fun c => negb (isspace c)) v = true
     | _ => True
     end.
Proof.
  unfold TOKEN_RE_match.
  destruct (match_token (drop pos text)) as [[[k g] r]|] eqn:Em; simpl; [|done].
  intros [= <-]. simpl.
  pose proof (match_token_inv _ _ _ _ Em) as [_ Hr].
  pose proof (match_token_app _ _ _ _ Em) as Happ.
  pose proof (match_token_identifier _ _ _ _ Em) as Hid.
  split; [|split; [done|]].
  - unfold slice. rewrite Happ.
    assert (len text - len r - pos = len (write_token (k, g))) as ->.
    { pose proof (f_equal len Happ) as Hl. rewrite len_drop, len_app in Hl. lia. }
    apply take_app_len.
  - destruct g as [v|v|v]; [done..|]. by eapply match_token_bare.
Qed.

Lemma match_covers_token_witness :
  slice 4 14 "bad user='a b' x" = write_token ("user", Sq "a b").
Proof.
  apply (match_covers_token "bad user='a b' x" 4
           {| m_key := "user"; m_value := Sq "a b"; m_end := 14 |}).
  vm_compute; reflexivity.
Defined.

(** X11.  A line written as a timestamp followed by tokens, each after
    one space, each an identifier, an equals sign and a value that is
    bare (non-empty, free of whitespace, not opening with a quote) or
    quoted (free of that quote and of backslashes): the tokens read off
    it are the tokens written, in order, with their keys normalized as
    the options say and their values without the quotes. *)
Theorem written_line_reads_back (opts : options) (timestamp : string)
    (tokens : list (string * value_group)) :
  TIMESTAMP_RE_match timestamp = true ->
  len timestamp = 19 ->
  forallb written_ok tokens = true ->
  line_tokens opts (write_line timestamp tokens)
  = (fun t => (read_key (normalize_keys opts) t.1, content t.2)) <$> tokens.
Proof. apply written_line_tokens. Qed.

Lemma written_line_reads_back_witness :
  line_tokens default_options
    (write_line "2024-11-25 08:30:12"
       [("event", Bare "LOGIN"); ("Msg", Dq "two words"); ("user", Sq "o k")])
  = [("event", "LOGIN"); ("msg", "two words"); ("user", "o k")].
Proof.
  apply (written_line_reads_back default_options "2024-11-25 08:30:12"
           [("event", Bare "LOGIN"); ("Msg", Dq "two words"); ("user", Sq "o k")]);
    vm_compute; reflexivity.
Defined.

(** X12.  Such a line, its keys distinct after normalization and none of
    them [timestamp], parses to the record of its timestamp and of one
    text per key. *)
Theorem written_line_record (opts : options) (timestamp : string)
    (tokens : list (string * value_group)) :
  TIMESTAMP_RE_match timestamp = true ->
  len timestamp = 19 ->
  forallb written_ok tokens = true ->
  NoDup (read_key (normalize_keys opts) <$> tokens.*1) ->
  "timestamp" ∉ read_key (normalize_keys opts) <$> tokens.*1 ->
  returned (parse_log_line recording opts (PyStr (write_line timestamp tokens)))
  = Some (Some (list_to_map
                  (("timestamp", VStr timestamp)
                   :: ((fun t => (read_key (normalize_keys opts) t.1, VStr (content t.2)))
                       <$> tokens)))).
Proof.
  intros Hm Hlen Hok Hnd Hts.
  destruct (write_line_parts (allow_blank_timestamp opts) timestamp tokens)
    as [Hs _]; [done..|].
  rewrite parse_log_line_returned.
  rewrite (parse_result_accepted opts _ (write_line timestamp tokens) (VStr timestamp))
    by done.
  rewrite written_line_tokens by done.
  set (pairs := (fun t => (read_key (normalize_keys opts) t.1, content t.2)) <$> tokens).
  assert (pairs.*1 = read_key (normalize_keys opts) <$> tokens.*1) as Hkeys.
  { unfold pairs. rewrite <- !list_fmap_compose. by apply list_fmap_ext. }
  rewrite store_all_distinct.
  2: { by rewrite Hkeys. }
  2: { intros k Hk. rewrite Hkeys in Hk.
       assert (k <> "timestamp") by (by intros ->).
       by rewrite lookup_singleton_ne. }
  assert ((fun kv : string * string => (kv.1, VStr kv.2)) <$> pairs
          = (fun t => (read_key (normalize_keys opts) t.1, VStr (content t.2))) <$> tokens)
    as ->.
  { unfold pairs. rewrite <- list_fmap_compose. by apply list_fmap_ext. }
  set (L := (fun t => _) <$> tokens).
  assert (L.*1 = read_key (normalize_keys opts) <$> tokens.*1) as HL.
  { unfold L. rewrite <- !list_fmap_compose. by apply list_fmap_ext. }
  assert ((list_to_map L : gmap string value) !! "timestamp" = None) as Hnone.
  { apply not_elem_of_list_to_map_1. by rewrite HL. }
  rewrite <- insert_union_singleton_r by done.
  rewrite (keep_record_timestamp _ (VStr timestamp)); [done| |done].
  apply lookup_insert_eq.
Qed.

Lemma written_line_record_witness :
  returned (parse_log_line recording default_options
              (PyStr (write_line "2024-11-25 08:30:12"
                        [("event", Bare "LOGIN"); ("Msg", Dq "two words")])))
  = Some (Some (list_to_map
                  (("timestamp", VStr "2024-11-25 08:30:12")
                   :: ((fun t : string * value_group =>
                          (read_key (normalize_keys default_options) t.1,
                           VStr (content t.2)))
                       <$> [("event", Bare "LOGIN"); ("Msg", Dq "two words")])))).
Proof.
  apply (written_line_record default_options "2024-11-25 08:30:12"
           [("event", Bare "LOGIN"); ("Msg", Dq "two words")]).
  - vm_compute; reflexivity.
  - reflexivity.
  - vm_compute; reflexivity.
  - refine (bool_decide_unpack _ _). vm_compute. exact I.
  - refine (bool_decide_unpack _ _). vm_compute. exact I.
Defined.

(** X21.  What a warnings filter does to a call on a line that has a
    text: the call goes as under [recording] up to the first warning the
    filter makes an error; that warning is raised inside the [try],
    caught on line 101, and line 103 reports it as a parser error: the
    line is rejected, whatever record it would have had, and if the
    filter makes the report an error too, the report is raised to the
    caller. *)
Theorem filter_decides_outcome (errors : warnings_filter) (opts : options)
    (line : pyobj) (text : string) :
  line_text line = Some text ->
  parse_log_line errors opts line
  = match first_error errors (warnings (parse_log_line recording opts line)) with
    | None => parse_log_line recording opts line
    | Some (pre, msg) =>
        if errors (report msg) then (Raise (UserWarning (report msg)), pre)
        else (Return None, pre ++ [report msg])
    end.
Proof.
  intros Ht. unfold parse_log_line at 1.
  apply (run_under_filter errors _ opts line text Ht). lia.
Qed.

Lemma filter_decides_outcome_witness :
  parse_log_line
    (fun msg => bool_decide (msg = "Skipping malformed token: 'junk'"))
    default_options (PyStr "2024-11-25 08:30:12 user=admin junk ip=10.0.0.1")
  = (Return None, ["Parser error: Skipping malformed token: 'junk'"]).
Proof.
  refine (eq_trans
            (filter_decides_outcome
               (fun msg => bool_decide (msg = "Skipping malformed token: 'junk'"))
               default_options
               (PyStr "2024-11-25 08:30:12 user=admin junk ip=10.0.0.1")
               "2024-11-25 08:30:12 user=admin junk ip=10.0.0.1" _) _).
  - reflexivity.
  - vm_compute; reflexivity.
Defined.

(** X22.  A call none of whose warnings the filter makes an error goes
    exactly as under [recording]: the same result and the same
    warnings. *)
Theorem unaffected_by_filter (errors : warnings_filter) (opts : options)
    (line : pyobj) :
  Forall (fun msg => errors msg = false)
    (warnings (parse_log_line recording opts line)) ->
  parse_log_line errors opts line = parse_log_line recording opts line.
Proof. apply call_unaffected. Qed.

Lemma unaffected_by_filter_witness :
  parse_log_line
    (fun msg => bool_decide (msg = "Skipping malformed token: 'junk'"))
    default_options (PyStr "                    user=admin")
  = parse_log_line recording default_options (PyStr "                    user=admin").
Proof.
  apply unaffected_by_filter.
  refine (bool_decide_unpack _ _). vm_compute. exact I.
Defined.

End Parser_extras.

(** ** The counting pass *)

Module Counter_extras.

Import Text Re Parser Tokens Counter Counting Lines Tallies.
Import Text_facts Re_facts Run Loop_facts Record_facts Parser_facts
  Timestamp_facts Result_facts Counter_facts Quiet_facts Tally_facts.

(** X13.  On every input [count_failed_logins] returns a snapshot and
    writes no warning (it calls the parser with [warn_on_junk=False]),
    and neither the flag [warn_on_missing_fields] nor the warnings filter
    has an effect on either. *)
Theorem counting_pass_returns_quietly (lines : list pyobj) :
  exists snap, forall errors warn_on_missing_fields,
    count_failed_logins errors lines warn_on_missing_fields = (Return snap, []).
Proof.
  exists (summary (count_lines_result lines)). intros errors w.
  apply count_failed_logins_quiet.
Qed.

(** X14.  In the snapshot, [seen] is the number of lines the parser gives
    a record for, [skipped] the number of lines it gives [None] for, and
    [counted] the number of lines with a record one of whose [status]
    values upper-cases to [FAIL]. *)
Theorem numbers_count_lines (errors : warnings_filter) (lines : list pyobj)
    (warn_on_missing_fields : bool) :
  exists snap,
    returned (count_failed_logins errors lines warn_on_missing_fields) = Some snap
    /\ snap_seen snap = length (filter (fun l => parses l = true) lines)
    /\ snap_skipped snap = length (filter (fun l => parses l = false) lines)
    /\ snap_counted snap = length (filter (fun l => fails l = true) lines).
Proof.
  exists (summary (count_lines_result lines)).
  split; [apply count_failed_logins_returned|].
  apply (numbers_from start lines).
Qed.

(** X15.  The two frequency maps of the snapshot hold, for each text,
    the number of times it stands as a non-empty [user] (resp. [ip])
    value on the failing lines, and no entry for a text that never
    does. *)
Theorem maps_hold_frequencies (errors : warnings_filter) (lines : list pyobj)
    (warn_on_missing_fields : bool) :
  exists snap,
    returned (count_failed_logins errors lines warn_on_missing_fields) = Some snap
    /\ (forall u, users snap !! u = frequency (all_tallied "user" lines) u)
    /\ (forall a, ips snap !! a = frequency (all_tallied "ip" lines) a).
Proof.
  exists (summary (count_lines_result lines)).
  split; [apply count_failed_logins_returned|].
  unfold summary, count_lines_result. cbn [users ips].
  destruct (maps_from start lines) as [-> ->]. cbn [users_ctr ips_ctr start].
  split; intros u; apply lookup_tally_texts_empty, all_tallied_nonempty.
Qed.

(** X16.  No entry of the two frequency maps has the empty text as its
    key, and none has the count zero. *)
Theorem entries_named_and_positive (errors : warnings_filter) (lines : list pyobj)
    (warn_on_missing_fields : bool) :
  exists snap,
    returned (count_failed_logins errors lines warn_on_missing_fields) = Some snap
    /\ forall u n, users snap !! u = Some n \/ ips snap !! u = Some n ->
         u <> "" /\ 0 < n.
Proof.
  exists (summary (count_lines_result lines)).
  split; [apply count_failed_logins_returned|].
  unfold summary, count_lines_result. cbn [users ips].
  destruct (maps_from start lines) as [-> ->]. cbn [users_ctr ips_ctr start].
  assert (Hentry : forall ss u n, Forall (fun s => s <> "") ss ->
            tally_texts ∅ ss !! u = Some n -> u <> "" /\ 0 < n).
  { intros ss u n Hss. rewrite lookup_tally_texts_empty by done.
    unfold frequency. destruct (decide _) as [|Hocc]; [done|]. intros [= <-].
    split; [|lia]. intros ->. apply Hocc. unfold occurrences.
    clear Hocc. induction Hss as [|s ss Hs _ IH]; [done|].
    rewrite filter_cons. by rewrite decide_False. }
  intros u n [H|H]; eapply Hentry; try exact H; apply all_tallied_nonempty.
Qed.

(** X17.  [total_fail] is the number of non-empty [user] values on the
    failing lines, and when there is none, the number of non-empty [ip]
    values on them: it counts values, not lines. *)
Theorem total_fail_counts_values (errors : warnings_filter) (lines : list pyobj)
    (warn_on_missing_fields : bool) :
  exists snap,
    returned (count_failed_logins errors lines warn_on_missing_fields) = Some snap
    /\ total_fail snap
       = if decide (all_tallied "user" lines = [])
         then length (all_tallied "ip" lines)
         else length (all_tallied "user" lines).
Proof.
  exists (summary (count_lines_result lines)).
  split; [apply count_failed_logins_returned|]. apply total_fail_summary.
Qed.

(** X18.  When every failing line holds exactly one non-empty [user]
    value, [total_fail] equals [counted]. *)
Theorem total_fail_is_counted (errors : warnings_filter) (lines : list pyobj)
    (warn_on_missing_fields : bool) :
  Forall (fun line => fails line = true -> length (tallied "user" line) = 1) lines ->
  exists snap,
    returned (count_failed_logins errors lines warn_on_missing_fields) = Some snap
    /\ total_fail snap = snap_counted snap.
Proof.
  intros Hone. exists (summary (count_lines_result lines)).
  split; [apply count_failed_logins_returned|].
  rewrite total_fail_summary.
  destruct (numbers_from start lines) as (_ & _ & Hc).
  unfold summary. cbn [snap_counted]. unfold count_lines_result.
  cbn zeta in Hc. rewrite Hc. cbn [counted start].
  assert (Hlen : length (all_tallied "user" lines)
                 = length (filter (fun l => fails l = true) lines)).
  { apply length_all_tallied. intros line Hl.
    by apply (proj1 (Forall_forall _ _) Hone). }
  destruct (decide _) as [He|_]; [|by rewrite Hlen].
  rewrite He in Hlen. simpl in Hlen. rewrite <- Hlen.
  assert (Hnone : Forall (fun l => fails l = false) lines).
  { apply Forall_forall. intros l Hl. destruct (fails l) eqn:Hf; [|done].
    exfalso. symmetry in Hlen. apply length_zero_iff_nil in Hlen.
    assert (l ∈ filter (fun l => fails l = true) lines) as Hin
      by by apply list_elem_of_filter.
    rewrite Hlen in Hin. by apply elem_of_nil in Hin. }
  assert (all_tallied "ip" lines = []) as ->; [|done].
  clear -Hnone. unfold all_tallied.
  induction Hnone as [|l ls Hl _ IH]; [done|].
  cbn [fmap list_fmap mjoin list_join].
  assert (tallied "ip" l = []) as ->; [|exact IH].
  unfold tallied, fails in *. destruct (record_of l) as [p|]; [|done].
  by rewrite Hl.
Qed.

Lemma total_fail_is_counted_witness :
  exists snap,
    returned (count_failed_logins recording
                [PyStr "2024-11-25 08:30:12 status=FAIL user=admin ip=10.0.0.1";
                 PyStr "2024-11-25 08:30:15 status=SUCCESS user=bob user=eve";
                 PyStr "no timestamp here";
                 PyStr "2024-11-25 08:30:18 status=fail user=root"] false) = Some snap
    /\ total_fail snap = snap_counted snap.
Proof.
  apply total_fail_is_counted.
  refine (bool_decide_unpack _ _). vm_compute. exact I.
Defined.

(** X19.  Counting a concatenation adds up: [seen], [counted], [skipped]
    and the count of every user and address over [l1 ++ l2] are the sums
    of those over [l1] and over [l2]. *)
Theorem counts_add_over_concatenation (errors : warnings_filter)
    (l1 l2 : list pyobj) (w1 w2 w : bool) :
  exists s1 s2 s,
    returned (count_failed_logins errors l1 w1) = Some s1
    /\ returned (count_failed_logins errors l2 w2) = Some s2
    /\ returned (count_failed_logins errors (l1 ++ l2) w) = Some s
    /\ snap_seen s = snap_seen s1 + snap_seen s2
    /\ snap_counted s = snap_counted s1 + snap_counted s2
    /\ snap_skipped s = snap_skipped s1 + snap_skipped s2
    /\ (forall u, count_of (users s) u = count_of (users s1) u + count_of (users s2) u)
    /\ (forall a, count_of (ips s) a = count_of (ips s1) a + count_of (ips s2) a).
Proof.
  exists (summary (count_lines_result l1)), (summary (count_lines_result l2)),
    (summary (count_lines_result (l1 ++ l2))).
  rewrite !count_failed_logins_returned. do 3 (split; [done|]).
  unfold summary, count_lines_result.
  cbn [snap_seen snap_counted snap_skipped users ips].
  destruct (numbers_from start l1) as (-> & -> & ->).
  destruct (numbers_from start l2) as (-> & -> & ->).
  destruct (numbers_from start (l1 ++ l2)) as (-> & -> & ->).
  destruct (maps_from start l1) as [-> ->].
  destruct (maps_from start l2) as [-> ->].
  destruct (maps_from start (l1 ++ l2)) as [-> ->].
  cbn [seen counted skipped users_ctr ips_ctr start].
  rewrite !filter_app, !length_app, !all_tallied_app.
  do 3 (split; [lia|]).
  split; intros u; rewrite !count_of_tally_texts, occurrences_app;
    destruct (decide (u = "")); unfold count_of; rewrite lookup_empty; simpl; lia.
Qed.

(** X20.  The order of the lines does not matter: two inputs that are
    permutations of each other give the same numbers and the same
    frequency maps, entry for entry (the maps compared as mappings, as
    Python compares two [Counter]s, not by the order of insertion), and
    no warning. *)
Theorem order_of_lines_irrelevant (errors errors' : warnings_filter)
    (lines lines' : list pyobj) (w w' : bool) :
  lines ≡ₚ lines' ->
  count_failed_logins errors lines w = count_failed_logins errors' lines' w'.
Proof.
  intros Hp. rewrite !count_failed_logins_quiet.
  by rewrite (summary_Permutation _ _ Hp).
Qed.

Lemma order_of_lines_irrelevant_witness :
  count_failed_logins recording
    [PyStr "2024-11-25 08:30:12 status=FAIL user=admin ip=10.0.0.1";
     PyStr "2024-11-25 08:30:18 status=fail user=root"] false
  = count_failed_logins recording
      [PyStr "2024-11-25 08:30:18 status=fail user=root";
       PyStr "2024-11-25 08:30:12 status=FAIL user=admin ip=10.0.0.1"] true.
Proof.
  apply order_of_lines_irrelevant. apply perm_swap.
Defined.

End Counter_extras.
